(** * Evident Video Fact Checker: the setup wizard (setup.py)

    A shallow embedding of the decision logic of [setup.py]: the model-tier
    catalog and its first-match scan, the GPU detection paths, the two
    service-launch steps with their polling loops, the configuration step
    and the final smoke test.

    Conventions of the embedding.
    - Python [float] values are rationals ([Q]); [>=] is [Qle_bool] with the
      operands swapped.  Not-a-number, infinities and rounding are outside
      the model; a division of integers whose quotient is too large for a
      [float] raises, as it does in Python.
    - Python [str] values are [string]; a character is its code point below
      256.
    - A function that can raise returns a [res]; [try]/[except] is
      [try_except].
    - The outside world (subprocess results, HTTP replies, the parsers of
      the Python library) is an [Env] record of oracles; the mutable part
      (files, directories, the log of actions) is the [State]. *)

From Stdlib Require Import ZArith QArith Qabs String Ascii List Bool Lia Lqa.
From stdpp Require Import gmap strings pretty.
Import ListNotations.

Set Warnings "-register-all,-clear-no-such-hyp".

Local Open Scope string_scope.
Local Open Scope Z_scope.

(** ** Model-tier catalog *)

(** One row of [MODEL_TIERS]:
    (min_vram, min_ram, label, extract, verify, write). *)
Record ModelTier := mkTier {
  min_vram : Z;
  min_ram : Z;
  label : string;
  extract : string;
  verify : string;
  write : string
}.

Definition MODEL_TIERS : list ModelTier := [
  mkTier 24 32 "High-end GPU (24 GB+ VRAM)" "qwen3:8b" "qwen3:30b" "gemma3:27b";
  mkTier 16 32 "Mid-range GPU (16 GB VRAM)" "qwen3:8b" "qwen3:14b" "gemma3:12b";
  mkTier 12 32 "Entry GPU (12 GB VRAM)"     "qwen3:8b" "qwen3:8b"  "gemma3:9b";
  mkTier 0  64 "High-end CPU (64 GB+ RAM)"  "qwen3:8b" "qwen3:14b" "gemma3:9b";
  mkTier 0  32 "Mid-range CPU (32 GB+ RAM)" "qwen3:8b" "qwen3:8b"  "llama3:8b";
  mkTier 0  16 "Minimum (16 GB RAM)"        "phi3:mini" "phi3:mini" "phi3:mini"
].

(** The [hw] dictionary built by [step_hardware]. *)
Record Hardware := mkHardware {
  has_gpu : bool;
  gpu_type : string;
  gpu_name : option string;
  vram : Q;
  ram : Q;
  cores : option Z
}.

(** What the scan of [step_models] leaves in
    [tier_name], [extract], [verify], [write]. *)
Record TierChoice := mkChoice {
  tier_name : string;
  c_extract : string;
  c_verify : string;
  c_write : string
}.

Definition choice_of (t : ModelTier) : TierChoice :=
  mkChoice (label t) (extract t) (verify t) (write t).

(** The values assigned before the loop:
    [extract = verify = write = "phi3:mini"], [tier_name = "Minimum"]. *)
Definition preset_choice : TierChoice :=
  mkChoice "Minimum" "phi3:mini" "phi3:mini" "phi3:mini".

(** [vram >= min_vram and ram >= min_ram] *)
Definition tier_matches (v r : Q) (t : ModelTier) : bool :=
  Qle_bool (inject_Z (min_vram t)) v && Qle_bool (inject_Z (min_ram t)) r.

(** [for ... in tiers: if ...: ...; break] over an arbitrary catalog. *)
Fixpoint scan_tiers (tiers : list ModelTier) (v r : Q) : option ModelTier :=
  match tiers with
  | [] => None
  | t :: rest => if tier_matches v r t then Some t else scan_tiers rest v r
  end.

(** The block "Find best tier" of [step_models]. *)
Definition find_best_tier (hw : Hardware) : TierChoice :=
  match scan_tiers MODEL_TIERS (vram hw) (ram hw) with
  | Some t => choice_of t
  | None => preset_choice
  end.

(** Position of a tier label in the catalog; a label that is not there
    (the preset ["Minimum"]) comes after every entry. *)
Fixpoint label_index (tiers : list ModelTier) (l : string) : nat :=
  match tiers with
  | [] => O
  | t :: rest => if String.eqb (label t) l then O else S (label_index rest l)
  end.

Definition capability_rank (c : TierChoice) : nat :=
  label_index MODEL_TIERS (tier_name c).

(** AMD VRAM lookup for Windows WMI (32-bit AdapterRAM cap); a [dict],
    iterated in insertion order. *)
Definition AMD_VRAM_TABLE : list (string * Q) := [
  ("7900 XTX", 24 # 1); ("7900 XT", 20 # 1); ("7800 XT", 16 # 1);
  ("7700 XT", 12 # 1);  ("7600", 8 # 1);     ("6950 XT", 16 # 1);
  ("6900 XT", 16 # 1);  ("6800 XT", 16 # 1); ("6800", 16 # 1);
  ("6750 XT", 12 # 1);  ("6700 XT", 12 # 1)
].

(** ** Python string methods *)

Module Py.

(** [str.isspace] on code points below 256. *)
Definition is_space (c : ascii) : bool :=
  let n := nat_of_ascii c in
  ((9 <=? n) && (n <=? 13) || (28 <=? n) && (n <=? 32)
   || (n =? 133) || (n =? 160))%nat.

Fixpoint lstrip (s : string) : string :=
  match s with
  | String c rest => if is_space c then lstrip rest else s
  | EmptyString => EmptyString
  end.

Fixpoint rev_onto (s acc : string) : string :=
  match s with
  | EmptyString => acc
  | String c rest => rev_onto rest (String c acc)
  end.

Definition rev (s : string) : string := rev_onto s EmptyString.

Definition rstrip (s : string) : string := rev (lstrip (rev s)).

(** [s.strip()] *)
Definition strip (s : string) : string := rstrip (lstrip s).

(** [s.startswith(p)] *)
Definition startswith (p s : string) : bool := String.prefix p s.

(** [p in s] *)
Fixpoint contains (p s : string) : bool :=
  String.prefix p s ||
  match s with
  | EmptyString => false
  | String _ rest => contains p rest
  end.

(** [s.split(sep)] for a one-character separator: the pieces between the
    separators, at least one. *)
Fixpoint split_acc (sep : ascii) (s cur : string) : list string :=
  match s with
  | EmptyString => [rev cur]
  | String c rest =>
      if Ascii.eqb c sep then rev cur :: split_acc sep rest EmptyString
      else split_acc sep rest (String c cur)
  end.

Definition split (sep : ascii) (s : string) : list string :=
  split_acc sep s EmptyString.

(** [s.split(sep, 1)]: cut at the first separator only. *)
Fixpoint split1_acc (sep : ascii) (s cur : string) : list string :=
  match s with
  | EmptyString => [rev cur]
  | String c rest =>
      if Ascii.eqb c sep then [rev cur; rest]
      else split1_acc sep rest (String c cur)
  end.

Definition split1 (sep : ascii) (s : string) : list string :=
  split1_acc sep s EmptyString.

(** [s.upper()] on the letters a..z; no other character becomes one of
    them. *)
Definition upper_char (c : ascii) : ascii :=
  let n := nat_of_ascii c in
  if ((97 <=? n) && (n <=? 122))%nat then ascii_of_nat (n - 32) else c.

Fixpoint upper (s : string) : string :=
  match s with
  | EmptyString => EmptyString
  | String c rest => String (upper_char c) (upper rest)
  end.

(** Truth value of a [str] and of an [Optional[str]]. *)
Definition truthy (s : string) : bool :=
  match s with EmptyString => false | _ => true end.

(** [s.lower()] on the letters A..Z. *)
Definition lower_char (c : ascii) : ascii :=
  let n := nat_of_ascii c in
  if ((65 <=? n) && (n <=? 90))%nat then ascii_of_nat (n + 32) else c.

Fixpoint lower (s : string) : string :=
  match s with
  | EmptyString => EmptyString
  | String c rest => String (lower_char c) (lower rest)
  end.

Definition truthy_opt (o : option string) : bool :=
  match o with Some s => truthy s | None => false end.

Definition newline : ascii := ascii_of_nat 10.

End Py.

Arguments Py.strip : simpl never.
Arguments Py.split : simpl never.
Arguments Py.split1 : simpl never.
Arguments Py.contains : simpl never.
Arguments Py.startswith : simpl never.
Arguments Py.upper : simpl never.
Arguments Py.lower : simpl never.

(** ** Exceptions and results *)

Inductive exn :=
| CalledProcessError | FileNotFoundError | TimeoutExpired
| IndexError | ValueError | JSONDecodeError | KeyError
| AttributeError | TypeError | FileExistsError | OSError | EOFError
| OverflowError | ZeroDivisionError
| SystemExit (code : Z).

(** [except Exception]: everything but [SystemExit]. *)
Definition is_Exception (e : exn) : bool :=
  match e with SystemExit _ => false | _ => true end.

Inductive res (A : Type) :=
| Ok (a : A)
| Raise (e : exn).
Arguments Ok {A} a.
Arguments Raise {A} e.

(** JSON documents as [json.loads] returns them. *)
Inductive json :=
| JNull
| JBool (b : bool)
| JNum (q : Q)
| JStr (s : string)
| JArr (items : list json)
| JObj (fields : list (string * json)).

(** What ends up in a file: the setup's own templates with the values
    substituted into them, or text that was there before. *)
Inductive content :=
| Raw (text : string)
| SearxSettings (secret : string)
| SearxLimiter
| ConfigYaml (ollama_url searxng_url m_extract m_verify m_write : string)
| EnvFile (ollama_url searxng_url m_extract m_verify m_write : string)
          (gpu_enabled : bool) (gpu : string) (gpu_memory_gb ram_gb : Q).

(** Result of [subprocess.run] for a command line. *)
Inductive proc_result :=
| Exited (returncode : Z) (stdout : string)
| NotFound      (* FileNotFoundError: no such program *)
| TimedOut      (* TimeoutExpired *)
| OsFailure.    (* any other OSError *)

Inductive level := LvOk | LvFail | LvWarn | LvInfo | LvPlain | LvBanner.

Inductive event :=
| EvRun (cmd : list string)
| EvPopen (cmd : list string)
| EvHttpGet (url : string)
| EvHttpPost (url : string)
| EvSleep (seconds : Z)
| EvWriteFile (path : string)
| EvMkdir (path : string)
| EvPrint (lv : level) (text : string).

(** The environment of one run. *)
Record Env := mkEnv {
  platform_system : string;
  (* subprocess.run of a command line *)
  proc : list string -> proc_result;
  (* whether subprocess.Popen of a command line succeeds *)
  popen_ok : list string -> bool;
  (* reply to the n-th HTTP request of the run, None when urlopen raises *)
  http_reply : nat -> string -> option string;
  (* float(s), int(s), json.loads(s); None when they raise *)
  py_float : string -> option Q;
  py_int : string -> option Z;
  json_loads : string -> option json;
  (* yaml.safe_load of a file followed by the test
     ["ollama" in cfg and "searx" in cfg]; None when either raises *)
  yaml_sections_ok : content -> option bool;
  (* psutil *)
  virtual_memory_total : Z;
  cpu_count_physical : option Z;
  cpu_count_logical : option Z;
  (* secrets.token_hex(32) *)
  token_hex : string;
  (* the packages whose import succeeds before and after pip install *)
  importable : bool -> string -> bool;
  (* sys.version_info >= (3, 11) *)
  python_ok : bool
}.

(** The mutable part: files and directories below the project root, the
    lines still to be read from standard input, and what was done. *)
Record State := mkState {
  files : gmap string content;
  dirs : gset string;
  stdin : list string;
  http_count : nat;
  trace : list event
}.

(** ** The monad of the steps: state and exceptions *)

Definition M (A : Type) : Type := State -> res A * State.

Definition ret {A} (a : A) : M A := fun s => (Ok a, s).

Definition bind {A B} (m : M A) (k : A -> M B) : M B :=
  fun s =>
    match m s with
    | (Ok a, s') => k a s'
    | (Raise e, s') => (Raise e, s')
    end.

Definition raise {A} (e : exn) : M A := fun s => (Raise e, s).

(** [try: body  except ...: handler]; the handler tells which exceptions
    it takes.  What the body did before raising stays done. *)
Definition try_except {A} (body : M A) (handler : exn -> option (M A)) : M A :=
  fun s =>
    match body s with
    | (Ok a, s') => (Ok a, s')
    | (Raise e, s') =>
        match handler e with
        | Some h => h s'
        | None => (Raise e, s')
        end
    end.

Declare Scope step_scope.
Delimit Scope step_scope with step.
Notation "x ← y ; z" := (bind y (fun x => z)) (only parsing) : step_scope.
Notation "' x ← y ; z" := (bind y (fun x => z)) (only parsing) : step_scope.
Notation "x ;; z" := (bind x (fun _ => z)) (only parsing) : step_scope.
Local Open Scope step_scope.

(** [except Exception: h] *)
Definition on_Exception {A} (h : M A) (e : exn) : option (M A) :=
  if is_Exception e then Some h else None.

(** The state after one more entry in the log. *)
Definition record (e : event) (s : State) : State :=
  mkState (files s) (dirs s) (stdin s) (http_count s) (trace s ++ [e]).

Definition emit (e : event) : M unit := fun s => (Ok tt, record e s).

Definition print (lv : level) (text : string) : M unit := emit (EvPrint lv text).

Definition ok := print LvOk.
Definition fail := print LvFail.
Definition warn := print LvWarn.
Definition info := print LvInfo.
Definition banner := print LvBanner.

Definition get_state : M State := fun s => (Ok s, s).

(** [input()]: the next line of standard input. *)
Definition input : M string :=
  fun s =>
    match stdin s with
    | [] => (Raise EOFError, s)
    | l :: rest =>
        (Ok l, mkState (files s) (dirs s) rest (http_count s) (trace s))
    end.

(** [Path.exists], [Path.is_dir], [Path.write_text], [Path.mkdir(exist_ok=True)]. *)
Definition exists_in (s : State) (p : string) : bool :=
  bool_decide (is_Some (files s !! p)) || bool_decide (p ∈ dirs s).

Definition path_exists (p : string) : M bool :=
  fun s => (Ok (exists_in s p), s).

Definition is_dir (p : string) : M bool :=
  fun s => (Ok (bool_decide (p ∈ dirs s)), s).

Definition write_text (p : string) (c : content) : M unit :=
  fun s => (Ok tt, mkState (<[p := c]> (files s)) (dirs s) (stdin s)
                           (http_count s) (trace s ++ [EvWriteFile p])).

Definition mkdir_exist_ok (p : string) : M unit :=
  fun s =>
    if bool_decide (p ∈ dirs s) then (Ok tt, s)
    else if bool_decide (is_Some (files s !! p)) then (Raise FileExistsError, s)
    else (Ok tt, mkState (files s) ({[p]} ∪ dirs s) (stdin s)
                         (http_count s) (trace s ++ [EvMkdir p])).

Definition OLLAMA_URL := "http://localhost:11434".
Definition SEARXNG_URL := "http://localhost:8080".
Definition COMPOSE_FILE := "docker-compose.searxng.yml".
Definition CONFIG_FILE := "config.yaml".
Definition ENV_FILE := ".env".
Definition REQUIREMENTS_FILE := "Requirements.txt".
Definition SEARXNG_DIR := "searxng".

(** The command lines of the three GPU queries. *)
Definition nvidia_smi : list string :=
  ["nvidia-smi"; "--query-gpu=name,memory.total"; "--format=csv,noheader,nounits"].

Definition wmi_query : list string :=
  ["powershell"; "-Command";
   "Get-WmiObject Win32_VideoController | Select-Object Name,AdapterRAM | Format-List"].

Definition rocm_smi : list string := ["rocm-smi"; "--showproductname"].

Section Steps.

Variable env : Env.

(** [time.sleep] *)
Definition sleep (seconds : Z) : M unit := emit (EvSleep seconds).

(** [subprocess.run(cmd, check=check, ...)]: return code and output. *)
Definition subprocess_run (cmd : list string) (check : bool) : M (Z * string) :=
  emit (EvRun cmd);;
  match proc env cmd with
  | Exited rc out =>
      if check && negb (rc =? 0) then raise CalledProcessError
      else ret (rc, out)
  | NotFound => raise FileNotFoundError
  | TimedOut => raise TimeoutExpired
  | OsFailure => raise OSError
  end.

(** [run(cmd, capture, check)] *)
Definition run (cmd : list string) (capture check : bool) : M (option string) :=
  try_except
    (r ← subprocess_run cmd check;
     ret (if capture then Some (Py.strip (snd r)) else None))
    (fun e =>
       match e with
       | CalledProcessError | FileNotFoundError | TimeoutExpired =>
           Some (if check then raise e else ret None)
       | _ => None
       end).

(** [subprocess.Popen(cmd, ...)], detached. *)
Definition popen (cmd : list string) : M unit :=
  emit (EvPopen cmd);;
  if popen_ok env cmd then ret tt else raise OSError.

(** [http_get(url)]: the body, or [None] on any failure. *)
Definition http_get (url : string) : M (option string) :=
  fun s =>
    (Ok (http_reply env (http_count s) url),
     mkState (files s) (dirs s) (stdin s) (S (http_count s)) (trace s ++ [EvHttpGet url])).

(** [http_post_json(url, data)] *)
Definition http_post_json (url : string) : M (option string) :=
  fun s =>
    (Ok (http_reply env (http_count s) url),
     mkState (files s) (dirs s) (stdin s) (S (http_count s)) (trace s ++ [EvHttpPost url])).

(** ** Step 4: hardware detection *)

(** [l[i]] *)
Definition getitem {A} (l : list A) (i : nat) : M A :=
  match nth_error l i with
  | Some x => ret x
  | None => raise IndexError
  end.

(** [float(s)] and [int(s)] *)
Definition float_of (s : string) : M Q :=
  match py_float env s with
  | Some q => ret q
  | None => raise ValueError
  end.

Definition int_of (s : string) : M Z :=
  match py_int env s with
  | Some n => ret n
  | None => raise ValueError
  end.

(** The least magnitude that no longer rounds to a finite [float]:
    [2^1024 - 2^970]. *)
Definition float_overflow : Z := 2 ^ 1024 - 2 ^ 970.

(** [n / d] on two [int]: the quotient as a [float], which a quotient too
    large for a [float] does not have. *)
Definition true_div (n d : Z) : M Q :=
  if d =? 0 then raise ZeroDivisionError
  else if float_overflow * Z.abs d <=? Z.abs n then raise OverflowError
  else ret (inject_Z n / inject_Z d)%Q.

Definition str_of (o : option string) : string :=
  match o with Some s => s | None => "" end.

(** The value every detection path returns when it finds nothing:
    [False, None, 0.0]. *)
Definition not_found : bool * option string * Q := (false, None, 0%Q).

Definition _detect_nvidia : M (bool * option string * Q) :=
  try_except
    (out ← run nvidia_smi true false;
     if Py.truthy_opt out then
       let parts := Py.split "," (str_of out) in
       p0 ← getitem parts 0;
       let name := Py.strip p0 in
       p1 ← getitem parts 1;
       f ← float_of (Py.strip p1);
       let vram := (f / inject_Z 1024)%Q in
       ret (true, Some name, vram)
     else ret not_found)
    (on_Exception (ret not_found)).

(** [vram = 0.0; for pattern, known in table.items():
      if pattern in name: vram = known; break] *)
Fixpoint lookup_vram (table : list (string * Q)) (name : string) : Q :=
  match table with
  | [] => 0%Q
  | (pattern, known_vram) :: rest =>
      if Py.contains pattern name then known_vram else lookup_vram rest name
  end.

(** [except (ValueError, IndexError)]; a JSON decoding error is a
    [ValueError] too. *)
Definition on_Value_or_Index {A} (h : M A) (e : exn) : option (M A) :=
  match e with
  | ValueError | JSONDecodeError | IndexError => Some h
  | _ => None
  end.

(** The loop over the lines of the WMI listing, with the name seen so
    far. *)
Fixpoint amd_windows_scan (lines : list string) (gpu_name : option string)
  : M (bool * option string * Q) :=
  match lines with
  | [] => ret not_found
  | line0 :: rest =>
      let line := Py.strip line0 in
      if Py.startswith "Name" line
         && (Py.contains "Radeon" line || Py.contains "AMD" line) then
        if Py.contains ":" line then
          p ← getitem (Py.split1 ":" line) 1;
          amd_windows_scan rest (Some (Py.strip p))
        else amd_windows_scan rest None
      else if Py.startswith "AdapterRAM" line && Py.truthy_opt gpu_name then
        (* WMI AdapterRAM is 32-bit capped: use lookup table *)
        let vram := lookup_vram AMD_VRAM_TABLE (str_of gpu_name) in
        vram ← (if Qeq_bool vram 0 then
                  (* Try parsing reported value *)
                  try_except
                    (p ← getitem (Py.split1 ":" line) 1;
                     let raw := Py.strip p in
                     if Py.truthy raw then
                       n ← int_of raw;
                       true_div n (1024 ^ 3)
                     else ret 0%Q)
                    (on_Value_or_Index (ret vram))
                else ret vram);
        ret (true, gpu_name, vram)
      else amd_windows_scan rest gpu_name
  end.

Definition _detect_amd_windows : M (bool * option string * Q) :=
  if negb (String.eqb (platform_system env) "Windows") then ret not_found
  else
    try_except
      (out ← run wmi_query true false;
       if negb (Py.truthy_opt out) then ret not_found
       else amd_windows_scan (Py.split Py.newline (str_of out)) None)
      (on_Exception (ret not_found)).

(** The loop of [_detect_amd_rocm] that looks for the card name. *)
Fixpoint rocm_name (lines : list string) : option string :=
  match lines with
  | [] => None
  | line :: rest =>
      if Py.contains "Card series:" line || Py.contains "Card model:" line
      then Some (Py.strip (List.last (Py.split ":" line) ""))
      else if Py.contains "Radeon" line || Py.contains "AMD" line
      then Some (Py.strip line)
      else rocm_name rest
  end.

Definition _detect_amd_rocm : M (bool * option string * Q) :=
  try_except
    (out ← run rocm_smi true false;
     if Py.truthy_opt out && Py.contains "GPU" (str_of out) then
       let name := rocm_name (Py.split Py.newline (str_of out)) in
       if Py.truthy_opt name then
         (* Try VRAM detection *)
         let vram := lookup_vram AMD_VRAM_TABLE (str_of name) in
         ret (true, name, vram)
       else ret not_found
     else ret not_found)
    (on_Exception (ret not_found)).

(** Check if Ollama is currently using GPU via 'ollama ps'. *)
Definition _check_ollama_gpu : M bool :=
  try_except
    (out ← run ["ollama"; "ps"] true false;
     ret (Py.truthy_opt out && Py.contains "GPU" (Py.upper (str_of out))))
    (on_Exception (ret false)).

(** [a or b] on optional integers. *)
Definition or_else (a b : option Z) : option Z :=
  match a with
  | Some n => if n =? 0 then b else a
  | None => b
  end.

Definition step_hardware : M Hardware :=
  banner "Step 4 / 8 : Hardware Detection";;
  nv ← _detect_nvidia;
  let '(found_nv, nv_name, nv_vram) := nv in
  gpu ← (if found_nv then
           ok "NVIDIA GPU";;
           ret (true, "nvidia", nv_name, nv_vram)
         else
           info "No NVIDIA GPU detected";;
           amd ← (if String.eqb (platform_system env) "Windows"
                  then _detect_amd_windows else ret not_found);
           amd ← (if negb (fst (fst amd)) then _detect_amd_rocm else ret amd);
           let '(found_amd, amd_name, amd_vram) := amd in
           if found_amd then
             ok "AMD GPU";;
             (* Check if Ollama is actually using the GPU *)
             accel ← _check_ollama_gpu;
             (if accel then ok "Ollama is using GPU acceleration"
              else warn "Ollama may not be using GPU (check 'ollama ps' after loading a model)");;
             ret (true, "amd", amd_name, amd_vram)
           else
             info "No AMD GPU detected — will use CPU mode";;
             ret (false, "none", None, 0%Q));
  let '(has, gtype, gname, v) := gpu in
  let r := (inject_Z (virtual_memory_total env) / inject_Z (1024 ^ 3))%Q in
  ok "RAM";;
  let n := or_else (cpu_count_physical env) (cpu_count_logical env) in
  ok "CPU";;
  ret (mkHardware has gtype gname v r n).

(** ** Step 2: Ollama *)

Definition tags_url := OLLAMA_URL ++ "/api/tags".

(** The elapsed time shown while waiting: ["({(i+1)*5}s)"]. *)
Definition elapsed (i : Z) : string := "(" ++ pretty ((i + 1) * 5) ++ "s)".

(** [for i in range(i, i + n): time.sleep(5); if probe(): ok(ready);
    return True; info(waiting (i+1)*5)], then the code after the loop. *)
Fixpoint wait_loop (n : nat) (i : Z) (probe : M bool) (ready waiting : string)
  (after : M bool) : M bool :=
  match n with
  | O => after
  | S k =>
      sleep 5;;
      up ← probe;
      if up then ok ready;; ret true
      else info (waiting ++ elapsed i);;
           wait_loop k (i + 1) probe ready waiting after
  end.

Definition ollama_probe : M bool :=
  resp ← http_get tags_url;
  ret (Py.truthy_opt resp).

Definition step_ollama (check_only : bool) : M bool :=
  banner "Step 2 / 8 : Ollama LLM Service";;
  (* Check CLI *)
  cli_ok ← try_except
    (ver ← run ["ollama"; "--version"] true false;
     if Py.truthy_opt ver then ok "Ollama CLI";; ret true else ret false)
    (on_Exception (ret false));
  if negb cli_ok then
    fail "Ollama CLI not found in PATH";;
    print LvPlain "Install Ollama";;
    ret false
  else
  (* Check service *)
  resp ← http_get tags_url;
  if Py.truthy_opt resp then
    ok "Ollama service running";;
    ret true
  else
  warn "Ollama installed but service not responding";;
  if check_only then
    fail "Start Ollama and re-run";;
    ret false
  else
  (* Try to start it *)
  info "Attempting to start Ollama...";;
  started ← try_except
    (popen ["ollama"; "serve"];;
     info "Started 'ollama serve' in background";;
     ret true)
    (on_Exception
       (warn "Could not auto-start Ollama";;
        print LvPlain "Start Ollama manually";;
        ret false));
  if negb started then ret false
  else
  (* Wait for it *)
  wait_loop 12 0 ollama_probe "Ollama service ready" "Waiting for Ollama... "
    (fail "Ollama did not start within 60s";;
     print LvPlain "Start Ollama manually and re-run setup";;
     ret false).

(** ** Step 6: SearXNG *)

Definition _searxng_is_running : M bool :=
  resp ← http_get (SEARXNG_URL ++ "/search?q=test&format=json");
  ret (match resp with Some _ => true | None => false end).

(** Generate searxng/settings.yml and limiter.toml. *)
Definition _create_searxng_config : M unit :=
  mkdir_exist_ok SEARXNG_DIR;;
  let settings_path := SEARXNG_DIR ++ "/settings.yml" in
  e ← path_exists settings_path;
  (if negb e then
     write_text settings_path (SearxSettings (token_hex env));;
     ok "Created searxng/settings.yml"
   else ok "searxng/settings.yml already exists");;
  let limiter_path := SEARXNG_DIR ++ "/limiter.toml" in
  e ← path_exists limiter_path;
  if negb e then
    write_text limiter_path SearxLimiter;;
    ok "Created searxng/limiter.toml"
  else ok "searxng/limiter.toml already exists".

Definition compose_up : list string :=
  ["docker"; "compose"; "-f"; COMPOSE_FILE; "up"; "-d"].

Definition compose_ps : list string :=
  ["docker"; "compose"; "-f"; COMPOSE_FILE; "ps"].

Definition step_searxng (check_only : bool) : M bool :=
  banner "Step 6 / 8 : SearXNG Search Engine";;
  (* Already running? *)
  up ← _searxng_is_running;
  if up then
    ok "SearXNG already running";;
    ret true
  else
  if check_only then
    fail "SearXNG not responding";;
    ret false
  else
  (* Check compose file exists *)
  e ← path_exists COMPOSE_FILE;
  if negb e then
    fail "Missing docker-compose.searxng.yml";;
    ret false
  else
  (* Generate config files *)
  _create_searxng_config;;
  (* Start containers *)
  info "Starting SearXNG + Redis via Docker Compose...";;
  started ← try_except
    (run compose_up false true;; ret true)
    (fun e =>
       match e with
       | CalledProcessError | TimeoutExpired =>
           Some (fail "Docker Compose failed";;
                 print LvPlain "Check: is Docker Desktop running?";;
                 print LvPlain "Manual start: docker compose up -d";;
                 ret false)
       | _ => None
       end);
  if negb started then ret false
  else
  (* Wait for health *)
  info "Waiting for SearXNG to be ready (this can take 30-90s)...";;
  wait_loop 18 0 _searxng_is_running "SearXNG ready" "Waiting... "
    ((* Might still be starting: check container status *)
     warn "SearXNG not responding yet";;
     try_except
       (out ← run compose_ps true false;
        if Py.truthy_opt out then print LvPlain (str_of out) else ret tt)
       (on_Exception (ret tt));;
     warn "SearXNG may need more time. Check: docker compose -f docker-compose.searxng.yml logs searxng";;
     ret false).

(** ** Step 5: model selection and download *)

(** The [models] dictionary. *)
Record Models := mkModels {
  m_extract : string;
  m_verify : string;
  m_write : string
}.

(** [ask(question, default)]: prompt and read a line, until one is
    empty, yes or no.  The result with the lines left over and the log. *)
Fixpoint ask_lines (question : string) (default : bool) (lines : list string)
  (log : list event) : res bool * list string * list event :=
  let log := (log ++ [EvPrint LvPlain question])%list in
  match lines with
  | [] => (Raise EOFError, [], log)
  | l :: rest =>
      let answer := Py.lower (Py.strip l) in
      if negb (Py.truthy answer) then (Ok default, rest, log)
      else if String.eqb answer "y" || String.eqb answer "yes"
      then (Ok true, rest, log)
      else if String.eqb answer "n" || String.eqb answer "no"
      then (Ok false, rest, log)
      else ask_lines question default rest log
  end.

Definition ask (question : string) (default : bool) : M bool :=
  fun s =>
    let '(r, rest, log) := ask_lines question default (stdin s) (trace s) in
    (r, mkState (files s) (dirs s) rest (http_count s) log).

(** [d.get(key, default)] on a decoded JSON document. *)
Fixpoint assoc (key : string) (fields : list (string * json)) : option json :=
  match fields with
  | [] => None
  | (k, v) :: rest => if String.eqb k key then Some v else assoc key rest
  end.

Definition json_get (data : json) (key : string) (default : json) : M json :=
  match data with
  | JObj fields =>
      ret (match assoc key fields with Some v => v | None => default end)
  | _ => raise AttributeError
  end.

(** [for m in value]: a list gives its items, a string its characters,
    an object its keys. *)
Fixpoint chars (s : string) : list json :=
  match s with
  | EmptyString => []
  | String c rest => JStr (String c EmptyString) :: chars rest
  end.

Definition json_iter (value : json) : M (list json) :=
  match value with
  | JArr items => ret items
  | JStr s => ret (chars s)
  | JObj fields => ret (map (fun kv => JStr (fst kv)) fields)
  | _ => raise TypeError
  end.

(** [m["name"]], kept when it is a string; a name that cannot be put in
    a set raises, one that is no string equals no model name. *)
Definition json_name (m : json) : M (option string) :=
  match m with
  | JObj fields =>
      match assoc "name" fields with
      | Some (JStr s) => ret (Some s)
      | Some (JArr _) | Some (JObj _) => raise TypeError
      | Some _ => ret None
      | None => raise KeyError
      end
  | _ => raise TypeError
  end.

Fixpoint names_of (items : list json) : M (list string) :=
  match items with
  | [] => ret []
  | m :: rest =>
      n ← json_name m;
      ns ← names_of rest;
      ret (match n with Some s => s :: ns | None => ns end)
  end.

Definition json_decode (s : string) : M json :=
  match json_loads env s with
  | Some j => ret j
  | None => raise JSONDecodeError
  end.

(** Get set of model names currently available in Ollama. *)
Definition _ollama_models : M (list string) :=
  resp ← http_get tags_url;
  if negb (Py.truthy_opt resp) then ret []
  else
    try_except
      (data ← json_decode (str_of resp);
       ms ← json_get data "models" (JArr []);
       items ← json_iter ms;
       names_of items)
      (fun e =>
         match e with
         | JSONDecodeError | KeyError => Some (ret [])
         | _ => None
         end).

Definition mem (x : string) (l : list string) : bool :=
  existsb (String.eqb x) l.

(** [list(set(...))]: each value once, here in order of first
    occurrence. *)
Fixpoint unique (l : list string) : list string :=
  match l with
  | [] => []
  | x :: rest => x :: List.filter (fun y => negb (String.eqb x y)) (unique rest)
  end.

(** [input(prompt).strip() or current] *)
Definition input_or (prompt current : string) : M string :=
  print LvPlain prompt;;
  l ← input;
  let v := Py.strip l in
  ret (if Py.truthy v then v else current).

Fixpoint pull_all (needed : list string) : M unit :=
  match needed with
  | [] => ret tt
  | model :: rest =>
      info ("Pulling " ++ model);;
      try_except
        (subprocess_run ["ollama"; "pull"; model] true;;
         ok ("Downloaded " ++ model))
        (fun e =>
           match e with
           | CalledProcessError =>
               Some (fail ("Failed to download " ++ model);;
                     print LvPlain ("Try manually: ollama pull " ++ model))
           | _ => None
           end);;
      pull_all rest
  end.

Definition step_models (hw : Hardware) (check_only : bool) : M Models :=
  banner "Step 5 / 8 : Model Selection & Download";;
  (* Find best tier *)
  let tier := find_best_tier hw in
  print LvPlain ("Hardware tier: " ++ tier_name tier);;
  print LvPlain "Recommended models:";;
  print LvPlain ("Extract:  " ++ c_extract tier);;
  print LvPlain ("Verify:   " ++ c_verify tier);;
  print LvPlain ("Write:    " ++ c_write tier);;
  keep ← (if check_only then ret true else ask "Use these models?" true);
  models ← (if negb keep then
              e ← input_or "Extract model" (c_extract tier);
              v ← input_or "Verify model" (c_verify tier);
              w ← input_or "Write model" (c_write tier);
              ret (mkModels e v w)
            else ret (mkModels (c_extract tier) (c_verify tier) (c_write tier)));
  let uniq := unique [m_extract models; m_verify models; m_write models] in
  (* Check what's already pulled *)
  available ← _ollama_models;
  let already := List.filter (fun m => mem m available) uniq in
  let needed := List.filter (fun m => negb (mem m available)) uniq in
  (match already with [] => ret tt | _ => ok "Already pulled" end);;
  match needed with
  | [] => ok "All models available";; ret models
  | _ =>
  if check_only then
    fail "Missing models";;
    ret models
  else
  print LvPlain "Need to download model(s)";;
  dl ← ask "Download now?" true;
  if negb dl then
    warn "Skipping model download — you can pull models later with 'ollama pull <model>'";;
    ret models
  else
  pull_all needed;;
  (* Verify *)
  available ← _ollama_models;
  let still_missing := List.filter (fun m => negb (mem m available)) uniq in
  (match still_missing with
   | [] => ok "All models ready"
   | _ => warn "Still missing"
   end);;
  ret models
  end.

(** ** Step 7: configuration files *)

Definition runtime_dirs : list string := ["cache"; "runs"; "store"; "inbox"; "logs"].

(** [for d in dirs: (PROJECT_ROOT / d).mkdir(exist_ok=True)] *)
Fixpoint make_dirs (ds : list string) : M unit :=
  match ds with
  | [] => ret tt
  | d :: rest => mkdir_exist_ok d;; make_dirs rest
  end.

Definition read_file (p : string) : M (option content) :=
  fun s => (Ok (files s !! p), s).

Definition step_config (models : Models) (hw : Hardware) (check_only : bool)
  : M bool :=
  banner "Step 7 / 8 : Configuration Files";;
  (* config.yaml *)
  e ← path_exists CONFIG_FILE;
  go_on ← (if e then
     ok "config.yaml exists";;
     (* Validate it's parseable *)
     c ← read_file CONFIG_FILE;
     match c with
     | Some c =>
         match yaml_sections_ok env c with
         | Some true => ok "config.yaml is valid"
         | Some false => warn "config.yaml missing 'ollama' or 'searx' sections"
         | None => warn "config.yaml parse error"
         end
     | None => warn "config.yaml parse error"   (* a directory: open() raises *)
     end;;
     ret true
   else
     if check_only then
       fail "config.yaml does not exist";;
       ret false
     else
       info "Generating config.yaml...";;
       write_text CONFIG_FILE
         (ConfigYaml OLLAMA_URL SEARXNG_URL
            (m_extract models) (m_verify models) (m_write models));;
       ok "Created config.yaml";;
       ret true);
  if negb go_on then ret false
  else
  (* .env file *)
  e ← path_exists ENV_FILE;
  (if e then ok ".env file exists"
   else
     if check_only then
       warn ".env file does not exist (optional — config.yaml is primary)"
     else
       info "Generating .env...";;
       write_text ENV_FILE
         (EnvFile OLLAMA_URL SEARXNG_URL
            (m_extract models) (m_verify models) (m_write models)
            (has_gpu hw) (gpu_type hw) (vram hw) (ram hw));;
       ok "Created .env");;
  (* Directories *)
  make_dirs runtime_dirs;;
  ok "Runtime directories ready: cache, runs, store, inbox, logs";;
  ret true.

(** ** Step 8: validation and smoke test *)

(** The loop over [models.items()] of the service checks; the result is
    whether every model is available. *)
Fixpoint check_models (available : list string) (ms : list string) : M bool :=
  match ms with
  | [] => ret true
  | model :: rest =>
      if mem model available then
        ok ("Model available: " ++ model);;
        check_models available rest
      else
        warn ("Model NOT available: " ++ model);;
        check_models available rest;;
        ret false
  end.

(** The loop over the runtime directories of the service checks. *)
Fixpoint check_dirs (ds : list string) : M bool :=
  match ds with
  | [] => ret true
  | d :: rest =>
      e ← is_dir d;
      if e then
        ok ("Directory: " ++ d);;
        check_dirs rest
      else
        fail ("Directory missing: " ++ d);;
        check_dirs rest;;
        ret false
  end.

(** Everything of [step_validate_and_test] up to the test of [all_ok]:
    the value of [all_ok]. *)
Definition service_checks (models : Models) : M bool :=
  print LvPlain "Service checks:";;
  (* Ollama API *)
  resp ← http_get tags_url;
  ok1 ← (if Py.truthy_opt resp then
           ok "Ollama API responding";;
           (* Check required models *)
           available ← _ollama_models;
           check_models available
             [m_extract models; m_verify models; m_write models]
         else
           fail "Ollama not responding";;
           ret false);
  (* SearXNG API *)
  up ← _searxng_is_running;
  (if up then ok "SearXNG API responding" else fail "SearXNG not responding");;
  (* Config *)
  e ← path_exists CONFIG_FILE;
  (if e then ok "config.yaml present" else fail "config.yaml missing");;
  (* Directories *)
  ok4 ← check_dirs runtime_dirs;
  ret (ok1 && up && e && ok4).

Definition generate_url := OLLAMA_URL ++ "/api/generate".
Definition search_url := SEARXNG_URL ++ "/search?q=python+programming&format=json".

(** [value.strip()]: only a string has the method. *)
Definition json_strip (value : json) : M string :=
  match value with
  | JStr s => ret (Py.strip s)
  | _ => raise AttributeError
  end.

(** [value / 1e9]: numbers and booleans can be divided, an integer too
    large for a [float] cannot. *)
Definition json_div (value : json) (d : Q) : M Q :=
  match value with
  | JNum q =>
      if Qle_bool (inject_Z float_overflow) (Qabs q) then raise OverflowError
      else ret (q / d)%Q
  | JBool b => ret ((if b then 1 else 0) / d)%Q
  | _ => raise TypeError
  end.

(** [len(value)] *)
Definition json_len (value : json) : M nat :=
  match value with
  | JArr items => ret (length items)
  | JStr s => ret (String.length s)
  | JObj fields => ret (length fields)
  | _ => raise TypeError
  end.

Definition on_JSONDecodeError {A} (h : M A) (e : exn) : option (M A) :=
  match e with
  | JSONDecodeError => Some h
  | _ => None
  end.

(** 1. LLM test: send a simple prompt to Ollama.  The result is whether
    the sub-check passed. *)
Definition smoke_llm (models : Models) : M bool :=
  info "Testing LLM (Ollama)...";;
  llm_resp ← http_post_json generate_url;
  if Py.truthy_opt llm_resp then
    try_except
      (data ← json_decode (str_of llm_resp);
       r ← json_get data "response" (JStr "");
       text ← json_strip r;
       d ← json_get data "total_duration" (JNum 0);
       duration ← json_div d (1000000000 # 1);
       ok ("LLM responded in time: " ++ m_extract models))
      (on_JSONDecodeError (ok ("LLM responded: " ++ m_extract models)));;
    ret true
  else
    fail "LLM did not respond within 120s";;
    ret false.

(** 2. Search test: query SearXNG. *)
Definition smoke_search : M bool :=
  info "Testing search (SearXNG)...";;
  search_resp ← http_get search_url;
  if Py.truthy_opt search_resp then
    try_except
      (data ← json_decode (str_of search_resp);
       r ← json_get data "results" (JArr []);
       n ← json_len r;
       ok "Search returned results")
      (on_JSONDecodeError (warn "Search response not valid JSON"));;
    ret true
  else
    fail "Search did not respond";;
    ret false.

(** 3. HTTP fetch test. *)
Definition smoke_fetch : M unit :=
  info "Testing HTTP fetch...";;
  fetch_resp ← http_get "https://httpbin.org/get";
  if Py.truthy_opt fetch_resp then ok "HTTP fetch working"
  else
    (* httpbin might be blocked; try a simpler test *)
    fetch_resp2 ← http_get "https://example.com";
    if Py.truthy_opt fetch_resp2 then ok "HTTP fetch working"
    else warn "HTTP fetch failed (may be a network issue)".

(** The part of [step_validate_and_test] after the service checks. *)
Definition smoke_test (models : Models) : M bool :=
  print LvPlain "Smoke test (end-to-end pipeline check):";;
  llm_ok ← smoke_llm models;
  search_ok ← smoke_search;
  smoke_fetch;;
  let smoke_ok := llm_ok && search_ok in
  (if smoke_ok then ok "Smoke test passed"
   else fail "Smoke test had failures — check issues above");;
  ret smoke_ok.

Definition step_validate_and_test (models : Models) (check_only : bool)
  : M bool :=
  banner "Step 8 / 8 : Validation & Smoke Test";;
  all_ok ← service_checks models;
  if negb all_ok then
    fail "Some checks failed — fix issues above and re-run 'python setup.py --check'";;
    ret false
  else smoke_test models.

(** ** Step 1: Python and pip dependencies *)

(** The packages whose module cannot be imported:
    [try: __import__(module)  except ImportError: missing.append(pkg)]. *)
Definition missing_of (after_install : bool) (pkgs : list (string * string))
  : list string :=
  map fst (List.filter (fun pm => negb (importable env after_install (snd pm))) pkgs).

Definition key_packages : list (string * string) := [
  ("pydantic", "pydantic"); ("requests", "requests");
  ("fastapi", "fastapi"); ("tqdm", "tqdm");
  ("PyYAML", "yaml"); ("beautifulsoup4", "bs4");
  ("python-dotenv", "dotenv"); ("psutil", "psutil");
  ("jinja2", "jinja2"); ("uvicorn", "uvicorn")
].

Definition verified_packages : list (string * string) := [
  ("pydantic", "pydantic"); ("requests", "requests");
  ("fastapi", "fastapi"); ("tqdm", "tqdm");
  ("PyYAML", "yaml"); ("psutil", "psutil")
].

Definition pip_install : list string :=
  ["python"; "-m"; "pip"; "install"; "-r"; REQUIREMENTS_FILE].

Definition step_python_deps (check_only : bool) : M bool :=
  banner "Step 1 / 8 : Python & Dependencies";;
  (* Python version *)
  if negb (python_ok env) then
    fail "Python 3.11+ required";;
    ret false
  else
  ok "Python";;
  (* Quick import check for key packages *)
  match missing_of false key_packages with
  | [] => ok "All Python packages installed";; ret true
  | _ =>
  warn "Missing packages";;
  if check_only then
    fail "Run: pip install -r Requirements.txt";;
    ret false
  else
  e ← path_exists REQUIREMENTS_FILE;
  if negb e then
    fail "Requirements.txt not found";;
    ret false
  else
  info "Installing packages...";;
  installed ← try_except
    (subprocess_run pip_install true;; ret true)
    (fun e =>
       match e with
       | CalledProcessError | TimeoutExpired =>
           Some (fail "pip install failed";; ret false)
       | _ => None
       end);
  if negb installed then ret false
  else
  (* Verify *)
  match missing_of true verified_packages with
  | [] => ok "All packages installed";; ret true
  | _ => fail "Still missing after install";; ret false
  end
  end.

(** ** Step 3: Docker and FFmpeg *)

Definition winget_ffmpeg : list string :=
  ["winget"; "install"; "--id"; "Gyan.FFmpeg";
   "--accept-source-agreements"; "--accept-package-agreements"].

Definition apt_ffmpeg : list string :=
  ["sudo"; "apt-get"; "install"; "-y"; "ffmpeg"].

Definition brew_ffmpeg : list string := ["brew"; "install"; "ffmpeg"].

(** Check for FFmpeg, attempt install if missing. *)
Definition _check_ffmpeg : M bool :=
  found ← try_except
    (ver ← run ["ffmpeg"; "-version"] true false;
     if Py.truthy_opt ver then ok "FFmpeg";; ret true else ret false)
    (on_Exception (ret false));
  if found then ret true
  else
  warn "FFmpeg not found (needed only for YouTube Whisper fallback)";;
  let system := platform_system env in
  done ←
    (if String.eqb system "Windows" then
       info "Attempting install via winget...";;
       r ← try_except
         (r ← subprocess_run winget_ffmpeg false;
          if fst r =? 0 then
            ok "FFmpeg installed (restart terminal for PATH)";; ret true
          else ret false)
         (fun e =>
            match e with
            | FileNotFoundError | TimeoutExpired => Some (ret false)
            | _ => None
            end);
       if r then ret true
       else warn "Install FFmpeg manually: winget install Gyan.FFmpeg";; ret false
     else if String.eqb system "Linux" then
       info "Attempting install via apt...";;
       r ← try_except
         (subprocess_run apt_ffmpeg true;; ok "FFmpeg installed";; ret true)
         (on_Exception (ret false));
       if r then ret true
       else warn "Install FFmpeg manually: sudo apt install ffmpeg";; ret false
     else if String.eqb system "Darwin" then
       info "Attempting install via brew...";;
       r ← try_except
         (subprocess_run brew_ffmpeg true;; ok "FFmpeg installed";; ret true)
         (on_Exception (ret false));
       if r then ret true
       else warn "Install FFmpeg manually: brew install ffmpeg";; ret false
     else ret false);
  if done then ret true
  else
  warn "Caption-based YouTube transcripts still work without FFmpeg";;
  ret false.

Definition step_docker_and_ffmpeg (check_only : bool) : M bool :=
  banner "Step 3 / 8 : Docker & FFmpeg";;
  (* Docker *)
  docker_ok ← try_except
    (ver ← run ["docker"; "--version"] true false;
     if Py.truthy_opt ver then ok "Docker";; ret true else ret false)
    (on_Exception (ret false));
  if negb docker_ok then
    fail "Docker not installed (needed to run SearXNG search engine)";;
    print LvPlain "Install Docker";;
    ret false
  else
  (* Docker Compose *)
  compose_ok ← try_except
    (ver ← run ["docker"; "compose"; "version"] true false;
     if Py.truthy_opt ver then ok "Docker Compose";; ret true
     else
       fail "Docker Compose v2 not available (need 'docker compose' subcommand)";;
       ret false)
    (on_Exception (fail "Docker Compose v2 not available";; ret false));
  if negb compose_ok then ret false
  else
  (* Docker daemon running? *)
  daemon_ok ← try_except
    (run ["docker"; "info"] true true;;
     ok "Docker daemon running";;
     ret true)
    (on_Exception
       (fail "Docker daemon not running — start Docker Desktop and re-run";;
        ret false));
  if negb daemon_ok then ret false
  else
  (* FFmpeg (optional: don't fail on this) *)
  _check_ffmpeg;;
  ret true.

(** ** Main *)

(** [sys.exit(code)] *)
Definition sys_exit {A} (code : Z) : M A := raise (SystemExit code).

Definition main (check_only : bool) : M unit :=
  print LvPlain (if check_only then "VALIDATE Wizard" else "SETUP Wizard");;
  go ← (if check_only then ret true else ask "Continue?" true);
  if negb go then
    print LvPlain "Setup cancelled.";;
    sys_exit 0
  else
  (* Step 1: Python & deps *)
  r ← step_python_deps check_only;
  if negb r then
    fail "Cannot continue without Python dependencies";;
    sys_exit 1
  else
  (* Step 2: Ollama *)
  r ← step_ollama check_only;
  if negb r then
    fail "Cannot continue without Ollama";;
    sys_exit 1
  else
  (* Step 3: Docker & FFmpeg *)
  r ← step_docker_and_ffmpeg check_only;
  if negb r then
    fail "Cannot continue without Docker (needed for SearXNG)";;
    sys_exit 1
  else
  (* Step 4: Hardware (always runs: informational) *)
  hw ← step_hardware;
  (* Step 5: Models *)
  models ← step_models hw check_only;
  (* Step 6: SearXNG *)
  r ← step_searxng check_only;
  (if negb r then
     warn "SearXNG setup had issues — search may not work";;
     if check_only then sys_exit 1 else ret tt
   else ret tt);;
  (* Step 7: Config & directories *)
  r ← step_config models hw check_only;
  (if negb r then
     if check_only then sys_exit 1 else ret tt
   else ret tt);;
  (* Step 8: Validate & smoke test *)
  success ← step_validate_and_test models check_only;
  if success then banner "SETUP COMPLETE"
  else
    banner "SETUP INCOMPLETE";;
    sys_exit 1.

(** The script run as a program: the exit status.  [--check] on the
    command line is [check_only]. *)
Definition script (check_only : bool) : State -> Z * State :=
  fun s =>
    match main check_only s with
    | (Ok _, s') => (0, s')
    | (Raise (SystemExit code), s') => (code, s')
    | (Raise _, s') =>
        (1, snd (fail "Unexpected error" s'))
    end.

End Steps.

(** ** Concrete environments *)

(** A reader of plain decimal numerals, one instance of [int] and (on
    whole numbers) of [float]. *)
Fixpoint decimal_acc (s : string) (acc : Z) : option Z :=
  match s with
  | EmptyString => Some acc
  | String c rest =>
      let n := nat_of_ascii c in
      if ((48 <=? n) && (n <=? 57))%nat
      then decimal_acc rest (10 * acc + Z.of_nat (n - 48))
      else None
  end.

Definition decimal (s : string) : option Z :=
  match s with
  | EmptyString => None
  | _ => decimal_acc s 0
  end.

(** A machine on which no program is installed and no service answers. *)
Definition bare_env (system : string) : Env :=
  mkEnv system (fun _ => NotFound) (fun _ => false) (fun _ _ => None)
        (fun s => option_map inject_Z (decimal s)) decimal (fun _ => None)
        (fun _ => None)
        (8 * 1024 ^ 3) (Some 4) (Some 8) "00"
        (fun _ _ => true) true.

(** [e] with the output of one command replaced. *)
Definition with_proc (e : Env) (cmd : list string) (r : proc_result) : Env :=
  mkEnv (platform_system e)
        (fun c => if bool_decide (c = cmd) then r else proc e c)
        (popen_ok e) (http_reply e) (py_float e) (py_int e) (json_loads e)
        (yaml_sections_ok e) (virtual_memory_total e) (cpu_count_physical e)
        (cpu_count_logical e) (token_hex e) (importable e) (python_ok e).

(** [e] with other HTTP replies and another [json.loads]. *)
Definition with_http (e : Env) (reply : nat -> string -> option string)
  (loads : string -> option json) : Env :=
  mkEnv (platform_system e) (proc e) (popen_ok e) reply
        (py_float e) (py_int e) loads
        (yaml_sections_ok e) (virtual_memory_total e) (cpu_count_physical e)
        (cpu_count_logical e) (token_hex e) (importable e) (python_ok e).

(** [e] where every detached launch succeeds. *)
Definition with_popen (e : Env) : Env :=
  mkEnv (platform_system e) (proc e) (fun _ => true) (http_reply e)
        (py_float e) (py_int e) (json_loads e)
        (yaml_sections_ok e) (virtual_memory_total e) (cpu_count_physical e)
        (cpu_count_logical e) (token_hex e) (importable e) (python_ok e).

(** An empty project directory, nothing typed, nothing done yet. *)
Definition empty_state : State := mkState ∅ ∅ [] 0 [].

Definition with_files (fs : list (string * content)) (ds : list string)
  (lines : list string) : State :=
  mkState (list_to_map fs) (list_to_set ds) lines 0 [].

(** ** Vocabulary of the statements *)

(** Position of the first matching tier; the length of the catalog when
    none matches. *)
Fixpoint scan_index (tiers : list ModelTier) (v r : Q) : nat :=
  match tiers with
  | [] => O
  | t :: rest => if tier_matches v r t then O else S (scan_index rest v r)
  end.

(** A snapshot with the given memory sizes and no GPU name. *)
Definition snapshot (v r : Q) : Hardware :=
  mkHardware (negb (Qeq_bool v 0)) "none" None v r (Some 4).

(** The launch of a service: the detached [ollama serve], or
    [docker compose up -d]. *)
Definition is_start (e : event) : bool :=
  match e with
  | EvPopen _ => true
  | EvRun cmd => bool_decide (cmd = compose_up)
  | _ => false
  end.

Definition starts (t : list event) : nat := length (List.filter is_start t).

(** The pauses of a run, in order. *)
Fixpoint sleeps (t : list event) : list Z :=
  match t with
  | [] => []
  | EvSleep n :: rest => n :: sleeps rest
  | _ :: rest => sleeps rest
  end.

(** The HTTP requests of a run, in order. *)
Definition is_request (e : event) : bool :=
  match e with
  | EvHttpGet _ | EvHttpPost _ => true
  | _ => false
  end.

Definition requests (t : list event) : list event := List.filter is_request t.

(** The changes made to the file system, in order. *)
Definition is_fs_change (e : event) : bool :=
  match e with
  | EvWriteFile _ | EvMkdir _ => true
  | _ => false
  end.

Definition fs_changes (t : list event) : list event := List.filter is_fs_change t.

(** A computation that never raises. *)
Definition total {A} (m : M A) : Prop :=
  forall s, exists a, fst (m s) = Ok a.

(** A computation that raises nothing but an [Exception]. *)
Definition exception_only {A} (m : M A) : Prop :=
  forall s e, fst (m s) = Raise e -> is_Exception e = true.

(** The shape of a decoded reply of the generate endpoint that the LLM
    test can take apart: an object whose [response], when present, is a
    string and whose [total_duration], when present, is a number in the
    range of [float]. *)
Definition generate_shape (j : json) : bool :=
  match j with
  | JObj fields =>
      match assoc "response" fields with
      | None | Some (JStr _) => true
      | _ => false
      end
      && match assoc "total_duration" fields with
         | None | Some (JBool _) => true
         | Some (JNum q) => negb (Qle_bool (inject_Z float_overflow) (Qabs q))
         | _ => false
         end
  | _ => false
  end.

(** The same for the search endpoint: an object whose [results], when
    present, has a length. *)
Definition search_shape (j : json) : bool :=
  match j with
  | JObj fields =>
      match assoc "results" fields with
      | None | Some (JArr _) | Some (JStr _) | Some (JObj _) => true
      | _ => false
      end
  | _ => false
  end.

(** A reply is usable when it is not JSON at all or has the shape. *)
Definition usable (env : Env) (shape : json -> bool) (resp : option string)
  : Prop :=
  forall body j, resp = Some body -> json_loads env body = Some j ->
                 shape j = true.

(** The line of a WMI listing that names an AMD adapter. *)
Definition is_amd_name_line (line : string) : bool :=
  Py.startswith "Name" line
  && (Py.contains "Radeon" line || Py.contains "AMD" line).

(** A command whose outcome gives a detection path nothing to read:
    absent, timed out, failed, or with only white space as output. *)
Definition nothing_to_read (r : proc_result) : Prop :=
  match r with
  | Exited _ out => Py.strip out = ""
  | _ => True
  end.

(** The first and the last entry of the catalog. *)
Definition top_tier : option ModelTier := hd_error MODEL_TIERS.

Definition last_tier : option ModelTier := List.last (map Some MODEL_TIERS) None.

(** Output of the NVIDIA query that cannot be read: no second field, or
    a second field that [float] rejects. *)
Definition nvidia_unparsable (env : Env) (out : string) : Prop :=
  match Py.split "," (Py.strip out) with
  | _ :: p1 :: _ => py_float env (Py.strip p1) = None
  | _ => True
  end.

(** A WMI listing without a line that names an AMD adapter. *)
Definition no_amd_adapter (out : string) : Prop :=
  forall l, In l (Py.split Py.newline (Py.strip out)) ->
            is_amd_name_line (Py.strip l) = false.

(** Output of the ROCm tool that names no card. *)
Definition rocm_unparsable (out : string) : Prop :=
  Py.contains "GPU" (Py.strip out) = false \/
  Py.truthy_opt (rocm_name (Py.split Py.newline (Py.strip out))) = false.

(** [s'] is [s] after the actions [evs]: the log grew by them, the
    request counter by the requests among them, and the files,
    directories and pending input are the same. *)
Definition extends (s s' : State) (evs : list event) : Prop :=
  trace s' = (trace s ++ evs)%list /\
  files s' = files s /\ dirs s' = dirs s /\ stdin s' = stdin s /\
  http_count s' = (http_count s + length (requests evs))%nat.

(** The [ollama] command line tool answers [--version]. *)
Definition cli_present (env : Env) : Prop :=
  exists rc out, proc env ["ollama"; "--version"] = Exited rc out /\
                 Py.truthy (Py.strip out) = true.

Definition searx_probe_url := SEARXNG_URL ++ "/search?q=test&format=json".

(** Replies of the two services for the smoke test: the LLM answers the
    first request of the run, nothing answers afterwards. *)
Definition llm_only_reply (n : nat) (url : string) : option string :=
  match n with
  | O => Some "reply of /api/generate"
  | _ => None
  end.

Definition llm_only_loads (body : string) : option json :=
  Some (JObj [("response", JStr "Hello"); ("total_duration", JNum (5 # 1))]).

Arguments wait_loop : simpl never.
Arguments elapsed : simpl never.

(** What a step did from state [st]: its result, how many times it
    launched the service, the pauses it made, and how many requests it
    sent. *)
Definition outcome (step : M bool) (st : State) (result : bool)
  (launches : nat) (pauses : list Z) (probes : nat) : Prop :=
  exists evs st',
    step st = (Ok result, st') /\
    trace st' = (trace st ++ evs)%list /\
    starts evs = launches /\ sleeps evs = pauses /\
    length (requests evs) = probes.

(** A machine with the Ollama command line tool and nothing else. *)
Definition ollama_cli_env : Env :=
  with_proc (bare_env "Linux") ["ollama"; "--version"]
            (Exited 0 "ollama version is 0.5.7").

(** A machine on which everything the wizard looks for is installed and
    running: the tools answer, both services reply to every request, and
    Ollama lists the model of the smallest tier. *)
Definition installed_proc (cmd : list string) : proc_result :=
  if bool_decide (cmd = ["ollama"; "--version"]) then
    Exited 0 "ollama version is 0.5.7"
  else if bool_decide (cmd = ["docker"; "--version"]) then
    Exited 0 "Docker version 27.0.3, build 7d4bcd8"
  else if bool_decide (cmd = ["docker"; "compose"; "version"]) then
    Exited 0 "Docker Compose version v2.28.1"
  else if bool_decide (cmd = ["docker"; "info"]) then
    Exited 0 "Server Version: 27.0.3"
  else if bool_decide (cmd = ["ffmpeg"; "-version"]) then
    Exited 0 "ffmpeg version 6.1.1"
  else NotFound.

Definition installed_loads (body : string) : option json :=
  Some (JObj [("models", JArr [JObj [("name", JStr "phi3:mini")]]);
              ("response", JStr "Hello");
              ("total_duration", JNum (250000000 # 1));
              ("results", JArr [])]).

Definition installed_env : Env :=
  mkEnv "Linux" installed_proc (fun _ => true) (fun _ _ => Some "reply")
        (fun s => option_map inject_Z (decimal s)) decimal installed_loads
        (fun _ => Some true)
        (8 * 1024 ^ 3) (Some 4) (Some 8) "00"
        (fun _ _ => true) true.

(** The same machine without FFmpeg. *)
Definition no_ffmpeg_env : Env :=
  with_proc installed_env ["ffmpeg"; "-version"] NotFound.

(** A project directory that holds [config.yaml] and nothing else: none
    of the runtime directories is there. *)
Definition configured_state : State :=
  with_files [(CONFIG_FILE, Raw "ollama: {} searx: {}")] [] [].

(** ** Vocabulary of the further properties *)

(** A computation that keeps a relation between the state before and
    the state after it, and raises only exceptions of one kind. *)
Definition respects {A} (R : State -> State -> Prop) (E : exn -> Prop)
  (m : M A) : Prop :=
  forall s, R s (snd (m s)) /\ forall e, fst (m s) = Raise e -> E e.

(** [ollama pull <model>] *)
Definition is_pull (cmd : list string) : bool :=
  match cmd with
  | a :: b :: _ => String.eqb a "ollama" && String.eqb b "pull"
  | _ => false
  end.

(** What a validate-only run is seen to do: it prints, runs commands
    other than the launch of the search engine, the installation of the
    Python packages and the download of a model, sends requests and
    creates directories; it writes no file, starts no process and never
    pauses. *)
Definition check_mode_event (e : event) : bool :=
  match e with
  | EvWriteFile _ | EvPopen _ | EvSleep _ => false
  | EvRun cmd =>
      negb (bool_decide (cmd = compose_up) || bool_decide (cmd = pip_install)
            || is_pull cmd)
  | _ => true
  end.

(** The state after a run that did only such things and read nothing
    from standard input: the files are the same, no directory is gone. *)
Definition check_mode_run (s s' : State) : Prop :=
  exists evs,
    trace s' = (trace s ++ evs)%list /\
    forallb check_mode_event evs = true /\
    stdin s' = stdin s /\ files s' = files s /\ dirs s ⊆ dirs s'.

(** The exit statuses of the script. *)
Definition exits_0_or_1 (e : exn) : Prop :=
  forall code, e = SystemExit code -> code = 0 \/ code = 1.

(** No exception but [SystemExit]'s kin is meant: an [Exception]. *)
Definition an_Exception (e : exn) : Prop := is_Exception e = true.

Definition any_state (s s' : State) : Prop := True.

(** Any exception at all. *)
Definition anything (e : exn) : Prop := True.

(** A validate-only run from [st] to [st'] in which every step
    succeeded, one after the other. *)
Definition all_steps_passed (env : Env) (st st' : State) : Prop :=
  exists s1 s2 s3 s4 s5 s6 s7 s8 hw models,
    step_python_deps env true
      (record (EvPrint LvPlain "VALIDATE Wizard") st) = (Ok true, s1) /\
    step_ollama env true s1 = (Ok true, s2) /\
    step_docker_and_ffmpeg env true s2 = (Ok true, s3) /\
    step_hardware env s3 = (Ok hw, s4) /\
    step_models env hw true s4 = (Ok models, s5) /\
    step_searxng env true s5 = (Ok true, s6) /\
    step_config env models hw true s6 = (Ok true, s7) /\
    step_validate_and_test env models true s7 = (Ok true, s8) /\
    st' = record (EvPrint LvBanner "SETUP COMPLETE") s8.

(** How [ask] reads one line: [None] when it asks again. *)
Definition answer_of (default : bool) (l : string) : option bool :=
  let answer := Py.lower (Py.strip l) in
  if negb (Py.truthy answer) then Some default
  else if String.eqb answer "y" || String.eqb answer "yes" then Some true
  else if String.eqb answer "n" || String.eqb answer "no" then Some false
  else None.

(** [item] is an object whose ["name"] is the string [name]. *)
Definition named (item : json) (name : string) : Prop :=
  exists fields, item = JObj fields /\ assoc "name" fields = Some (JStr name).

(** A machine on which [beautifulsoup4] cannot be imported, before or
    after an installation that exits with 0. *)
Definition no_bs4_env : Env :=
  mkEnv "Linux"
        (fun c => if bool_decide (c = pip_install)
                  then Exited 0 "" else NotFound)
        (fun _ => false) (fun _ _ => None)
        (fun s => option_map inject_Z (decimal s)) decimal (fun _ => None)
        (fun _ => None)
        (8 * 1024 ^ 3) (Some 4) (Some 8) "00"
        (fun _ module => negb (String.eqb module "bs4")) true.

(** A command that runs and prints something; a command that runs and
    exits with 0. *)
Definition answers (env : Env) (cmd : list string) : bool :=
  match proc env cmd with
  | Exited _ out => Py.truthy (Py.strip out)
  | _ => false
  end.

Definition succeeds (env : Env) (cmd : list string) : bool :=
  match proc env cmd with
  | Exited rc _ => rc =? 0
  | _ => false
  end.

(** What step 3 wants of Docker. *)
Definition docker_ready (env : Env) : bool :=
  answers env ["docker"; "--version"] &&
  answers env ["docker"; "compose"; "version"] &&
  succeeds env ["docker"; "info"].

(** A Windows machine with Docker running, no FFmpeg, and a [winget]
    that the system refuses to execute. *)
Definition winget_denied_env : Env :=
  mkEnv "Windows"
        (fun c => if bool_decide (c = ["ffmpeg"; "-version"]) then NotFound
                  else if bool_decide (c = winget_ffmpeg) then OsFailure
                  else Exited 0 "ok")
        (fun _ => false) (fun _ _ => None)
        (fun s => option_map inject_Z (decimal s)) decimal (fun _ => None)
        (fun _ => None)
        (8 * 1024 ^ 3) (Some 4) (Some 8) "00"
        (fun _ _ => true) true.

(** A probe that sends one GET to [url] and reads the reply with [f]. *)
Definition probes_url (env : Env) (probe : M bool) (url : string)
  (f : option string -> bool) : Prop :=
  forall s, probe s = (Ok (f (http_reply env (http_count s) url)),
                       snd (http_get env url s)).

(** Counting the requests from number [c] on, the service is down for
    [k] of them and up at the next. *)
Definition up_after (env : Env) (url : string) (f : option string -> bool)
  (c k : nat) : Prop :=
  (forall j, (j < k)%nat -> f (http_reply env (c + j) url) = false) /\
  f (http_reply env (c + k) url) = true.

(** A machine with the Ollama command line tool, whose service answers
    from the fourth request on. *)
Definition slow_ollama_env : Env :=
  with_http (with_popen ollama_cli_env)
            (fun n _ => if (n <? 3)%nat then None else Some "{}")
            (fun _ => None).

(** A machine whose Ollama service answers every request, without the
    command line tool. *)
Definition remote_ollama_env : Env :=
  with_http (bare_env "Linux") (fun _ _ => Some "{}") (fun _ => None).

(** A machine on which [docker compose up] exits with 1. *)
Definition compose_fails_env : Env :=
  with_proc (bare_env "Linux") compose_up (Exited 1 "").

(** A project directory with the compose file of SearXNG. *)
Definition compose_state : State :=
  with_files [(COMPOSE_FILE, Raw "services:")] [] [].

(** The command lines run, in order. *)
Fixpoint commands (t : list event) : list (list string) :=
  match t with
  | [] => []
  | EvRun cmd :: rest => cmd :: commands rest
  | _ :: rest => commands rest
  end.

(** A Windows machine with a card of each vendor. *)
Definition two_vendors_env : Env :=
  with_proc
    (with_proc (bare_env "Windows") nvidia_smi
       (Exited 0 "NVIDIA GeForce RTX 3060, 12288"))
    wmi_query
    (Exited 0 "Name : AMD Radeon RX 7900 XTX
AdapterRAM : 4293918720").

(** A Linux machine whose AMD card is not in the table. *)
Definition unlisted_card_env : Env :=
  with_proc (bare_env "Linux") rocm_smi
            (Exited 0 "GPU[0] : Card series: Radeon RX 6600 XT").

(** Nothing that was there is lost: every file has the content it had,
    every directory is still there. *)
Definition keeps (s s' : State) : Prop :=
  (forall p c, files s !! p = Some c -> files s' !! p = Some c) /\
  dirs s ⊆ dirs s'.

(** The same files and the same directories. *)
Definition same_fs (s s' : State) : Prop :=
  files s' = files s /\ dirs s' = dirs s.

(** [line.strip() or current] *)
Definition or_current (line current : string) : string :=
  if Py.truthy (Py.strip line) then Py.strip line else current.

(** A computation that reads no input and runs no command. *)
Definition idle (s s' : State) : Prop :=
  stdin s' = stdin s /\ commands (trace s') = commands (trace s).

(** [ollama pull model] *)
Definition pull_of (model : string) : list string := ["ollama"; "pull"; model].

(** A machine on which no download succeeds. *)
Definition no_download_env : Env :=
  mkEnv "Linux" (fun _ => Exited 1 "") (fun _ => false) (fun _ _ => None)
        (fun s => option_map inject_Z (decimal s)) decimal (fun _ => None)
        (fun _ => None)
        (8 * 1024 ^ 3) (Some 4) (Some 8) "00"
        (fun _ _ => true) true.

(** What a launch step is seen to do, in order: the requests it sends,
    the launches it makes (a detached process, or [docker compose up])
    and its pauses. *)
Inductive action :=
| Request (url : string)
| Launch (cmd : list string)
| Pause (seconds : Z).

Fixpoint actions (t : list event) : list action :=
  match t with
  | [] => []
  | EvHttpGet url :: rest => Request url :: actions rest
  | EvHttpPost url :: rest => Request url :: actions rest
  | EvSleep seconds :: rest => Pause seconds :: actions rest
  | EvPopen cmd :: rest => Launch cmd :: actions rest
  | EvRun cmd :: rest =>
      if bool_decide (cmd = compose_up) then Launch cmd :: actions rest
      else actions rest
  | _ :: rest => actions rest
  end.

(** [n] rounds of a pause of five seconds followed by a request. *)
Definition polls (n : nat) (url : string) : list action :=
  concat (repeat [Pause 5; Request url] n).

(** The course of a step from state [st]: its result and its actions,
    in the order in which it made them. *)
Definition course (step : M bool) (st : State) (result : bool)
  (acts : list action) : Prop :=
  exists evs st',
    step st = (Ok result, st') /\
    trace st' = (trace st ++ evs)%list /\
    actions evs = acts.

(** The listing of a Windows machine with the integrated adapter of the
    processor named before the card. *)
Definition two_adapters_listing : string :=
  "Name       : AMD Radeon(TM) Graphics
AdapterRAM : 536870912

Name       : AMD Radeon RX 7900 XTX
AdapterRAM : 4293918720".

Definition two_adapters_env : Env :=
  with_proc (bare_env "Windows") wmi_query (Exited 0 two_adapters_listing).

(** The machine on which everything is installed and running, with a
    generate endpoint whose reply is a JSON array. *)
Definition array_reply_env : Env :=
  mkEnv "Linux" installed_proc (fun _ => true)
        (fun _ url => if String.eqb url generate_url then Some "[]"
                      else Some "reply")
        (fun s => option_map inject_Z (decimal s)) decimal
        (fun body => if String.eqb body "[]" then Some (JArr [])
                     else installed_loads body)
        (fun _ => Some true)
        (8 * 1024 ^ 3) (Some 4) (Some 8) "00"
        (fun _ _ => true) true.

(** * Properties *)

(** ** The first-match scan, over any catalog *)

Section Scan.

Variables v r : Q.

Lemma scan_tiers_Some (tiers : list ModelTier) (t : ModelTier) :
  scan_tiers tiers v r = Some t ->
  In t tiers /\ tier_matches v r t = true.
Proof.
  induction tiers as [|t0 rest IH]; simpl; [discriminate|].
  destruct (tier_matches v r t0) eqn:Hm; intros H.
  - injection H as <-. split; [now left | exact Hm].
  - destruct (IH H) as [Hin Ht]. split; [now right | exact Ht].
Qed.

Lemma scan_tiers_None (tiers : list ModelTier) :
  scan_tiers tiers v r = None <->
  (forall t, In t tiers -> tier_matches v r t = false).
Proof.
  induction tiers as [|t0 rest IH]; simpl.
  - split; [intros _ t [] | reflexivity].
  - destruct (tier_matches v r t0) eqn:Hm.
    + split; [discriminate|]. intros H.
      rewrite (H t0) in Hm by now left. discriminate.
    + rewrite IH. split.
      * intros H t [<-|Hin]; [exact Hm | now apply H].
      * intros H t Hin. apply H. now right.
Qed.

(** The tier found is at some position, and nothing before that position
    matches. *)
Lemma scan_tiers_first (tiers : list ModelTier) (t : ModelTier) :
  scan_tiers tiers v r = Some t <->
  exists i, nth_error tiers i = Some t /\ tier_matches v r t = true /\
            forall j t', (j < i)%nat -> nth_error tiers j = Some t' ->
                         tier_matches v r t' = false.
Proof.
  revert t. induction tiers as [|t0 rest IH]; intros t; simpl.
  - split; [discriminate|]. intros [[|i] [H _]]; discriminate.
  - destruct (tier_matches v r t0) eqn:Hm.
    + split.
      * intros H. injection H as <-. exists O. repeat split; auto.
        intros j t' Hj. lia.
      * intros [[|i] [Hn [Ht Hb]]].
        -- simpl in Hn. exact Hn.
        -- rewrite (Hb O t0) in Hm; [discriminate | lia | reflexivity].
    + rewrite IH. split.
      * intros [i [Hn [Ht Hb]]]. exists (S i). repeat split; auto.
        intros [|j] t' Hj Hn'; simpl in Hn'.
        -- injection Hn' as <-. exact Hm.
        -- apply (Hb j); [lia | exact Hn'].
      * intros [[|i] [Hn [Ht Hb]]]; simpl in Hn.
        -- injection Hn as <-. rewrite Ht in Hm. discriminate.
        -- exists i. repeat split; auto.
           intros j t' Hj Hn'. apply (Hb (S j)); [lia | exact Hn'].
Qed.

End Scan.

Lemma tier_matches_mono (v1 r1 v2 r2 : Q) (t : ModelTier) :
  (v1 <= v2)%Q -> (r1 <= r2)%Q ->
  tier_matches v1 r1 t = true -> tier_matches v2 r2 t = true.
Proof.
  unfold tier_matches. intros Hv Hr H.
  apply andb_true_iff in H as [H1 H2].
  apply Qle_bool_iff in H1, H2.
  apply andb_true_iff. split; apply Qle_bool_iff.
  - now apply Qle_trans with v1.
  - now apply Qle_trans with r1.
Qed.

(** More memory never moves the first match further down a catalog. *)
Lemma scan_index_mono (tiers : list ModelTier) (v1 r1 v2 r2 : Q) :
  (v1 <= v2)%Q -> (r1 <= r2)%Q ->
  (scan_index tiers v2 r2 <= scan_index tiers v1 r1)%nat.
Proof.
  intros Hv Hr. induction tiers as [|t rest IH]; simpl; [lia|].
  destruct (tier_matches v1 r1 t) eqn:H1.
  - rewrite (tier_matches_mono _ _ _ _ _ Hv Hr H1). lia.
  - destruct (tier_matches v2 r2 t); lia.
Qed.

(** ** The catalog of the setup *)

(** In [MODEL_TIERS] the rank of what the scan returns is the position
    where the scan stopped; the preset is ranked after the last entry. *)
Lemma capability_rank_scan_index (hw : Hardware) :
  capability_rank (find_best_tier hw) =
  scan_index MODEL_TIERS (vram hw) (ram hw).
Proof.
  unfold capability_rank, find_best_tier. simpl.
  unfold tier_matches. simpl.
  repeat (match goal with
          | |- context [Qle_bool ?a ?b] => destruct (Qle_bool a b)
          end; simpl; try reflexivity).
Qed.

Lemma every_tier_needs_16 (t : ModelTier) :
  In t MODEL_TIERS -> 16 <= min_ram t.
Proof.
  simpl. intros H.
  repeat (destruct H as [<-|H]; [simpl; lia|]). destruct H.
Qed.

Lemma no_tier_labelled_Minimum (t : ModelTier) :
  In t MODEL_TIERS -> choice_of t <> preset_choice.
Proof.
  simpl. intros H.
  repeat (destruct H as [<-|H]; [discriminate|]). destruct H.
Qed.

Lemma below_16_no_match (v r : Q) (t : ModelTier) :
  (r < 16 # 1)%Q -> In t MODEL_TIERS -> tier_matches v r t = false.
Proof.
  intros Hr Hin. unfold tier_matches.
  apply andb_false_iff. right.
  apply not_true_iff_false. intros H. apply Qle_bool_iff in H.
  apply every_tier_needs_16 in Hin.
  assert (H16 : (16 # 1 <= inject_Z (min_ram t))%Q).
  { change (16 # 1)%Q with (inject_Z 16). rewrite <- Zle_Qle. exact Hin. }
  apply (Qlt_irrefl r).
  eapply Qlt_le_trans; [exact Hr|].
  eapply Qle_trans; [exact H16 | exact H].
Qed.

(** C1, as stated, does not hold: with [vram_gb = 0] and [ram_gb = 8], both
    non-negative, what the resolution returns is no tier of the catalog,
    and the last entry of the catalog asks for 16 GB of RAM, not 0. *)
Lemma C1_counterexample :
  (0 <= vram (snapshot 0 (8 # 1)))%Q /\
  (0 <= ram (snapshot 0 (8 # 1)))%Q /\
  ~ (exists t, In t MODEL_TIERS /\
               find_best_tier (snapshot 0 (8 # 1)) = choice_of t) /\
  (exists t, last_tier = Some t /\ min_ram t = 16 /\ min_ram t <> 0).
Proof.
  split; [discriminate|]. split; [discriminate|]. split.
  - intros [t [Hin Heq]].
    apply (no_tier_labelled_Minimum t Hin). symmetry. exact Heq.
  - eexists. split; [reflexivity|]. simpl. lia.
Qed.

(** C1, amended: for every hardware snapshot with [vram_gb >= 0] and
    [ram_gb >= 16] the resolution returns a tier of the catalog, one whose
    two thresholds the snapshot meets; the last entry of the catalog has
    [min_vram = 0] and [min_ram = 16] and matches every such snapshot. *)
Theorem C1_resolve_total_from_16 (hw : Hardware) :
  (0 <= vram hw)%Q -> (16 # 1 <= ram hw)%Q ->
  (exists t, In t MODEL_TIERS /\
             tier_matches (vram hw) (ram hw) t = true /\
             find_best_tier hw = choice_of t) /\
  (exists t, last_tier = Some t /\ min_vram t = 0 /\ min_ram t = 16 /\
             tier_matches (vram hw) (ram hw) t = true).
Proof.
  intros Hv Hr.
  assert (Hlast : tier_matches (vram hw) (ram hw)
                    (mkTier 0 16 "Minimum (16 GB RAM)"
                            "phi3:mini" "phi3:mini" "phi3:mini") = true).
  { unfold tier_matches. simpl. apply andb_true_iff.
    split; apply Qle_bool_iff; assumption. }
  split.
  - unfold find_best_tier.
    destruct (scan_tiers MODEL_TIERS (vram hw) (ram hw)) as [t|] eqn:Hs.
    + destruct (scan_tiers_Some _ _ _ _ Hs) as [Hin Hm].
      exists t. auto.
    + exfalso.
      pose proof (proj1 (scan_tiers_None _ _ _) Hs) as Hnone.
      rewrite Hnone in Hlast; [discriminate|].
      simpl. do 5 right. now left.
  - eexists. split; [reflexivity|]. simpl. auto.
Qed.

Lemma C1_resolve_total_from_16_witness :
  (0 <= vram (snapshot 0 (16 # 1)))%Q /\
  (16 # 1 <= ram (snapshot 0 (16 # 1)))%Q /\
  (exists t, In t MODEL_TIERS /\
             tier_matches 0 (16 # 1) t = true /\
             find_best_tier (snapshot 0 (16 # 1)) = choice_of t).
Proof.
  split; [discriminate|]. split; [discriminate|].
  apply (C1_resolve_total_from_16 (snapshot 0 (16 # 1))); discriminate.
Defined.

(** C3, as stated, does not hold: with [vram_gb = 0] and [ram_gb = 8] no
    entry of the catalog has both thresholds met, so what is returned is
    not the first such entry, and it is not the last entry of the catalog
    either. *)
Lemma C3_counterexample :
  ~ (exists t, In t MODEL_TIERS /\
               tier_matches (vram (snapshot 0 (8 # 1)))
                            (ram (snapshot 0 (8 # 1))) t = true /\
               find_best_tier (snapshot 0 (8 # 1)) = choice_of t) /\
  (forall t, last_tier = Some t ->
             find_best_tier (snapshot 0 (8 # 1)) <> choice_of t).
Proof.
  split.
  - intros [t [Hin [Hm _]]].
    assert (Hf : tier_matches (vram (snapshot 0 (8 # 1)))
                              (ram (snapshot 0 (8 # 1))) t = false).
    { apply below_16_no_match; [reflexivity | exact Hin]. }
    rewrite Hf in Hm. discriminate.
  - intros t Ht. injection Ht as <-. discriminate.
Qed.

(** C3, amended: for every snapshot, when some entry of the catalog has
    both thresholds met, the tier returned is the first such entry in the
    declared order; when none has, the preset values are returned.  A
    snapshot with [vram_gb = 24], [ram_gb = 32] resolves to the top tier;
    one with [vram_gb = 0], [ram_gb = 8] resolves to the preset, whose three
    models are those of the last entry and whose label is ["Minimum"]. *)
Theorem C3_first_match_or_preset (hw : Hardware) :
  ((exists i t,
       nth_error MODEL_TIERS i = Some t /\
       tier_matches (vram hw) (ram hw) t = true /\
       (forall j t', (j < i)%nat -> nth_error MODEL_TIERS j = Some t' ->
                     tier_matches (vram hw) (ram hw) t' = false) /\
       find_best_tier hw = choice_of t)
   \/
   ((forall t, In t MODEL_TIERS -> tier_matches (vram hw) (ram hw) t = false) /\
    find_best_tier hw = preset_choice)) /\
  (exists t, top_tier = Some t /\
             find_best_tier (snapshot (24 # 1) (32 # 1)) = choice_of t) /\
  (find_best_tier (snapshot 0 (8 # 1)) = preset_choice /\
   exists t, last_tier = Some t /\
             c_extract preset_choice = extract t /\
             c_verify preset_choice = verify t /\
             c_write preset_choice = write t /\
             tier_name preset_choice = "Minimum" /\
             label t = "Minimum (16 GB RAM)").
Proof.
  split; [|split].
  - unfold find_best_tier.
    destruct (scan_tiers MODEL_TIERS (vram hw) (ram hw)) as [t|] eqn:Hs.
    + left. apply scan_tiers_first in Hs as [i [Hn [Hm Hb]]].
      exists i, t. auto.
    + right. split; [|reflexivity].
      now apply scan_tiers_None.
  - eexists. split; reflexivity.
  - split; [reflexivity|]. eexists. repeat split.
Qed.

(** C4: between two snapshots that agree on one of the two resources, the
    second having at least as much of the other, the tier returned for the
    second stands at least as high in the catalog (a smaller position, the
    catalog being in descending order) as the tier returned for the
    first. *)
Theorem C4_resolve_monotone (hw1 hw2 : Hardware) :
  ((vram hw1 == vram hw2)%Q /\ (ram hw1 <= ram hw2)%Q) \/
  ((ram hw1 == ram hw2)%Q /\ (vram hw1 <= vram hw2)%Q) ->
  (capability_rank (find_best_tier hw2) <=
   capability_rank (find_best_tier hw1))%nat.
Proof.
  intros H. rewrite !capability_rank_scan_index.
  apply scan_index_mono; destruct H as [[He Hl]|[He Hl]]; auto;
    rewrite He; apply Qle_refl.
Qed.

Lemma C4_resolve_monotone_witness :
  (ram (snapshot (12 # 1) (32 # 1)) == ram (snapshot (24 # 1) (32 # 1)))%Q /\
  (vram (snapshot (12 # 1) (32 # 1)) <= vram (snapshot (24 # 1) (32 # 1)))%Q /\
  (capability_rank (find_best_tier (snapshot (24 # 1) (32 # 1))) <=
   capability_rank (find_best_tier (snapshot (12 # 1) (32 # 1))))%nat.
Proof.
  split; [reflexivity|]. split; [discriminate|].
  apply (C4_resolve_monotone (snapshot (12 # 1) (32 # 1))
                             (snapshot (24 # 1) (32 # 1))).
  right. split; [reflexivity | discriminate].
Defined.

(** C10: for every snapshot with [ram_gb < 16] no entry of the catalog
    matches, every entry asking for at least 16 GB of RAM, and the
    selection is the preset: ["phi3:mini"] for extract, verify and write
    under the label ["Minimum"], which no entry of the catalog yields. *)
Theorem C10_below_16_preset (hw : Hardware) :
  (ram hw < 16 # 1)%Q ->
  (forall t, In t MODEL_TIERS ->
             16 <= min_ram t /\ tier_matches (vram hw) (ram hw) t = false) /\
  find_best_tier hw = mkChoice "Minimum" "phi3:mini" "phi3:mini" "phi3:mini" /\
  (forall t, In t MODEL_TIERS -> choice_of t <> find_best_tier hw).
Proof.
  intros Hr.
  assert (Hnone : forall t, In t MODEL_TIERS ->
                            tier_matches (vram hw) (ram hw) t = false).
  { intros t Hin. now apply below_16_no_match. }
  assert (Hp : find_best_tier hw = preset_choice).
  { unfold find_best_tier.
    now rewrite (proj2 (scan_tiers_None _ _ _) Hnone). }
  split; [|split].
  - intros t Hin. split; [now apply every_tier_needs_16 | now apply Hnone].
  - exact Hp.
  - intros t Hin. rewrite Hp. now apply no_tier_labelled_Minimum.
Qed.

Lemma C10_below_16_preset_witness :
  (ram (snapshot (24 # 1) (8 # 1)) < 16 # 1)%Q /\
  find_best_tier (snapshot (24 # 1) (8 # 1)) =
    mkChoice "Minimum" "phi3:mini" "phi3:mini" "phi3:mini".
Proof.
  split; [reflexivity|].
  apply (C10_below_16_preset (snapshot (24 # 1) (8 # 1))). reflexivity.
Defined.

(** ** Reasoning about steps *)

Lemma total_ret {A} (a : A) : total (ret a).
Proof. intros s. now exists a. Qed.

Lemma total_bind {A B} (m : M A) (k : A -> M B) :
  total m -> (forall a, total (k a)) -> total (bind m k).
Proof.
  intros Hm Hk s. unfold bind.
  destruct (Hm s) as [a Ha]. destruct (m s) as [[a'|e] s']; simpl in Ha.
  - apply Hk.
  - discriminate.
Qed.

Lemma total_emit (e : event) : total (emit e).
Proof. intros s. now exists tt. Qed.

Lemma total_print (lv : level) (text : string) : total (print lv text).
Proof. apply total_emit. Qed.

Lemma exception_only_ret {A} (a : A) : exception_only (ret a).
Proof. intros s e H. discriminate. Qed.

Lemma exception_only_raise {A} (e : exn) :
  is_Exception e = true -> exception_only (@raise A e).
Proof. intros He s e' H. simpl in H. now injection H as <-. Qed.

Lemma exception_only_bind {A B} (m : M A) (k : A -> M B) :
  exception_only m -> (forall a, exception_only (k a)) ->
  exception_only (bind m k).
Proof.
  intros Hm Hk s e. unfold bind.
  destruct (m s) as [[a|e'] s'] eqn:Hms.
  - apply Hk.
  - simpl. intros H. injection H as <-.
    apply (Hm s). now rewrite Hms.
Qed.

Lemma exception_only_total {A} (m : M A) : total m -> exception_only m.
Proof.
  intros Hm s e H. destruct (Hm s) as [a Ha]. congruence.
Qed.

Lemma exception_only_try {A} (body : M A) (handler : exn -> option (M A)) :
  exception_only body ->
  (forall e h, handler e = Some h -> exception_only h) ->
  exception_only (try_except body handler).
Proof.
  intros Hb Hh s e. unfold try_except.
  destruct (body s) as [[a|e'] s'] eqn:Hbs; [discriminate|].
  destruct (handler e') as [h|] eqn:He'.
  - apply (Hh e' h He').
  - simpl. intros H. injection H as <-.
    apply (Hb s). now rewrite Hbs.
Qed.

(** [try: body  except Exception: h] never raises when the body raises
    nothing else and [h] never raises. *)
Lemma total_try_on_Exception {A} (body h : M A) :
  exception_only body -> total h ->
  total (try_except body (on_Exception h)).
Proof.
  intros Hb Hh s. unfold try_except.
  destruct (body s) as [[a|e] s'] eqn:Hbs.
  - now exists a.
  - unfold on_Exception. rewrite (Hb s e) by now rewrite Hbs.
    apply Hh.
Qed.

(** What the handler returns is the result whenever the body raises. *)
Lemma try_on_Exception_raised {A} (body h : M A) (s s' : State) (e : exn) :
  body s = (Raise e, s') -> is_Exception e = true ->
  try_except body (on_Exception h) s = h s'.
Proof.
  intros Hb He. unfold try_except, on_Exception. now rewrite Hb, He.
Qed.

(** [run(cmd, capture=True, check=False)] spelled out. *)
Lemma run_unchecked (env : Env) (cmd : list string) (s : State) :
  run env cmd true false s =
  (match proc env cmd with
   | Exited _ out => Ok (Some (Py.strip out))
   | NotFound | TimedOut => Ok None
   | OsFailure => Raise OSError
   end, record (EvRun cmd) s).
Proof.
  unfold run, try_except, bind, subprocess_run, emit, bind.
  destruct (proc env cmd); reflexivity.
Qed.

Lemma exception_only_run (env : Env) (cmd : list string) (capture check : bool) :
  exception_only (run env cmd capture check).
Proof.
  intros s e. unfold run, try_except, bind, subprocess_run, emit, bind.
  destruct check, (proc env cmd) as [rc out| | |]; simpl;
    try destruct (negb (rc =? 0)); simpl;
    intros H; first [discriminate | injection H as <-; reflexivity].
Qed.

Lemma exception_only_getitem {A} (l : list A) (i : nat) :
  exception_only (getitem l i).
Proof.
  unfold getitem. destruct (nth_error l i).
  - apply exception_only_ret.
  - now apply exception_only_raise.
Qed.

Lemma exception_only_float_of (env : Env) (s : string) :
  exception_only (float_of env s).
Proof.
  unfold float_of. destruct (py_float env s).
  - apply exception_only_ret.
  - now apply exception_only_raise.
Qed.

Lemma exception_only_int_of (env : Env) (s : string) :
  exception_only (int_of env s).
Proof.
  unfold int_of. destruct (py_int env s).
  - apply exception_only_ret.
  - now apply exception_only_raise.
Qed.

Lemma exception_only_true_div (n d : Z) : exception_only (true_div n d).
Proof.
  unfold true_div. destruct (d =? 0).
  - now apply exception_only_raise.
  - destruct (float_overflow * Z.abs d <=? Z.abs n).
    + now apply exception_only_raise.
    + apply exception_only_ret.
Qed.

Create HintDb steps.

#[local] Hint Resolve total_ret total_emit total_print
  exception_only_ret exception_only_run exception_only_getitem
  exception_only_float_of exception_only_int_of
  exception_only_true_div : steps.

(** One step of a proof that a computation raises only exceptions. *)
Ltac exception_step :=
  first
    [ solve [auto with steps]
    | apply exception_only_bind; [|intros ?]
    | apply exception_only_raise; reflexivity
    | match goal with
      | |- exception_only (if ?b then _ else _) => destruct b
      | |- exception_only (match ?x with _ => _ end) => destruct x
      end ].

(** *** The detection paths *)

Lemma total_detect_nvidia (env : Env) : total (_detect_nvidia env).
Proof.
  unfold _detect_nvidia. apply total_try_on_Exception; [|apply total_ret].
  repeat exception_step.
Qed.

Lemma exception_only_amd_windows_scan (env : Env) (lines : list string) :
  forall gpu_name, exception_only (amd_windows_scan env lines gpu_name).
Proof.
  induction lines as [|line rest IH]; intros gpu_name; simpl.
  - apply exception_only_ret.
  - repeat first
      [ apply IH
      | apply exception_only_try;
        [| intros e h He; destruct e; simpl in He; try discriminate;
           injection He as <-; apply exception_only_ret ]
      | exception_step ].
Qed.

Lemma total_detect_amd_windows (env : Env) : total (_detect_amd_windows env).
Proof.
  unfold _detect_amd_windows.
  destruct (negb (String.eqb (platform_system env) "Windows"));
    [apply total_ret|].
  apply total_try_on_Exception; [|apply total_ret].
  apply exception_only_bind; [auto with steps|]. intros out.
  destruct (negb (Py.truthy_opt out)); [apply exception_only_ret|].
  apply exception_only_amd_windows_scan.
Qed.

Lemma total_detect_amd_rocm (env : Env) : total (_detect_amd_rocm env).
Proof.
  unfold _detect_amd_rocm. apply total_try_on_Exception; [|apply total_ret].
  repeat exception_step.
Qed.

Lemma total_check_ollama_gpu (env : Env) : total (_check_ollama_gpu env).
Proof.
  unfold _check_ollama_gpu. apply total_try_on_Exception; [|apply total_ret].
  repeat exception_step.
Qed.

#[local] Hint Resolve total_detect_nvidia total_detect_amd_windows
  total_detect_amd_rocm total_check_ollama_gpu : steps.

Ltac total_step :=
  first
    [ solve [auto with steps]
    | apply total_bind; [|intros ?]
    | match goal with
      | |- total (if ?b then _ else _) => destruct b
      | |- total (let '(_, _) := ?p in _) => destruct p
      | |- total (match ?x with _ => _ end) => destruct x
      end ].

Lemma total_step_hardware (env : Env) : total (step_hardware env).
Proof.
  unfold step_hardware, ok, info, warn, banner. repeat total_step.
Qed.

Lemma detect_nvidia_nothing (env : Env) (st : State) :
  nothing_to_read (proc env nvidia_smi) ->
  fst (_detect_nvidia env st) = Ok not_found.
Proof.
  intros H. unfold _detect_nvidia, try_except, bind.
  rewrite run_unchecked.
  destruct (proc env nvidia_smi) as [rc out| | |]; simpl in *;
    try reflexivity.
  now rewrite H.
Qed.

Lemma detect_nvidia_unparsable (env : Env) (st : State) (rc : Z) (out : string) :
  proc env nvidia_smi = Exited rc out ->
  nvidia_unparsable env out ->
  fst (_detect_nvidia env st) = Ok not_found.
Proof.
  intros Hp Hu. unfold _detect_nvidia, try_except, bind.
  rewrite run_unchecked. rewrite Hp. simpl.
  destruct (Py.truthy (Py.strip out)); [|reflexivity].
  unfold nvidia_unparsable in Hu. unfold getitem, float_of, bind.
  destruct (Py.split "," (Py.strip out)) as [|p0 [|p1 tail]]; simpl;
    try reflexivity.
  now rewrite Hu.
Qed.

Lemma amd_windows_scan_no_adapter (env : Env) (lines : list string) (st : State) :
  (forall l, In l lines -> is_amd_name_line (Py.strip l) = false) ->
  amd_windows_scan env lines None st = (Ok not_found, st).
Proof.
  induction lines as [|line rest IH]; intros H; simpl; [reflexivity|].
  pose proof (H line (or_introl eq_refl)) as Hl.
  unfold is_amd_name_line in Hl. rewrite Hl.
  rewrite andb_false_r. apply IH.
  intros l Hin. apply H. now right.
Qed.

Lemma detect_amd_windows_nothing (env : Env) (st : State) :
  nothing_to_read (proc env wmi_query) ->
  fst (_detect_amd_windows env st) = Ok not_found.
Proof.
  intros H. unfold _detect_amd_windows.
  destruct (negb (String.eqb (platform_system env) "Windows")); [reflexivity|].
  unfold try_except, bind. rewrite run_unchecked.
  destruct (proc env wmi_query) as [rc out| | |]; simpl in *;
    try reflexivity.
  now rewrite H.
Qed.

Lemma detect_amd_windows_no_adapter (env : Env) (st : State) (rc : Z) (out : string) :
  proc env wmi_query = Exited rc out ->
  no_amd_adapter out ->
  fst (_detect_amd_windows env st) = Ok not_found.
Proof.
  intros Hp Hn. unfold _detect_amd_windows.
  destruct (negb (String.eqb (platform_system env) "Windows")); [reflexivity|].
  unfold try_except, bind. rewrite run_unchecked.
  rewrite Hp. simpl.
  destruct (Py.truthy (Py.strip out)); simpl; [|reflexivity].
  now rewrite amd_windows_scan_no_adapter.
Qed.

Lemma detect_amd_rocm_nothing (env : Env) (st : State) :
  nothing_to_read (proc env rocm_smi) ->
  fst (_detect_amd_rocm env st) = Ok not_found.
Proof.
  intros H. unfold _detect_amd_rocm, try_except, bind.
  rewrite run_unchecked.
  destruct (proc env rocm_smi) as [rc out| | |]; simpl in *;
    try reflexivity.
  now rewrite H.
Qed.

Lemma detect_amd_rocm_unparsable (env : Env) (st : State) (rc : Z) (out : string) :
  proc env rocm_smi = Exited rc out ->
  rocm_unparsable out ->
  fst (_detect_amd_rocm env st) = Ok not_found.
Proof.
  intros Hp Hu. unfold _detect_amd_rocm, try_except, bind.
  rewrite run_unchecked. rewrite Hp. simpl.
  destruct Hu as [Hu|Hu]; rewrite Hu.
  - now rewrite andb_false_r.
  - destruct (Py.truthy (Py.strip out) && Py.contains "GPU" (Py.strip out));
      reflexivity.
Qed.



(** ** NVIDIA: MiB to GiB *)

(** C7: the memory size that the vendor tool reports is divided by
    exactly 1024 to give the [vram] of the detection; for a size other
    than zero that differs from a division by 1000. *)
Theorem C7_nvidia_divides_by_1024 (env : Env) (st : State) (rc : Z)
  (out p0 p1 : string) (tail : list string) (m : Q) :
  proc env nvidia_smi = Exited rc out ->
  Py.split "," (Py.strip out) = p0 :: p1 :: tail ->
  py_float env (Py.strip p1) = Some m ->
  fst (_detect_nvidia env st) =
    Ok (true, Some (Py.strip p0), (m / inject_Z 1024)%Q) /\
  (~ (m == 0)%Q -> ~ (m / inject_Z 1024 == m / inject_Z 1000)%Q).
Proof.
  intros Hp Hs Hf. split.
  - unfold _detect_nvidia, try_except, bind.
    rewrite run_unchecked. rewrite Hp. simpl.
    destruct (Py.strip out) as [|c rest] eqn:Hout.
    + vm_compute in Hs. discriminate.
    + simpl. rewrite Hs. unfold getitem, float_of, bind. simpl.
      now rewrite Hf.
  - intros Hm Heq. apply Hm.
    unfold Qdiv in Heq.
    change (/ inject_Z 1024)%Q with (1 # 1024)%Q in Heq.
    change (/ inject_Z 1000)%Q with (1 # 1000)%Q in Heq.
    lra.
Qed.

Lemma C7_nvidia_divides_by_1024_witness :
  let env := with_proc (bare_env "Linux") nvidia_smi
               (Exited 0 "NVIDIA GeForce RTX 4090, 24564") in
  fst (_detect_nvidia env empty_state) =
    Ok (true, Some "NVIDIA GeForce RTX 4090", (inject_Z 24564 / inject_Z 1024)%Q).
Proof.
  intros env.
  exact (proj1 (C7_nvidia_divides_by_1024 env empty_state 0
                  "NVIDIA GeForce RTX 4090, 24564"
                  "NVIDIA GeForce RTX 4090" " 24564" [] (inject_Z 24564)
                  eq_refl eq_refl eq_refl)).
Defined.

(** ** AMD: the lookup table *)

(** The lookup returns the value of the first key, in the order of the
    table, that occurs in the name. *)
Lemma lookup_vram_first (table : list (string * Q)) (name : string) :
  (exists k v, In (k, v) table /\ Py.contains k name = true) ->
  exists i k v,
    nth_error table i = Some (k, v) /\ Py.contains k name = true /\
    (forall j k' v', (j < i)%nat -> nth_error table j = Some (k', v') ->
                     Py.contains k' name = false) /\
    lookup_vram table name = v.
Proof.
  induction table as [|[k0 v0] rest IH]; intros [k [v [Hin Hc]]].
  - destruct Hin.
  - simpl. destruct (Py.contains k0 name) eqn:H0.
    + exists O, k0, v0. repeat split; auto. intros j k' v' Hj. lia.
    + destruct Hin as [Heq|Hin].
      { injection Heq as -> ->. congruence. }
      destruct IH as [i [k1 [v1 [Hn [Hc1 [Hb Hl]]]]]]; [now exists k, v|].
      exists (S i), k1, v1. repeat split; auto.
      intros [|j] k' v' Hj Hn'; simpl in Hn'.
      * injection Hn' as <- <-. exact H0.
      * apply (Hb j k' v'); [lia | exact Hn'].
Qed.

Lemma lookup_vram_miss (table : list (string * Q)) (name : string) :
  (forall k v, In (k, v) table -> Py.contains k name = false) ->
  lookup_vram table name = 0%Q.
Proof.
  induction table as [|[k0 v0] rest IH]; intros H; simpl; [reflexivity|].
  rewrite (H k0 v0) by now left.
  apply IH. intros k v Hin. apply (H k v). now right.
Qed.

(** No entry of the table is zero, so a value found there is never taken
    for "nothing found". *)
Lemma amd_table_nonzero (i : nat) (k : string) (v : Q) :
  nth_error AMD_VRAM_TABLE i = Some (k, v) -> Qeq_bool v 0 = false.
Proof.
  do 11 (destruct i as [|i]; [intros H; injection H as <- <-; reflexivity|]).
  destruct i; discriminate.
Qed.

Lemma adapter_line_is_no_name_line (line : string) :
  Py.startswith "AdapterRAM" line = true ->
  Py.startswith "Name" line = false.
Proof.
  unfold Py.startswith. destruct line as [|c rest]; [discriminate|].
  cbn [String.prefix].
  destruct (ascii_dec "A" c) as [<-|]; intros H; [|discriminate H].
  destruct (ascii_dec "N" "A") as [E|]; [discriminate E | reflexivity].
Qed.

Lemma split1_acc_second (sep : ascii) (s cur a b : string) :
  Py.split1_acc sep s cur = [a; b] ->
  Py.contains (String sep EmptyString) s = true.
Proof.
  revert cur. induction s as [|c rest IH]; intros cur; simpl.
  - discriminate.
  - unfold Py.contains; fold Py.contains. simpl.
    destruct (Ascii.eqb c sep) eqn:Hc.
    + apply Ascii.eqb_eq in Hc as ->. intros _.
      destruct (ascii_dec sep sep); [|congruence].
      now destruct rest.
    + intros H. rewrite (IH _ H). apply orb_true_r.
Qed.

Lemma split1_second (sep : ascii) (s a b : string) :
  Py.split1 sep s = [a; b] ->
  Py.contains (String sep EmptyString) s = true.
Proof. apply split1_acc_second. Qed.

(** Lines that neither name an AMD adapter nor start with [AdapterRAM]
    are passed over, whatever name has been seen. *)
Lemma amd_windows_scan_between (env : Env) (mid tail : list string)
  (seen : option string) (st : State) :
  (forall l, In l mid ->
             is_amd_name_line (Py.strip l) = false /\
             Py.startswith "AdapterRAM" (Py.strip l) = false) ->
  amd_windows_scan env (mid ++ tail) seen st =
  amd_windows_scan env tail seen st.
Proof.
  induction mid as [|line mid IH]; intros H; [reflexivity|].
  change ((line :: mid) ++ tail)%list with (line :: (mid ++ tail))%list.
  unfold amd_windows_scan; fold amd_windows_scan.
  destruct (H line (or_introl eq_refl)) as [Hname Hram].
  unfold is_amd_name_line in Hname. rewrite Hname, Hram.
  rewrite andb_false_l. apply IH.
  intros l Hin. apply H. now right.
Qed.

(** An AMD name line: its name is the one seen from there on. *)
Lemma amd_windows_scan_name (env : Env) (st : State)
  (name_line key value : string) (tail : list string)
  (seen : option string) :
  is_amd_name_line (Py.strip name_line) = true ->
  Py.split1 ":" (Py.strip name_line) = [key; value] ->
  amd_windows_scan env (name_line :: tail) seen st =
  amd_windows_scan env tail (Some (Py.strip value)) st.
Proof.
  intros Hname Hsplit.
  unfold amd_windows_scan; fold amd_windows_scan.
  unfold is_amd_name_line in Hname. rewrite Hname.
  rewrite (split1_second _ _ _ _ Hsplit), Hsplit.
  unfold getitem at 1. unfold bind at 1. reflexivity.
Qed.

(** An AMD name line followed, after lines that are neither, by an
    [AdapterRAM] line: the adapter is found, with the value of the table
    when a key occurs in its name and with the number of the [AdapterRAM]
    line otherwise. *)
Lemma amd_windows_scan_adapter (env : Env) (st : State)
  (name_line ram_line key value : string) (mid rest : list string)
  (seen : option string) :
  is_amd_name_line (Py.strip name_line) = true ->
  Py.split1 ":" (Py.strip name_line) = [key; value] ->
  Py.truthy (Py.strip value) = true ->
  (forall l, In l mid ->
             is_amd_name_line (Py.strip l) = false /\
             Py.startswith "AdapterRAM" (Py.strip l) = false) ->
  Py.startswith "AdapterRAM" (Py.strip ram_line) = true ->
  ((exists k v, In (k, v) AMD_VRAM_TABLE /\
                Py.contains k (Py.strip value) = true) ->
   exists i k v,
     nth_error AMD_VRAM_TABLE i = Some (k, v) /\
     Py.contains k (Py.strip value) = true /\
     (forall j k' v', (j < i)%nat ->
        nth_error AMD_VRAM_TABLE j = Some (k', v') ->
        Py.contains k' (Py.strip value) = false) /\
     amd_windows_scan env (name_line :: mid ++ ram_line :: rest) seen st =
       (Ok (true, Some (Py.strip value), v), st)) /\
  ((forall k v, In (k, v) AMD_VRAM_TABLE ->
                Py.contains k (Py.strip value) = false) ->
   forall field raw n,
     Py.split1 ":" (Py.strip ram_line) = [field; raw] ->
     Py.truthy (Py.strip raw) = true ->
     py_int env (Py.strip raw) = Some n ->
     Z.abs n < float_overflow * 1024 ^ 3 ->
     amd_windows_scan env (name_line :: mid ++ ram_line :: rest) seen st =
       (Ok (true, Some (Py.strip value),
            (inject_Z n / inject_Z (1024 ^ 3))%Q), st)).
Proof.
  intros Hname Hsplit Htruthy Hmid Hram.
  assert (Hscan :
    amd_windows_scan env (name_line :: mid ++ ram_line :: rest) seen st =
    bind (if Qeq_bool (lookup_vram AMD_VRAM_TABLE (Py.strip value)) 0
          then try_except
                 (bind (getitem (Py.split1 ":" (Py.strip ram_line)) 1)
                    (fun p =>
                       if Py.truthy (Py.strip p)
                       then bind (int_of env (Py.strip p))
                              (fun n => true_div n (1024 ^ 3))
                       else ret 0%Q))
                 (on_Value_or_Index
                    (ret (lookup_vram AMD_VRAM_TABLE (Py.strip value))))
          else ret (lookup_vram AMD_VRAM_TABLE (Py.strip value)))
      (fun vram => ret (true, Some (Py.strip value), vram)) st).
  { rewrite (amd_windows_scan_name env st name_line key value _ seen
               Hname Hsplit).
    rewrite (amd_windows_scan_between env mid _ _ st Hmid).
    unfold amd_windows_scan; fold amd_windows_scan.
    rewrite (adapter_line_is_no_name_line _ Hram). rewrite andb_false_l.
    rewrite Hram. simpl. rewrite Htruthy. reflexivity. }
  rewrite Hscan. clear Hscan. split.
  - intros Hkey.
    destruct (lookup_vram_first _ _ Hkey) as [i [k [v [Hn [Hc [Hb Hl]]]]]].
    exists i, k, v. repeat split; auto.
    rewrite Hl, (amd_table_nonzero i k v Hn). reflexivity.
  - intros Hnone field raw n Hs Ht Hi Hn.
    rewrite (lookup_vram_miss _ _ Hnone). simpl Qeq_bool. cbv iota.
    rewrite Hs. unfold bind, try_except, getitem, int_of. simpl.
    rewrite Ht, Hi. unfold true_div, ret at 1. cbv iota beta.
    change (1024 ^ 3 =? 0) with false. cbv iota.
    change (Z.abs (1024 ^ 3)) with (1024 ^ 3).
    rewrite (proj2 (Z.leb_gt _ _) Hn). reflexivity.
Qed.

(** Lines that name no AMD adapter are passed over while no adapter has
    been seen. *)
Lemma amd_windows_scan_skip (env : Env) (pre tail : list string) (st : State) :
  (forall l, In l pre -> is_amd_name_line (Py.strip l) = false) ->
  amd_windows_scan env (pre ++ tail) None st =
  amd_windows_scan env tail None st.
Proof.
  induction pre as [|line pre IH]; intros H; [reflexivity|].
  change ((line :: pre) ++ tail)%list with (line :: (pre ++ tail))%list.
  unfold amd_windows_scan; fold amd_windows_scan.
  pose proof (H line (or_introl eq_refl)) as Hl.
  unfold is_amd_name_line in Hl. rewrite Hl.
  rewrite andb_false_r. apply IH.
  intros l Hin. apply H. now right.
Qed.

(** C6, as stated, does not hold: on a Windows machine whose listing
    names the integrated adapter of the processor before the card, the
    card's name holds a key of the table (worth 24 GB), and the detection
    reports the integrated adapter with the number of its own
    [AdapterRAM] line; the card is not reported at all. *)
Lemma C6_counterexample :
  In "Name       : AMD Radeon RX 7900 XTX"
     (Py.split Py.newline two_adapters_listing) /\
  Py.contains "7900 XTX" "AMD Radeon RX 7900 XTX" = true /\
  lookup_vram AMD_VRAM_TABLE "AMD Radeon RX 7900 XTX" = (24 # 1)%Q /\
  fst (_detect_amd_windows two_adapters_env empty_state) =
    Ok (true, Some "AMD Radeon(TM) Graphics",
        (inject_Z 536870912 / inject_Z (1024 ^ 3))%Q) /\
  fst (_detect_amd_windows two_adapters_env empty_state) <>
    Ok (true, Some "AMD Radeon RX 7900 XTX", (24 # 1)%Q).
Proof.
  split; [vm_compute; tauto|]. split; [reflexivity|]. split; [reflexivity|].
  assert (H : fst (_detect_amd_windows two_adapters_env empty_state) =
              Ok (true, Some "AMD Radeon(TM) Graphics",
                  (inject_Z 536870912 / inject_Z (1024 ^ 3))%Q))
    by (vm_compute; reflexivity).
  split; [exact H|]. rewrite H. discriminate.
Qed.

(** C6, amended: the detection reports one adapter, the first that the
    listing names.  On Windows, when the listing of the OS management
    interface has, after lines that name no AMD adapter, an AMD name line
    followed (after lines that are neither an AMD name line nor an
    [AdapterRAM] line) by an [AdapterRAM] line, the detection reports
    the adapter of that name, whatever comes after.  When a key of the
    lookup table occurs in the name, the VRAM reported is the table's
    value (that of the first such key), whatever the [AdapterRAM] line
    says; the number on that line, divided by [1024^3], is used only when
    no key occurs in the name (a number in the range of [float]). *)
Theorem C6_amd_table_over_raw (env : Env) (st : State) (rc : Z)
  (out name_line ram_line key value : string) (pre mid rest : list string) :
  platform_system env = "Windows" ->
  proc env wmi_query = Exited rc out ->
  Py.split Py.newline (Py.strip out) =
    (pre ++ name_line :: mid ++ ram_line :: rest)%list ->
  (forall l, In l pre -> is_amd_name_line (Py.strip l) = false) ->
  is_amd_name_line (Py.strip name_line) = true ->
  Py.split1 ":" (Py.strip name_line) = [key; value] ->
  Py.truthy (Py.strip value) = true ->
  (forall l, In l mid ->
             is_amd_name_line (Py.strip l) = false /\
             Py.startswith "AdapterRAM" (Py.strip l) = false) ->
  Py.startswith "AdapterRAM" (Py.strip ram_line) = true ->
  ((exists k v, In (k, v) AMD_VRAM_TABLE /\
                Py.contains k (Py.strip value) = true) ->
   exists i k v,
     nth_error AMD_VRAM_TABLE i = Some (k, v) /\
     Py.contains k (Py.strip value) = true /\
     (forall j k' v', (j < i)%nat ->
        nth_error AMD_VRAM_TABLE j = Some (k', v') ->
        Py.contains k' (Py.strip value) = false) /\
     fst (_detect_amd_windows env st) = Ok (true, Some (Py.strip value), v)) /\
  ((forall k v, In (k, v) AMD_VRAM_TABLE ->
                Py.contains k (Py.strip value) = false) ->
   forall field raw n,
     Py.split1 ":" (Py.strip ram_line) = [field; raw] ->
     Py.truthy (Py.strip raw) = true ->
     py_int env (Py.strip raw) = Some n ->
     Z.abs n < float_overflow * 1024 ^ 3 ->
     fst (_detect_amd_windows env st) =
       Ok (true, Some (Py.strip value),
           (inject_Z n / inject_Z (1024 ^ 3))%Q)).
Proof.
  intros Hsys Hproc Hlines Hpre Hname Hsplit Htruthy Hmid Hram.
  assert (Hdet : forall r,
            amd_windows_scan env (name_line :: mid ++ ram_line :: rest) None
              (record (EvRun wmi_query) st) =
              (Ok r, record (EvRun wmi_query) st) ->
            fst (_detect_amd_windows env st) = Ok r).
  { intros r Hr. unfold _detect_amd_windows. rewrite Hsys.
    change (negb ("Windows" =? "Windows")%string) with false. cbv iota.
    unfold try_except, bind. rewrite run_unchecked, Hproc. simpl.
    destruct (Py.truthy (Py.strip out)) eqn:Hout.
    - simpl. rewrite Hlines.
      rewrite (amd_windows_scan_skip env pre _ _ Hpre), Hr. reflexivity.
    - exfalso. destruct (Py.strip out); [|discriminate Hout].
      vm_compute in Hlines.
      destruct pre as [|x [|y pre]]; try discriminate Hlines.
      destruct mid; discriminate Hlines. }
  destruct (amd_windows_scan_adapter env (record (EvRun wmi_query) st)
              name_line ram_line key value mid rest None
              Hname Hsplit Htruthy Hmid Hram) as [Htable Hraw].
  split.
  - intros Hkey.
    destruct (Htable Hkey) as (i & k & v & Hn & Hc & Hb & Hs).
    exists i, k, v. repeat split; auto.
  - intros Hnone field raw n Hs Ht Hi Hn.
    apply Hdet. now apply (Hraw Hnone field raw n).
Qed.

Lemma C6_amd_table_over_raw_witness :
  let listing := fun name : string =>
    ("Name       : Intel(R) UHD Graphics" ++ String Py.newline
     ("AdapterRAM : 1073741824" ++ String Py.newline
      (String Py.newline
       ("Name       : " ++ name ++ String Py.newline
        "AdapterRAM : 4293918720")))) in
  let env := fun name : string =>
    with_proc (bare_env "Windows") wmi_query (Exited 0 (listing name)) in
  (exists i k v,
     nth_error AMD_VRAM_TABLE i = Some (k, v) /\
     Py.contains k "AMD Radeon RX 7900 XTX" = true /\
     (forall j k' v', (j < i)%nat ->
        nth_error AMD_VRAM_TABLE j = Some (k', v') ->
        Py.contains k' "AMD Radeon RX 7900 XTX" = false) /\
     fst (_detect_amd_windows (env "AMD Radeon RX 7900 XTX") empty_state) =
       Ok (true, Some "AMD Radeon RX 7900 XTX", v)) /\
  fst (_detect_amd_windows (env "AMD Radeon RX 580") empty_state) =
    Ok (true, Some "AMD Radeon RX 580",
        (inject_Z 4293918720 / inject_Z (1024 ^ 3))%Q).
Proof.
  intros listing env.
  pose (pre := ["Name       : Intel(R) UHD Graphics";
                "AdapterRAM : 1073741824"; ""]).
  assert (Hpre : forall l, In l pre -> is_amd_name_line (Py.strip l) = false).
  { intros l [<-|[<-|[<-|[]]]]; reflexivity. }
  assert (Hmid : forall l, In l (@nil string) ->
            is_amd_name_line (Py.strip l) = false /\
            Py.startswith "AdapterRAM" (Py.strip l) = false).
  { intros l []. }
  split.
  - apply (proj1 (C6_amd_table_over_raw (env "AMD Radeon RX 7900 XTX")
                    empty_state 0 (listing "AMD Radeon RX 7900 XTX")
                    "Name       : AMD Radeon RX 7900 XTX"
                    "AdapterRAM : 4293918720"
                    "Name       " " AMD Radeon RX 7900 XTX" pre [] []
                    eq_refl eq_refl eq_refl Hpre
                    eq_refl eq_refl eq_refl Hmid eq_refl)).
    exists "7900 XT", (20 # 1)%Q. split; [|reflexivity].
    simpl. right. left. reflexivity.
  - apply (proj2 (C6_amd_table_over_raw (env "AMD Radeon RX 580")
                    empty_state 0 (listing "AMD Radeon RX 580")
                    "Name       : AMD Radeon RX 580"
                    "AdapterRAM : 4293918720"
                    "Name       " " AMD Radeon RX 580" pre [] []
                    eq_refl eq_refl eq_refl Hpre
                    eq_refl eq_refl eq_refl Hmid eq_refl))
      with (field := "AdapterRAM ") (raw := " 4293918720");
      try reflexivity.
    intros k v Hin. simpl in Hin.
    repeat (destruct Hin as [Heq|Hin];
            [injection Heq as <- <-; reflexivity|]).
    destruct Hin.
Defined.

(** ** The smoke test *)

Lemma extends_trans (s1 s2 s3 : State) (e1 e2 : list event) :
  extends s1 s2 e1 -> extends s2 s3 e2 -> extends s1 s3 (e1 ++ e2)%list.
Proof.
  intros (Ht1 & Hf1 & Hd1 & Hi1 & Hc1) (Ht2 & Hf2 & Hd2 & Hi2 & Hc2).
  unfold extends. rewrite Hf2, Hd2, Hi2, Hc2, Ht2, Hf1, Hd1, Hi1, Hc1, Ht1.
  unfold requests. rewrite List.filter_app, length_app, <- app_assoc.
  repeat split. lia.
Qed.

(** Closes a goal [extends s s' ?evs] once [s'] is spelled out. *)
Ltac solve_extends :=
  unfold extends, record; simpl;
  repeat split; simpl;
  first [ reflexivity
        | rewrite <- ?app_assoc; simpl; reflexivity
        | simpl; lia ].

Lemma smoke_llm_verdict (env : Env) (models : Models) (st : State) :
  usable env generate_shape (http_reply env (http_count st) generate_url) ->
  exists evs st',
    smoke_llm env models st =
      (Ok (Py.truthy_opt (http_reply env (http_count st) generate_url)), st') /\
    extends st st' evs /\
    requests evs = [EvHttpPost generate_url] /\ fs_changes evs = [].
Proof.
  intros Hu.
  unfold smoke_llm, info, ok, fail, print, emit, http_post_json, bind; simpl.
  destruct (http_reply env (http_count st) generate_url) as [body|] eqn:Hr;
    simpl.
  - destruct (Py.truthy body); simpl.
    + unfold try_except, json_decode, bind.
      destruct (json_loads env body) as [j|] eqn:Hj; simpl.
      * specialize (Hu body j eq_refl Hj).
        destruct j as [| | | | |fields]; try discriminate. simpl in Hu. simpl.
        destruct (assoc "response" fields) as [[]|]; try discriminate;
          destruct (assoc "total_duration" fields) as [[]|]; try discriminate;
          simpl in Hu; simpl;
          try (destruct (Qle_bool (inject_Z float_overflow) (Qabs _));
               [discriminate Hu|]);
          simpl; do 2 eexists; (split; [reflexivity|]);
          (split; [solve_extends | split; reflexivity]).
      * do 2 eexists. split; [reflexivity|].
        split; [solve_extends | split; reflexivity].
    + do 2 eexists. split; [reflexivity|].
      split; [solve_extends | split; reflexivity].
  - do 2 eexists. split; [reflexivity|].
    split; [solve_extends | split; reflexivity].
Qed.

Lemma smoke_search_verdict (env : Env) (st : State) :
  usable env search_shape (http_reply env (http_count st) search_url) ->
  exists evs st',
    smoke_search env st =
      (Ok (Py.truthy_opt (http_reply env (http_count st) search_url)), st') /\
    extends st st' evs /\
    requests evs = [EvHttpGet search_url] /\ fs_changes evs = [].
Proof.
  intros Hu.
  unfold smoke_search, info, ok, warn, fail, print, emit, http_get, bind; simpl.
  destruct (http_reply env (http_count st) search_url) as [body|] eqn:Hr;
    simpl.
  - destruct (Py.truthy body); simpl.
    + unfold try_except, json_decode, bind.
      destruct (json_loads env body) as [j|] eqn:Hj; simpl.
      * specialize (Hu body j eq_refl Hj).
        destruct j as [| | | | |fields]; try discriminate. simpl in Hu. simpl.
        destruct (assoc "results" fields) as [[]|]; try discriminate;
          simpl; do 2 eexists; (split; [reflexivity|]);
          (split; [solve_extends | split; reflexivity]).
      * do 2 eexists. split; [reflexivity|].
        split; [solve_extends | split; reflexivity].
    + do 2 eexists. split; [reflexivity|].
      split; [solve_extends | split; reflexivity].
  - do 2 eexists. split; [reflexivity|].
    split; [solve_extends | split; reflexivity].
Qed.

(** The fetch test returns nothing and never raises; it asks the second
    address only when the first gave no answer. *)
Lemma smoke_fetch_advisory (env : Env) (st : State) :
  exists evs st',
    smoke_fetch env st = (Ok tt, st') /\
    extends st st' evs /\
    requests evs =
      EvHttpGet "https://httpbin.org/get" ::
      (if Py.truthy_opt (http_reply env (http_count st) "https://httpbin.org/get")
       then [] else [EvHttpGet "https://example.com"]) /\
    fs_changes evs = [].
Proof.
  unfold smoke_fetch, info, ok, warn, print, emit, http_get, bind; simpl.
  destruct (Py.truthy_opt (http_reply env (http_count st) "https://httpbin.org/get"));
    simpl.
  - do 2 eexists. split; [reflexivity|].
    split; [solve_extends | split; reflexivity].
  - destruct (Py.truthy_opt (http_reply env (S (http_count st)) "https://example.com"));
      simpl; do 2 eexists; (split; [reflexivity|]);
      (split; [solve_extends | split; reflexivity]).
Qed.

Lemma requests_app (a b : list event) :
  requests (a ++ b) = (requests a ++ requests b)%list.
Proof. apply List.filter_app. Qed.

Lemma fs_changes_app (a b : list event) :
  fs_changes (a ++ b) = (fs_changes a ++ fs_changes b)%list.
Proof. apply List.filter_app. Qed.

(** On replies of the shape of the two endpoints the verdict of the
    smoke test is the conjunction of "the LLM answered" and "the search
    answered": it is failure exactly when one of the two probes got no
    answer.  The replies to the two fetches do not enter it.  All three
    sub-checks are made in every case, the later ones also after an
    earlier one failed, and nothing is written.  A reply counts as an
    answer when it is a non-empty body; the replies are taken to be no
    JSON at all or JSON of the shape of the two endpoints. *)
Theorem smoke_test_verdict (env : Env) (models : Models) (st : State) :
  let llm := http_reply env (http_count st) generate_url in
  let search := http_reply env (S (http_count st)) search_url in
  let fetch := http_reply env (S (S (http_count st))) "https://httpbin.org/get" in
  usable env generate_shape llm ->
  usable env search_shape search ->
  exists evs st',
    smoke_test env models st =
      (Ok (Py.truthy_opt llm && Py.truthy_opt search), st') /\
    (Py.truthy_opt llm && Py.truthy_opt search = false <->
     Py.truthy_opt llm = false \/ Py.truthy_opt search = false) /\
    trace st' = (trace st ++ evs)%list /\
    requests evs =
      ([EvHttpPost generate_url; EvHttpGet search_url;
        EvHttpGet "https://httpbin.org/get"] ++
       (if Py.truthy_opt fetch then [] else [EvHttpGet "https://example.com"]))%list /\
    fs_changes evs = [] /\ files st' = files st /\ dirs st' = dirs st.
Proof.
  intros llm search fetch Hl Hs.
  unfold smoke_test.
  set (s0 := record (EvPrint LvPlain "Smoke test (end-to-end pipeline check):") st).
  assert (H0 : extends st s0 [EvPrint LvPlain "Smoke test (end-to-end pipeline check):"]).
  { subst s0. solve_extends. }
  destruct (smoke_llm_verdict env models s0 Hl) as (e1 & s1 & Hr1 & Hx1 & Hq1 & Hc1).
  assert (Hn1 : http_count s1 = S (http_count st)).
  { destruct Hx1 as (_ & _ & _ & _ & Hn). rewrite Hn, Hq1. simpl. lia. }
  assert (Hs' : usable env search_shape (http_reply env (http_count s1) search_url)).
  { now rewrite Hn1. }
  destruct (smoke_search_verdict env s1 Hs') as (e2 & s2 & Hr2 & Hx2 & Hq2 & Hc2).
  assert (Hn2 : http_count s2 = S (S (http_count st))).
  { destruct Hx2 as (_ & _ & _ & _ & Hn). rewrite Hn, Hq2, Hn1. simpl. lia. }
  destruct (smoke_fetch_advisory env s2) as (e3 & s3 & Hr3 & Hx3 & Hq3 & Hc3).
  rewrite Hn1 in Hr2. rewrite Hn2 in Hq3.
  change (http_reply env (http_count s0) generate_url) with llm in Hr1.
  fold search in Hr2. fold fetch in Hq3.
  pose proof (extends_trans _ _ _ _ _ (extends_trans _ _ _ _ _
                (extends_trans _ _ _ _ _ H0 Hx1) Hx2) Hx3) as Hx.
  set (verdict := Py.truthy_opt llm && Py.truthy_opt search).
  set (last_ev := if verdict then EvPrint LvOk "Smoke test passed"
                  else EvPrint LvFail "Smoke test had failures — check issues above").
  exists ((([EvPrint LvPlain "Smoke test (end-to-end pipeline check):"] ++ e1)
             ++ e2) ++ e3 ++ [last_ev])%list, (record last_ev s3).
  split; [|split; [|split; [|split; [|split]]]].
  - unfold bind, print, emit. fold s0. rewrite Hr1, Hr2, Hr3.
    subst last_ev verdict. fold fetch.
    destruct (Py.truthy_opt llm && Py.truthy_opt search); reflexivity.
  - apply andb_false_iff.
  - destruct Hx as (Ht & _). simpl. rewrite Ht.
    now rewrite <- !app_assoc.
  - rewrite !requests_app, Hq1, Hq2, Hq3. simpl.
    destruct verdict; subst last_ev; simpl; now rewrite app_nil_r.
  - rewrite !fs_changes_app, Hc1, Hc2, Hc3. simpl.
    destruct verdict; reflexivity.
  - destruct Hx as (_ & Hf & Hd & _). simpl. auto.
Qed.

Lemma smoke_test_verdict_example :
  let env := with_http (bare_env "Linux") llm_only_reply llm_only_loads in
  let models := mkModels "phi3:mini" "phi3:mini" "phi3:mini" in
  usable env generate_shape (http_reply env 0 generate_url) /\
  usable env search_shape (http_reply env 1 search_url) /\
  exists evs st',
    smoke_test env models empty_state = (Ok false, st') /\
    requests evs =
      [EvHttpPost generate_url; EvHttpGet search_url;
       EvHttpGet "https://httpbin.org/get"; EvHttpGet "https://example.com"].
Proof.
  intros env models.
  assert (H1 : usable env generate_shape (http_reply env 0 generate_url)).
  { intros body j _ Hj. injection Hj as <-. reflexivity. }
  assert (H2 : usable env search_shape (http_reply env 1 search_url)).
  { intros body j Hb. discriminate Hb. }
  split; [exact H1|]. split; [exact H2|].
  destruct (smoke_test_verdict env models empty_state H1 H2)
    as (evs & st' & Hr & _ & _ & Hq & _).
  exists evs, st'. split; [exact Hr | exact Hq].
Defined.

(** C8, the code against the claim: a reply of the generate endpoint
    that is JSON but no object (an array, a string, a number, a boolean,
    null) is fatal to the smoke test.  The LLM test catches
    [JSONDecodeError] only, so [AttributeError] leaves it: no verdict is
    returned, and the search test and the fetch test, which come after,
    are never made; the POST to the generate endpoint is the only request
    of the smoke test. *)
Theorem C8_malformed_reply_is_fatal (env : Env) (models : Models) (st : State)
  (body : string) (j : json) :
  http_reply env (http_count st) generate_url = Some body ->
  Py.truthy body = true ->
  json_loads env body = Some j ->
  (forall fields, j <> JObj fields) ->
  exists evs st',
    smoke_test env models st = (Raise AttributeError, st') /\
    trace st' = (trace st ++ evs)%list /\
    requests evs = [EvHttpPost generate_url].
Proof.
  intros Hr Ht Hj Hobj.
  unfold smoke_test, smoke_llm, info, print, emit, http_post_json, bind,
    try_except, json_decode, bind.
  simpl. rewrite Hr. simpl. rewrite Ht, Hj.
  destruct j; try (now destruct (Hobj fields)); simpl;
    do 2 eexists; (split; [reflexivity|]);
    (split; [simpl; rewrite <- ?app_assoc; reflexivity | reflexivity]).
Qed.

Lemma C8_malformed_reply_is_fatal_witness :
  let models := mkModels "phi3:mini" "phi3:mini" "phi3:mini" in
  (exists evs st',
     smoke_test array_reply_env models empty_state =
       (Raise AttributeError, st') /\
     trace st' = (trace empty_state ++ evs)%list /\
     requests evs = [EvHttpPost generate_url]) /\
  fst (script array_reply_env true configured_state) = 1 /\
  List.last (trace (snd (script array_reply_env true configured_state)))
            (EvSleep 0) = EvPrint LvFail "Unexpected error" /\
  List.last (requests
               (trace (snd (script array_reply_env true configured_state))))
            (EvSleep 0) = EvHttpPost generate_url.
Proof.
  intros models. split.
  - apply (C8_malformed_reply_is_fatal array_reply_env models empty_state
             "[]" (JArr []) eq_refl eq_refl eq_refl).
    intros fields H. discriminate H.
  - split; [vm_compute; reflexivity|].
    split; vm_compute; reflexivity.
Defined.

(** ** Launching a service *)

Lemma starts_app (a b : list event) :
  starts (a ++ b) = (starts a + starts b)%nat.
Proof. unfold starts. now rewrite List.filter_app, length_app. Qed.

Lemma sleeps_app (a b : list event) :
  sleeps (a ++ b) = (sleeps a ++ sleeps b)%list.
Proof.
  induction a as [|e a IH]; simpl; [reflexivity|].
  destruct e; simpl; now rewrite IH.
Qed.

Lemma actions_app (a b : list event) :
  actions (a ++ b) = (actions a ++ actions b)%list.
Proof.
  induction a as [|e a IH]; simpl; [reflexivity|].
  destruct e; simpl; rewrite ?IH; try reflexivity.
  now destruct (bool_decide (cmd = compose_up)).
Qed.

(** Events that are no launch, no pause and no request are no action. *)
Lemma actions_quiet (evs : list event) :
  starts evs = 0%nat -> sleeps evs = [] -> requests evs = [] ->
  actions evs = [].
Proof.
  unfold starts, requests.
  induction evs as [|e evs IH]; [reflexivity|].
  destruct e; simpl; try discriminate; try exact IH.
  destruct (bool_decide (cmd = compose_up)); simpl; [discriminate | exact IH].
Qed.

Lemma ollama_probe_url (env : Env) :
  probes_url env (ollama_probe env) tags_url Py.truthy_opt.
Proof. intros s. reflexivity. Qed.

Lemma searxng_probe_url (env : Env) :
  probes_url env (_searxng_is_running env) searx_probe_url
    (fun r => match r with Some _ => true | None => false end).
Proof. intros s. reflexivity. Qed.

(** When the probe never finds the service, the loop makes [n] rounds of
    a five second pause followed by one probe, in that order, and goes on
    with the code after it. *)
Lemma wait_loop_never (env : Env) (url : string) (f : option string -> bool)
  (probe : M bool) (ready waiting : string) (after : M bool) :
  probes_url env probe url f ->
  (forall n, f (http_reply env n url) = false) ->
  forall (n : nat) (i : Z) (s : State), exists evs s',
    wait_loop n i probe ready waiting after s = after s' /\
    trace s' = (trace s ++ evs)%list /\
    actions evs = polls n url.
Proof.
  intros Hp Hdown. induction n as [|n IH]; intros i s;
    unfold wait_loop; fold wait_loop.
  - exists [], s. rewrite app_nil_r. auto.
  - unfold bind at 1. unfold sleep, emit.
    unfold bind at 1. rewrite Hp, Hdown.
    unfold bind at 1. unfold info, print, emit.
    match goal with
    | |- context [wait_loop n ?i' probe ready waiting after ?s'] =>
        destruct (IH i' s') as (evs & s2 & Hw & Ht & Ha)
    end.
    exists ([EvSleep 5; EvHttpGet url; EvPrint LvInfo (waiting ++ elapsed i)]
              ++ evs)%list, s2.
    split; [exact Hw|]. split.
    + rewrite Ht. simpl. now rewrite <- !app_assoc.
    + rewrite actions_app, Ha. reflexivity.
Qed.

(** The first part of [step_ollama]: the command line tool is there. *)
Lemma ollama_cli_check (env : Env) (s : State) :
  cli_present env ->
  try_except
    (bind (run env ["ollama"; "--version"] true false)
       (fun ver => if Py.truthy_opt ver
                   then bind (ok "Ollama CLI") (fun _ => ret true)
                   else ret false))
    (on_Exception (ret false)) s =
  (Ok true, record (EvPrint LvOk "Ollama CLI")
              (record (EvRun ["ollama"; "--version"]) s)).
Proof.
  intros (rc & out & Hp & Ht).
  unfold try_except, bind. rewrite run_unchecked, Hp. simpl.
  now rewrite Ht.
Qed.

(** Unfolds a step down to the primitive actions. *)
Ltac open_step :=
  unfold try_except, run, try_except, subprocess_run, popen, bind,
    on_Exception, banner, ok, fail, warn, info, print, emit, http_get,
    path_exists;
  simpl.

(** Closes [trace st' = trace st ++ ?evs] and the counts over [?evs]
    that follow it. *)
Ltac close_trace :=
  split; [simpl; rewrite <- ?app_assoc; reflexivity|];
  rewrite ?starts_app, ?sleeps_app, ?requests_app, ?fs_changes_app,
    ?length_app;
  repeat split.

(** Closes [trace st' = trace st ++ ?evs /\ actions ?evs = acts] once the
    final state is spelled out. *)
Ltac close_course :=
  split; [simpl; rewrite <- ?app_assoc; reflexivity | reflexivity].

Lemma step_ollama_up (env : Env) (check_only : bool) (st : State) :
  cli_present env ->
  Py.truthy_opt (http_reply env (http_count st) tags_url) = true ->
  course (step_ollama env check_only) st true [Request tags_url].
Proof.
  intros (rc & out & Hp & Ht) Hup.
  unfold course, step_ollama. open_step.
  rewrite Hp. simpl. rewrite Ht. simpl. rewrite Hup. simpl.
  do 2 eexists. split; [reflexivity|]. close_course.
Qed.

Lemma step_ollama_check_only_down (env : Env) (st : State) :
  cli_present env ->
  Py.truthy_opt (http_reply env (http_count st) tags_url) = false ->
  course (step_ollama env true) st false [Request tags_url].
Proof.
  intros (rc & out & Hp & Ht) Hdown.
  unfold course, step_ollama. open_step.
  rewrite Hp. simpl. rewrite Ht. simpl. rewrite Hdown. simpl.
  do 2 eexists. split; [reflexivity|]. close_course.
Qed.

Lemma step_ollama_never_up (env : Env) (st : State) :
  cli_present env ->
  (forall n, Py.truthy_opt (http_reply env n tags_url) = false) ->
  popen_ok env ["ollama"; "serve"] = true ->
  course (step_ollama env false) st false
    (Request tags_url :: Launch ["ollama"; "serve"] :: polls 12 tags_url).
Proof.
  intros (rc & out & Hp & Ht) Hdown Hpopen.
  unfold course, step_ollama. open_step.
  rewrite Hp. simpl. rewrite Ht. simpl. rewrite Hdown. simpl.
  rewrite Hpopen. simpl.
  match goal with
  | |- context [wait_loop ?n ?i ?p ?r ?w ?a ?s] =>
      destruct (wait_loop_never env _ _ p r w a (ollama_probe_url env) Hdown
                  n i s)
        as (evs & s' & Hw & Htr & Hact);
      rewrite Hw
  end.
  do 2 eexists. split; [reflexivity|].
  split; [simpl; rewrite Htr; simpl; rewrite <- ?app_assoc; reflexivity|].
  rewrite ?actions_app, Hact. reflexivity.
Qed.

Lemma step_searxng_up (env : Env) (check_only : bool) (st : State) (body : string) :
  http_reply env (http_count st) searx_probe_url = Some body ->
  course (step_searxng env check_only) st true [Request searx_probe_url].
Proof.
  intros Hup.
  unfold course, step_searxng, _searxng_is_running. open_step.
  fold searx_probe_url. rewrite Hup. simpl.
  do 2 eexists. split; [reflexivity|]. close_course.
Qed.

Lemma step_searxng_check_only_down (env : Env) (st : State) :
  http_reply env (http_count st) searx_probe_url = None ->
  course (step_searxng env true) st false [Request searx_probe_url].
Proof.
  intros Hdown.
  unfold course, step_searxng, _searxng_is_running. open_step.
  fold searx_probe_url. rewrite Hdown. simpl.
  do 2 eexists. split; [reflexivity|]. close_course.
Qed.

(** Writing the two SearXNG files launches nothing, waits for nothing and
    asks nothing. *)
Lemma create_searxng_config_quiet (env : Env) (s : State) :
  SEARXNG_DIR ∈ dirs s \/ files s !! SEARXNG_DIR = None ->
  exists evs s',
    _create_searxng_config env s = (Ok tt, s') /\
    trace s' = (trace s ++ evs)%list /\
    http_count s' = http_count s /\
    starts evs = 0%nat /\ sleeps evs = [] /\ requests evs = [].
Proof.
  intros Hdir.
  unfold _create_searxng_config, mkdir_exist_ok, write_text. open_step.
  destruct (bool_decide (SEARXNG_DIR ∈ dirs s)) eqn:Hd; simpl.
  - repeat match goal with
           | |- context [exists_in ?s ?p] => destruct (exists_in s p); simpl
           end;
      do 2 eexists; (split; [reflexivity|]); close_trace.
  - destruct Hdir as [Hin|Hnone].
    { apply bool_decide_eq_false in Hd. contradiction. }
    rewrite Hnone. simpl.
    repeat match goal with
           | |- context [exists_in ?s ?p] => destruct (exists_in s p); simpl
           end;
      do 2 eexists; (split; [reflexivity|]); close_trace.
Qed.

Lemma step_searxng_never_up (env : Env) (st : State) (out : string) :
  (forall n, http_reply env n searx_probe_url = None) ->
  exists_in st COMPOSE_FILE = true ->
  SEARXNG_DIR ∈ dirs st \/ files st !! SEARXNG_DIR = None ->
  proc env compose_up = Exited 0 out ->
  course (step_searxng env false) st false
    (Request searx_probe_url :: Launch compose_up :: polls 18 searx_probe_url).
Proof.
  intros Hdown Hcompose Hdir Hproc.
  unfold course, step_searxng. unfold bind at 1. unfold banner, print, emit.
  unfold bind at 1. unfold _searxng_is_running at 1, bind at 1, http_get at 1.
  fold searx_probe_url. rewrite Hdown. cbv iota beta.
  unfold ret at 1. cbv iota beta.
  unfold bind at 1, path_exists at 1.
  change (exists_in _ COMPOSE_FILE) with (exists_in st COMPOSE_FILE).
  rewrite Hcompose. change (negb true) with false. cbv iota beta.
  unfold bind at 1.
  match goal with
  | |- context [_create_searxng_config env ?s] =>
      destruct (create_searxng_config_quiet env s Hdir)
        as (e1 & s1 & Hc & Ht1 & Hn1 & Hst1 & Hsl1 & Hrq1);
      rewrite Hc
  end.
  pose proof (actions_quiet e1 Hst1 Hsl1 Hrq1) as Ha1.
  assert (Hdown' : forall k,
            (fun r : option string =>
               match r with Some _ => true | None => false end)
              (http_reply env k searx_probe_url) = false).
  { intros k. now rewrite Hdown. }
  open_step. rewrite Hproc. simpl.
  match goal with
  | |- context [wait_loop ?n ?i ?p ?r ?w ?a ?s] =>
      destruct (wait_loop_never env _ _ p r w a (searxng_probe_url env)
                  Hdown' n i s)
        as (e2 & s2 & Hw & Ht2 & Ha2);
      rewrite Hw
  end.
  destruct (proc env compose_ps) as [rc ps| | |]; simpl;
    try destruct (Py.truthy (Py.strip ps)); simpl;
    do 2 eexists; (split; [reflexivity|]);
    (split; [simpl; rewrite Ht2; simpl; rewrite Ht1; simpl;
             rewrite <- ?app_assoc; reflexivity|]);
    rewrite ?actions_app, Ha1, Ha2; reflexivity.
Qed.

(** C5, as stated, does not hold: in validate-only mode, on a machine
    where neither service ever answers, both launch steps return failure
    without having launched anything, where the claim asks for exactly
    one launch. *)
Lemma C5_counterexample :
  (forall n url, http_reply ollama_cli_env n url = None) /\
  fst (step_ollama ollama_cli_env true empty_state) = Ok false /\
  starts (trace (snd (step_ollama ollama_cli_env true empty_state))) <> 1%nat /\
  fst (step_searxng ollama_cli_env true empty_state) = Ok false /\
  starts (trace (snd (step_searxng ollama_cli_env true empty_state))) <> 1%nat.
Proof.
  split; [reflexivity|]. split; [reflexivity|]. split; [discriminate|].
  split; [reflexivity | discriminate].
Qed.

(** C5, amended.  For the LLM runtime the contract is that of the step
    once the [ollama] command line tool has answered; for the search
    engine, part (b) is for a run in which the compose file is there, no
    plain file stands where the directory [searxng] goes, and
    [docker compose up] exits with 0.
    (a) When the first probe finds the service, the step returns success
    at once, in either mode: that one request is all it does, no launch
    and no pause.
    (b) When the probe never finds it and the run is not validate-only,
    the step sends the first probe, then launches the service once (the
    detached [ollama serve], which starts; [docker compose up -d]), then
    makes 12 rounds (LLM runtime) or 18 rounds (search engine) of a pause
    of five seconds followed by a probe, in that order, and returns
    failure.
    (c) In validate-only mode a service that is down gives failure after
    the first probe, with no launch and no pause. *)
Theorem C5_service_launch (env : Env) (st : State) :
  (cli_present env ->
   (Py.truthy_opt (http_reply env (http_count st) tags_url) = true ->
    forall check_only,
      course (step_ollama env check_only) st true [Request tags_url]) /\
   ((forall n, Py.truthy_opt (http_reply env n tags_url) = false) ->
    popen_ok env ["ollama"; "serve"] = true ->
    course (step_ollama env false) st false
      (Request tags_url :: Launch ["ollama"; "serve"]
         :: polls 12 tags_url)) /\
   (Py.truthy_opt (http_reply env (http_count st) tags_url) = false ->
    course (step_ollama env true) st false [Request tags_url])) /\
  ((forall body, http_reply env (http_count st) searx_probe_url = Some body ->
    forall check_only,
      course (step_searxng env check_only) st true
        [Request searx_probe_url]) /\
   ((forall n, http_reply env n searx_probe_url = None) ->
    exists_in st COMPOSE_FILE = true ->
    SEARXNG_DIR ∈ dirs st \/ files st !! SEARXNG_DIR = None ->
    forall out, proc env compose_up = Exited 0 out ->
    course (step_searxng env false) st false
      (Request searx_probe_url :: Launch compose_up
         :: polls 18 searx_probe_url)) /\
   (http_reply env (http_count st) searx_probe_url = None ->
    course (step_searxng env true) st false [Request searx_probe_url])).
Proof.
  split.
  - intros Hcli. split; [|split].
    + intros Hup check_only. exact (step_ollama_up env check_only st Hcli Hup).
    + intros Hdown Hpopen.
      exact (step_ollama_never_up env st Hcli Hdown Hpopen).
    + intros Hdown. exact (step_ollama_check_only_down env st Hcli Hdown).
  - split; [|split].
    + intros body Hup check_only.
      exact (step_searxng_up env check_only st body Hup).
    + intros Hdown Hcompose Hdir out Hproc.
      exact (step_searxng_never_up env st out Hdown Hcompose Hdir Hproc).
    + intros Hdown. exact (step_searxng_check_only_down env st Hdown).
Qed.

Lemma C5_service_launch_witness :
  let env := with_popen ollama_cli_env in
  cli_present env /\
  (forall n, Py.truthy_opt (http_reply env n tags_url) = false) /\
  popen_ok env ["ollama"; "serve"] = true /\
  course (step_ollama env false) empty_state false
    (Request tags_url :: Launch ["ollama"; "serve"] :: polls 12 tags_url) /\
  polls 2 tags_url =
    [Pause 5; Request tags_url; Pause 5; Request tags_url] /\
  course (step_ollama env true) empty_state false [Request tags_url].
Proof.
  intros env.
  assert (Hcli : cli_present env).
  { exists 0, "ollama version is 0.5.7". split; reflexivity. }
  assert (Hdown : forall n, Py.truthy_opt (http_reply env n tags_url) = false).
  { intros n. reflexivity. }
  destruct (C5_service_launch env empty_state) as [Hollama _].
  destruct (Hollama Hcli) as (_ & Hb & Hc).
  split; [exact Hcli|]. split; [exact Hdown|]. split; [reflexivity|].
  split; [exact (Hb Hdown eq_refl)|]. split; [reflexivity|].
  exact (Hc (Hdown O)).
Defined.

(** ** Validate-only mode and the file system *)

(** [make_dirs] creates every directory of the list that is not there,
    whatever the mode of the run. *)
Lemma make_dirs_creates (ds : list string) :
  forall s,
    (forall d, In d ds -> files s !! d = None) ->
    exists s',
      make_dirs ds s = (Ok tt, s') /\
      dirs s' = list_to_set ds ∪ dirs s /\
      files s' = files s.
Proof.
  induction ds as [|d ds IH]; intros s Hfree.
  - exists s. repeat split. simpl. set_solver.
  - unfold make_dirs; fold make_dirs. unfold bind, mkdir_exist_ok.
    destruct (bool_decide (d ∈ dirs s)) eqn:Hd.
    + destruct (IH s) as (s' & Hm & Hds & Hfs).
      { intros d' Hin. apply Hfree. now right. }
      exists s'. rewrite Hm. repeat split; auto.
      rewrite Hds. apply bool_decide_eq_true in Hd. simpl. set_solver.
    + rewrite (Hfree d) by now left.
      rewrite bool_decide_eq_false_2 by (intros [x Hx]; discriminate).
      match goal with
      | |- context [make_dirs ds ?s1] =>
          destruct (IH s1) as (s' & Hm & Hds & Hfs)
      end.
      { intros d' Hin. simpl. apply Hfree. now right. }
      exists s'. rewrite Hm. repeat split; auto.
      rewrite Hds. simpl. set_solver.
Qed.

(** With [config.yaml] in place, [step_config] in validate-only mode
    succeeds and leaves every runtime directory created. *)
Lemma step_config_check_only_creates (env : Env) (models : Models)
  (hw : Hardware) (st : State) :
  exists_in st CONFIG_FILE = true ->
  (forall d, In d runtime_dirs -> files st !! d = None) ->
  exists st',
    step_config env models hw true st = (Ok true, st') /\
    dirs st' = list_to_set runtime_dirs ∪ dirs st /\
    files st' = files st.
Proof.
  intros Hcfg Hfree.
  unfold step_config. unfold bind at 1. unfold banner, print, emit.
  unfold bind at 1, path_exists at 1.
  change (exists_in _ CONFIG_FILE) with (exists_in st CONFIG_FILE).
  rewrite Hcfg. cbv iota beta.
  assert (Hquiet : forall (m : M unit) (s : State),
            (exists s', m s = (Ok tt, s') /\ dirs s' = dirs s /\
                        files s' = files s) ->
            forall k : unit -> M bool,
            (forall s', dirs s' = dirs s -> files s' = files s ->
               exists st', k tt s' = (Ok true, st') /\
                           dirs st' = list_to_set runtime_dirs ∪ dirs s /\
                           files st' = files s) ->
            exists st', bind m k s = (Ok true, st') /\
                        dirs st' = list_to_set runtime_dirs ∪ dirs s /\
                        files st' = files s).
  { intros m s (s' & Hm & Hd & Hf) k Hk. unfold bind. rewrite Hm.
    now apply Hk. }
  unfold bind at 1. unfold bind at 1. unfold ok at 1, print, emit.
  unfold bind at 1, read_file at 1. cbv iota beta.
  match goal with
  | |- context [bind ?m (fun _ => ret true) ?s] =>
      assert (Hv : exists s', bind m (fun _ => ret true) s = (Ok true, s') /\
                              dirs s' = dirs st /\ files s' = files st)
  end.
  { unfold bind, ret, warn, ok, print, emit. simpl.
    destruct (files st !! CONFIG_FILE) as [c|];
      [destruct (yaml_sections_ok env c) as [[]|]|];
      eexists; repeat split. }
  destruct Hv as (s1 & Hv & Hd1 & Hf1). rewrite Hv. cbv iota beta.
  change (negb true) with false. cbv iota.
  unfold bind at 1, path_exists at 1.
  unfold bind at 1.
  match goal with
  | |- context [(if ?b then ?x else ?y) s1] =>
      assert (He : exists s', (if b then x else y) s1 = (Ok tt, s') /\
                              dirs s' = dirs st /\ files s' = files st)
  end.
  { destruct (exists_in s1 ENV_FILE); unfold ok, warn, print, emit;
      eexists; repeat split; simpl; assumption. }
  destruct He as (s2 & He & Hd2 & Hf2). rewrite He. cbv iota beta.
  unfold bind at 1.
  destruct (make_dirs_creates runtime_dirs s2) as (s3 & Hm & Hd3 & Hf3).
  { intros d Hin. rewrite Hf2. now apply Hfree. }
  rewrite Hm. unfold bind, ok, print, emit, ret. simpl.
  eexists. split; [reflexivity|]. simpl.
  rewrite Hd3, Hd2, Hf3, Hf2. auto.
Qed.

(** C2, the code against the claim: run with [--check] on a machine
    where everything is installed and running and [config.yaml] exists
    but the runtime directories do not, the script exits with status 0
    after having created the five directories. *)
Theorem C2_check_mode_creates_directories :
  let r := script installed_env true configured_state in
  dirs configured_state = ∅ /\
  fst r = 0 /\
  fs_changes (trace (snd r)) =
    [EvMkdir "cache"; EvMkdir "runs"; EvMkdir "store"; EvMkdir "inbox";
     EvMkdir "logs"] /\
  dirs (snd r) = list_to_set runtime_dirs /\
  dirs (snd r) <> dirs configured_state.
Proof.
  assert (Hd : dirs (snd (script installed_env true configured_state)) =
               list_to_set runtime_dirs).
  { vm_compute. reflexivity. }
  split; [reflexivity|]. split; [vm_compute; reflexivity|].
  split; [vm_compute; reflexivity|]. split; [exact Hd|].
  rewrite Hd. intros Heq.
  assert (Hin : "cache" ∈ dirs configured_state).
  { rewrite <- Heq. simpl. set_solver. }
  revert Hin. simpl. set_solver.
Qed.

(** In validate-only mode on Linux without FFmpeg, the Docker step asks
    the package manager to install it. *)
Lemma check_mode_attempts_ffmpeg_install :
  In (EvRun apt_ffmpeg)
     (trace (snd (script no_ffmpeg_env true configured_state))).
Proof.
  vm_compute. do 19 right. left. reflexivity.
Qed.

(** ** Further facts about the steps *)

(** In validate-only mode the models that [step_models] returns are those
    of the tier found; shown here for an Ollama that gives no list. *)
Lemma step_models_check_only_tier (env : Env) (hw : Hardware) (st : State) :
  Py.truthy_opt (http_reply env (http_count st) tags_url) = false ->
  fst (step_models env hw true st) =
    Ok (mkModels (c_extract (find_best_tier hw))
                 (c_verify (find_best_tier hw))
                 (c_write (find_best_tier hw))).
Proof.
  intros Hdown.
  unfold step_models, _ollama_models. open_step.
  rewrite Hdown. simpl.
  repeat (match goal with
          | |- context [String.eqb ?a ?b] => destruct (String.eqb a b)
          end; simpl);
    reflexivity.
Qed.

(** The verdict of step 8 is that of the smoke test once the service
    checks have passed. *)
Lemma step_validate_and_test_after_checks (env : Env) (models : Models)
  (check_only : bool) (st s1 : State) :
  service_checks env models
    (record (EvPrint LvBanner "Step 8 / 8 : Validation & Smoke Test") st) =
    (Ok true, s1) ->
  step_validate_and_test env models check_only st = smoke_test env models s1.
Proof.
  intros Hc. unfold step_validate_and_test, bind, banner, print, emit.
  now rewrite Hc.
Qed.

(** * Further properties *)

(** ** Relations kept by the steps *)

Section Respects.

Variable R : State -> State -> Prop.
Variable E : exn -> Prop.
Hypothesis R_refl : forall s, R s s.
Hypothesis R_trans : forall s1 s2 s3, R s1 s2 -> R s2 s3 -> R s1 s3.

Lemma respects_ret {A} (a : A) : respects R E (ret a).
Proof. intros s. split; [apply R_refl | discriminate]. Qed.

Lemma respects_raise {A} (e : exn) : E e -> respects R E (@raise A e).
Proof.
  intros He s. split; [apply R_refl|].
  simpl. intros e' H. now injection H as <-.
Qed.

(** Reading the state changes nothing. *)
Lemma respects_read {A} (f : State -> A) :
  respects R E (fun s => (Ok (f s), s)).
Proof. intros s. split; [apply R_refl | discriminate]. Qed.

Lemma respects_bind {A B} (m : M A) (k : A -> M B) :
  respects R E m -> (forall a, respects R E (k a)) ->
  respects R E (bind m k).
Proof.
  intros Hm Hk s. unfold bind.
  destruct (Hm s) as [Hr He]. destruct (m s) as [[a|e] s1]; simpl in *.
  - destruct (Hk a s1) as [Hr1 He1]. split; [|exact He1].
    eapply R_trans; eassumption.
  - split; [exact Hr|]. intros e' H. injection H as <-. now apply He.
Qed.

Lemma respects_try {A} (body : M A) (handler : exn -> option (M A)) :
  respects R E body ->
  (forall e h, handler e = Some h -> respects R E h) ->
  respects R E (try_except body handler).
Proof.
  intros Hb Hh s. unfold try_except.
  destruct (Hb s) as [Hr He]. destruct (body s) as [[a|e] s1]; simpl in *.
  - split; [exact Hr | discriminate].
  - destruct (handler e) as [h|] eqn:Hhe.
    + destruct (Hh e h Hhe s1) as [Hr1 He1]. split; [|exact He1].
      eapply R_trans; eassumption.
    + split; [exact Hr|]. simpl. intros e' H. apply He. exact H.
Qed.

(** A body whose exceptions are all of the class that the handler takes:
    what leaves the [try] is what leaves the handler. *)
Lemma respects_try_caught {A} (E' : exn -> Prop) (body h : M A)
  (handler : exn -> option (M A)) :
  respects R E' body ->
  (forall e, E' e -> handler e = Some h) ->
  respects R E h ->
  respects R E (try_except body handler).
Proof.
  intros Hb Hc Hh s. unfold try_except.
  destruct (Hb s) as [Hr He]. destruct (body s) as [[a|e] s1]; simpl in *.
  - split; [exact Hr | discriminate].
  - rewrite (Hc e (He e eq_refl)).
    destruct (Hh s1) as [Hr1 He1]. split; [|exact He1].
    eapply R_trans; eassumption.
Qed.

End Respects.

(** [x = a; rest]: the rest with [a] for [x]. *)
Lemma respects_bind_ret {A B} (R : State -> State -> Prop) (E : exn -> Prop)
  (a : A) (k : A -> M B) :
  respects R E (k a) -> respects R E (bind (ret a) k).
Proof. intros H s. exact (H s). Qed.

Lemma respects_weaken {A} (R : State -> State -> Prop) (E E' : exn -> Prop)
  (m : M A) :
  (forall e, E e -> E' e) -> respects R E m -> respects R E' m.
Proof.
  intros HE Hm s. destruct (Hm s) as [Hr He].
  split; [exact Hr|]. intros e H. apply HE, He, H.
Qed.

(** One step of a proof that a computation respects a relation: [refl]
    and [trans] are the two facts about the relation, [prim] closes the
    primitive actions and the functions already dealt with. *)
Ltac respects_step refl trans prim :=
  first
    [ prim
    | match goal with
      | |- respects _ _ (ret _) => apply (respects_ret _ _ refl)
      | |- respects _ _ (fun s => (Ok _, s)) =>
          apply (respects_read _ _ refl)
      | |- respects _ _ (bind (ret _) _) => apply respects_bind_ret
      | |- respects _ _ (bind _ _) =>
          apply (respects_bind _ _ trans); [|intros ?]
      | |- respects _ _ (try_except _ _) =>
          apply (respects_try _ _ trans);
          [| let e := fresh "e" in
             let h := fresh "h" in
             let He := fresh "He" in
             intros e h He;
             unfold on_Exception, on_Value_or_Index, on_JSONDecodeError in He;
             destruct e; simpl in He; try discriminate He;
             injection He as <- ]
      end
    | progress cbv beta iota delta [negb]
    | match goal with
      | |- respects _ _ (if ?b then _ else _) => destruct b
      | |- respects _ _ (match ?x with _ => _ end) => destruct x
      end ].

(** ** Validate-only mode *)

Lemma check_mode_run_refl (s : State) : check_mode_run s s.
Proof.
  exists []. rewrite app_nil_r. repeat split. set_solver.
Qed.

Lemma check_mode_run_trans (s1 s2 s3 : State) :
  check_mode_run s1 s2 -> check_mode_run s2 s3 -> check_mode_run s1 s3.
Proof.
  intros (e1 & Ht1 & Hp1 & Hi1 & Hf1 & Hd1) (e2 & Ht2 & Hp2 & Hi2 & Hf2 & Hd2).
  exists (e1 ++ e2)%list. rewrite Ht2, Ht1, <- app_assoc, forallb_app, Hp1, Hp2.
  repeat split; try congruence. set_solver.
Qed.

Lemma check_mode_emit (e : event) :
  check_mode_event e = true -> respects check_mode_run anything (emit e).
Proof.
  intros He s. split; [|discriminate].
  exists [e]. simpl. rewrite He. repeat split. set_solver.
Qed.

Lemma check_mode_http_get (env : Env) (url : string) :
  respects check_mode_run anything (http_get env url).
Proof.
  intros s. split; [|discriminate].
  exists [EvHttpGet url]. simpl. repeat split. set_solver.
Qed.

Lemma check_mode_http_post_json (env : Env) (url : string) :
  respects check_mode_run anything (http_post_json env url).
Proof.
  intros s. split; [|discriminate].
  exists [EvHttpPost url]. simpl. repeat split. set_solver.
Qed.

Lemma check_mode_mkdir (p : string) :
  respects check_mode_run anything (mkdir_exist_ok p).
Proof.
  intros s. unfold mkdir_exist_ok. split; [|intros; exact I].
  destruct (bool_decide (p ∈ dirs s)); [apply check_mode_run_refl|].
  destruct (bool_decide (is_Some (files s !! p))); [apply check_mode_run_refl|].
  exists [EvMkdir p]. simpl. repeat split. set_solver.
Qed.

Lemma check_mode_raise {A} (e : exn) :
  respects check_mode_run anything (@raise A e).
Proof. apply respects_raise; [apply check_mode_run_refl | exact I]. Qed.

Create HintDb check_mode.

#[local] Hint Extern 1 (check_mode_event _ = true) => reflexivity : check_mode.
#[local] Hint Resolve check_mode_emit check_mode_http_get
  check_mode_http_post_json check_mode_mkdir check_mode_raise : check_mode.

(** Unfolds the helpers of the steps down to the primitive actions. *)
Ltac open_helpers :=
  unfold ok, fail, warn, info, banner, print, sys_exit,
    getitem, float_of, int_of, true_div, json_decode, json_get, json_iter,
    json_name, json_strip, json_div, json_len, path_exists, is_dir, read_file.

Ltac check_mode_go :=
  open_helpers;
  repeat respects_step check_mode_run_refl check_mode_run_trans
    ltac:(solve [auto 3 with check_mode]).

Lemma check_mode_subprocess_run (env : Env) (cmd : list string) (check : bool) :
  check_mode_event (EvRun cmd) = true ->
  respects check_mode_run anything (subprocess_run env cmd check).
Proof. intros Hc. unfold subprocess_run. check_mode_go. Qed.

#[local] Hint Resolve check_mode_subprocess_run : check_mode.

Lemma check_mode_run_cmd (env : Env) (cmd : list string) (capture check : bool) :
  check_mode_event (EvRun cmd) = true ->
  respects check_mode_run anything (run env cmd capture check).
Proof. intros Hc. unfold run. check_mode_go. Qed.

#[local] Hint Resolve check_mode_run_cmd : check_mode.

Lemma check_mode_step_python_deps (env : Env) :
  respects check_mode_run anything (step_python_deps env true).
Proof. unfold step_python_deps. check_mode_go. Qed.

Lemma check_mode_step_ollama (env : Env) :
  respects check_mode_run anything (step_ollama env true).
Proof. unfold step_ollama. check_mode_go. Qed.

Lemma check_mode_check_ffmpeg (env : Env) :
  respects check_mode_run anything (_check_ffmpeg env).
Proof. unfold _check_ffmpeg. check_mode_go. Qed.

#[local] Hint Resolve check_mode_check_ffmpeg : check_mode.

Lemma check_mode_step_docker_and_ffmpeg (env : Env) (check_only : bool) :
  respects check_mode_run anything (step_docker_and_ffmpeg env check_only).
Proof. unfold step_docker_and_ffmpeg. check_mode_go. Qed.

Lemma check_mode_amd_windows_scan (env : Env) (lines : list string) :
  forall gpu_name,
    respects check_mode_run anything (amd_windows_scan env lines gpu_name).
Proof.
  induction lines as [|line rest IH]; intros gpu_name;
    unfold amd_windows_scan; fold amd_windows_scan; check_mode_go.
Qed.

#[local] Hint Resolve check_mode_amd_windows_scan : check_mode.

Lemma check_mode_step_hardware (env : Env) :
  respects check_mode_run anything (step_hardware env).
Proof.
  unfold step_hardware, _detect_nvidia, _detect_amd_windows, _detect_amd_rocm,
    _check_ollama_gpu.
  check_mode_go.
Qed.

Lemma check_mode_names_of (items : list json) :
  respects check_mode_run anything (names_of items).
Proof.
  induction items as [|m rest IH]; unfold names_of; fold names_of;
    check_mode_go.
Qed.

#[local] Hint Resolve check_mode_names_of : check_mode.

Lemma check_mode_ollama_models (env : Env) :
  respects check_mode_run anything (_ollama_models env).
Proof. unfold _ollama_models. check_mode_go. Qed.

#[local] Hint Resolve check_mode_ollama_models : check_mode.

Lemma check_mode_step_models (env : Env) (hw : Hardware) :
  respects check_mode_run anything (step_models env hw true).
Proof. unfold step_models. check_mode_go. Qed.

Lemma check_mode_step_searxng (env : Env) :
  respects check_mode_run anything (step_searxng env true).
Proof. unfold step_searxng, _searxng_is_running. check_mode_go. Qed.

Lemma check_mode_make_dirs (ds : list string) :
  respects check_mode_run anything (make_dirs ds).
Proof.
  induction ds as [|d rest IH]; unfold make_dirs; fold make_dirs;
    check_mode_go.
Qed.

#[local] Hint Resolve check_mode_make_dirs : check_mode.

Lemma check_mode_step_config (env : Env) (models : Models) (hw : Hardware) :
  respects check_mode_run anything (step_config env models hw true).
Proof. unfold step_config. check_mode_go. Qed.

Lemma check_mode_check_models (available ms : list string) :
  respects check_mode_run anything (check_models available ms).
Proof.
  induction ms as [|m rest IH]; unfold check_models; fold check_models;
    check_mode_go.
Qed.

Lemma check_mode_check_dirs (ds : list string) :
  respects check_mode_run anything (check_dirs ds).
Proof.
  induction ds as [|d rest IH]; unfold check_dirs; fold check_dirs;
    check_mode_go.
Qed.

#[local] Hint Resolve check_mode_check_models check_mode_check_dirs
  : check_mode.

Lemma check_mode_step_validate_and_test (env : Env) (models : Models)
  (check_only : bool) :
  respects check_mode_run anything
    (step_validate_and_test env models check_only).
Proof.
  unfold step_validate_and_test, service_checks, smoke_test, smoke_llm,
    smoke_search, smoke_fetch, _searxng_is_running.
  check_mode_go.
Qed.

#[local] Hint Resolve check_mode_step_python_deps check_mode_step_ollama
  check_mode_step_docker_and_ffmpeg check_mode_step_hardware
  check_mode_step_models check_mode_step_searxng check_mode_step_config
  check_mode_step_validate_and_test : check_mode.

Lemma check_mode_main (env : Env) :
  respects check_mode_run anything (main env true).
Proof. unfold main. check_mode_go. Qed.

(** X1: a run with [--check], on any machine and from any state of the
    project directory, writes no file, starts no process, never pauses,
    runs neither [docker compose up], nor [pip install], nor
    [ollama pull], and reads nothing from standard input; the files are
    what they were and no directory is removed. *)
Theorem X1_check_mode_frame (env : Env) (st : State) :
  check_mode_run st (snd (script env true st)).
Proof.
  unfold script. destruct (check_mode_main env st) as [HR _].
  destruct (main env true st) as [[[]|e] s1]; simpl in *; [exact HR|].
  destruct e; try exact HR;
    (eapply check_mode_run_trans; [exact HR|]);
    apply (check_mode_emit (EvPrint LvFail "Unexpected error") eq_refl s1).
Qed.

(** ** The exit status *)

Lemma any_state_refl (s : State) : any_state s s.
Proof. exact I. Qed.

Lemma any_state_trans (s1 s2 s3 : State) :
  any_state s1 s2 -> any_state s2 s3 -> any_state s1 s3.
Proof. intros _ _. exact I. Qed.

(** With no relation to keep, only the result counts. *)
Lemma respects_any_state {A} (E : exn -> Prop) (m : M A) :
  (forall s e, fst (m s) = Raise e -> E e) -> respects any_state E m.
Proof. intros H s. split; [exact I | apply H]. Qed.

Lemma exception_raise {A} (e : exn) :
  is_Exception e = true -> respects any_state an_Exception (@raise A e).
Proof. intros He. now apply respects_raise. Qed.

Lemma exception_emit (e : event) : respects any_state an_Exception (emit e).
Proof. apply respects_any_state. discriminate. Qed.

Lemma exception_http_get (env : Env) (url : string) :
  respects any_state an_Exception (http_get env url).
Proof. apply respects_any_state. discriminate. Qed.

Lemma exception_http_post_json (env : Env) (url : string) :
  respects any_state an_Exception (http_post_json env url).
Proof. apply respects_any_state. discriminate. Qed.

Lemma exception_write_text (p : string) (c : content) :
  respects any_state an_Exception (write_text p c).
Proof. apply respects_any_state. discriminate. Qed.

Lemma exception_mkdir (p : string) :
  respects any_state an_Exception (mkdir_exist_ok p).
Proof.
  apply respects_any_state. intros s e. unfold mkdir_exist_ok.
  destruct (bool_decide (p ∈ dirs s)); [discriminate|].
  destruct (bool_decide (is_Some (files s !! p))); [|discriminate].
  simpl. intros H. injection H as <-. reflexivity.
Qed.

Lemma exception_input : respects any_state an_Exception input.
Proof.
  apply respects_any_state. intros s e. unfold input.
  destruct (stdin s); [|discriminate].
  simpl. intros H. injection H as <-. reflexivity.
Qed.

(** [ask] raises nothing but the end of the input. *)
Lemma ask_lines_raises (question : string) (default : bool)
  (lines : list string) :
  forall log e,
    fst (fst (ask_lines question default lines log)) = Raise e ->
    e = EOFError.
Proof.
  induction lines as [|l rest IH]; intros log e; simpl.
  - intros H. now injection H as <-.
  - repeat match goal with
           | |- context [if ?b then _ else _] => destruct b
           end; simpl; try discriminate.
    apply IH.
Qed.

Lemma exception_ask (question : string) (default : bool) :
  respects any_state an_Exception (ask question default).
Proof.
  apply respects_any_state. intros s e. unfold ask.
  pose proof (ask_lines_raises question default (stdin s) (trace s) e) as H.
  destruct (ask_lines question default (stdin s) (trace s)) as [[r rest] log].
  simpl in *. intros Hr. rewrite (H Hr). reflexivity.
Qed.

Create HintDb exits.

#[local] Hint Extern 1 (is_Exception _ = true) => reflexivity : exits.
#[local] Hint Resolve exception_raise exception_emit exception_http_get
  exception_http_post_json exception_write_text exception_mkdir
  exception_input exception_ask : exits.

Ltac exits_go :=
  unfold sleep, popen, input_or; open_helpers;
  repeat respects_step any_state_refl any_state_trans
    ltac:(solve [auto 3 with exits]).

Lemma exception_subprocess_run (env : Env) (cmd : list string) (check : bool) :
  respects any_state an_Exception (subprocess_run env cmd check).
Proof. unfold subprocess_run. exits_go. Qed.

#[local] Hint Resolve exception_subprocess_run : exits.

Lemma exception_run_cmd (env : Env) (cmd : list string) (capture check : bool) :
  respects any_state an_Exception (run env cmd capture check).
Proof. unfold run. exits_go. Qed.

#[local] Hint Resolve exception_run_cmd : exits.

Lemma exception_wait_loop (n : nat) (probe : M bool) (ready waiting : string)
  (after : M bool) :
  respects any_state an_Exception probe ->
  respects any_state an_Exception after ->
  forall i,
    respects any_state an_Exception (wait_loop n i probe ready waiting after).
Proof.
  intros Hp Ha. induction n as [|n IH]; intros i;
    unfold wait_loop; fold wait_loop; [exact Ha|].
  pose proof (IH (i + 1)) as IH1.
  exits_go.
Qed.

Lemma exception_pull_all (env : Env) (needed : list string) :
  respects any_state an_Exception (pull_all env needed).
Proof.
  induction needed as [|m rest IH]; unfold pull_all; fold pull_all; exits_go.
Qed.

Lemma exception_amd_windows_scan (env : Env) (lines : list string) :
  forall gpu_name,
    respects any_state an_Exception (amd_windows_scan env lines gpu_name).
Proof.
  induction lines as [|line rest IH]; intros gpu_name;
    unfold amd_windows_scan; fold amd_windows_scan; exits_go.
Qed.

Lemma exception_names_of (items : list json) :
  respects any_state an_Exception (names_of items).
Proof.
  induction items as [|m rest IH]; unfold names_of; fold names_of; exits_go.
Qed.

Lemma exception_make_dirs (ds : list string) :
  respects any_state an_Exception (make_dirs ds).
Proof.
  induction ds as [|d rest IH]; unfold make_dirs; fold make_dirs; exits_go.
Qed.

Lemma exception_check_models (available ms : list string) :
  respects any_state an_Exception (check_models available ms).
Proof.
  induction ms as [|m rest IH]; unfold check_models; fold check_models;
    exits_go.
Qed.

Lemma exception_check_dirs (ds : list string) :
  respects any_state an_Exception (check_dirs ds).
Proof.
  induction ds as [|d rest IH]; unfold check_dirs; fold check_dirs; exits_go.
Qed.

#[local] Hint Resolve exception_pull_all exception_amd_windows_scan
  exception_names_of exception_make_dirs exception_check_models
  exception_check_dirs : exits.

Lemma exception_ollama_models (env : Env) :
  respects any_state an_Exception (_ollama_models env).
Proof. unfold _ollama_models. exits_go. Qed.

Lemma exception_searxng_is_running (env : Env) :
  respects any_state an_Exception (_searxng_is_running env).
Proof. unfold _searxng_is_running. exits_go. Qed.

Lemma exception_ollama_probe (env : Env) :
  respects any_state an_Exception (ollama_probe env).
Proof. unfold ollama_probe. exits_go. Qed.

Lemma exception_check_ffmpeg (env : Env) :
  respects any_state an_Exception (_check_ffmpeg env).
Proof. unfold _check_ffmpeg. exits_go. Qed.

Lemma exception_create_searxng_config (env : Env) :
  respects any_state an_Exception (_create_searxng_config env).
Proof. unfold _create_searxng_config. exits_go. Qed.

#[local] Hint Resolve exception_ollama_models exception_searxng_is_running
  exception_ollama_probe exception_check_ffmpeg
  exception_create_searxng_config : exits.

Lemma exception_step_python_deps (env : Env) (check_only : bool) :
  respects any_state an_Exception (step_python_deps env check_only).
Proof. unfold step_python_deps. exits_go. Qed.

Lemma exception_step_ollama (env : Env) (check_only : bool) :
  respects any_state an_Exception (step_ollama env check_only).
Proof.
  unfold step_ollama. exits_go.
  apply exception_wait_loop; exits_go.
Qed.

Lemma exception_step_docker_and_ffmpeg (env : Env) (check_only : bool) :
  respects any_state an_Exception (step_docker_and_ffmpeg env check_only).
Proof. unfold step_docker_and_ffmpeg. exits_go. Qed.

Lemma exception_step_hardware (env : Env) :
  respects any_state an_Exception (step_hardware env).
Proof.
  unfold step_hardware, _detect_nvidia, _detect_amd_windows, _detect_amd_rocm,
    _check_ollama_gpu.
  exits_go.
Qed.

Lemma exception_step_models (env : Env) (hw : Hardware) (check_only : bool) :
  respects any_state an_Exception (step_models env hw check_only).
Proof. unfold step_models. exits_go. Qed.

Lemma exception_step_searxng (env : Env) (check_only : bool) :
  respects any_state an_Exception (step_searxng env check_only).
Proof.
  unfold step_searxng. exits_go.
  apply exception_wait_loop; exits_go.
Qed.

Lemma exception_step_config (env : Env) (models : Models) (hw : Hardware)
  (check_only : bool) :
  respects any_state an_Exception (step_config env models hw check_only).
Proof. unfold step_config. exits_go. Qed.

Lemma exception_step_validate_and_test (env : Env) (models : Models)
  (check_only : bool) :
  respects any_state an_Exception
    (step_validate_and_test env models check_only).
Proof.
  unfold step_validate_and_test, service_checks, smoke_test, smoke_llm,
    smoke_search, smoke_fetch.
  exits_go.
Qed.

#[local] Hint Resolve exception_step_python_deps exception_step_ollama
  exception_step_docker_and_ffmpeg exception_step_hardware
  exception_step_models exception_step_searxng exception_step_config
  exception_step_validate_and_test : exits.

Lemma an_Exception_exits (e : exn) : an_Exception e -> exits_0_or_1 e.
Proof. intros He code ->. discriminate He. Qed.

Lemma exits_step {A} (m : M A) :
  respects any_state an_Exception m -> respects any_state exits_0_or_1 m.
Proof. apply respects_weaken, an_Exception_exits. Qed.

Lemma exits_sys_exit {A} (code : Z) :
  code = 0 \/ code = 1 ->
  respects any_state exits_0_or_1 (@raise A (SystemExit code)).
Proof.
  intros Hc. apply respects_raise; [exact any_state_refl|].
  intros c H. now injection H as <-.
Qed.

Lemma exits_main (env : Env) (check_only : bool) :
  respects any_state exits_0_or_1 (main env check_only).
Proof.
  unfold main, sys_exit.
  repeat respects_step any_state_refl any_state_trans
    ltac:(first [ apply exits_sys_exit; auto
                | apply exits_step;
                  solve [unfold banner, fail, warn, ok, info, print;
                         auto 3 with exits] ]).
Qed.

(** X2: whatever the machine, the mode and the state of the project
    directory, the script ends with exit status 0 or 1; an exception that
    no step handles gives 1. *)
Theorem X2_exit_status (env : Env) (check_only : bool) (st : State) :
  (fst (script env check_only st) = 0 \/ fst (script env check_only st) = 1) /\
  (forall e, fst (main env check_only st) = Raise e -> is_Exception e = true ->
             fst (script env check_only st) = 1).
Proof.
  unfold script. destruct (exits_main env check_only st) as [_ He].
  destruct (main env check_only st) as [[[]|e] s1]; simpl in *.
  - split; [now left | discriminate].
  - split.
    + destruct e; simpl; auto. exact (He _ eq_refl code eq_refl).
    + intros e' H. injection H as <-. intros Hx.
      destruct e; simpl; try reflexivity. discriminate Hx.
Qed.

Lemma X2_exit_status_witness :
  fst (main (bare_env "Linux") false empty_state) = Raise EOFError /\
  fst (script (bare_env "Linux") false empty_state) = 1.
Proof.
  split; [reflexivity|].
  apply (proj2 (X2_exit_status (bare_env "Linux") false empty_state) EOFError);
    reflexivity.
Defined.

(** Closes the case of [X3] in which a step failed or raised: the exit
    status is then 1, and the run is not one in which every step
    succeeded.  [Hex] says that the step raised an [Exception]. *)
Ltac failed_step Hex :=
  split;
  [ first [ simpl; discriminate
          | match goal with
            | e : exn |- _ =>
                let Hx := fresh "Hx" in
                pose proof (Hex e eq_refl) as Hx;
                destruct e; try discriminate Hx; simpl; discriminate
            end ]
  | intros (x1 & x2 & x3 & x4 & x5 & x6 & x7 & x8 & hw' & ms
            & Hx1 & Hx2 & Hx3 & Hx4 & Hx5 & Hx6 & Hx7 & Hx8 & _);
    simplify_eq; congruence ].

(** X3: a run with [--check] ends with exit status 0 exactly when every
    step succeeded: the three prerequisite steps, the model step, the
    search engine, the configuration and the final validation all
    returned success.  A step that is not met is not made up for by a
    later one. *)
Theorem X3_check_mode_success (env : Env) (st : State) :
  fst (script env true st) = 0 <->
  all_steps_passed env st (snd (script env true st)).
Proof.
  unfold all_steps_passed.
  cbv beta iota delta [script main bind ret print emit negb sys_exit raise
                       fail warn banner].
  pose proof (fun s => proj2 (exception_step_python_deps env true s)) as E1.
  pose proof (fun s => proj2 (exception_step_ollama env true s)) as E2.
  pose proof (fun s => proj2 (exception_step_docker_and_ffmpeg env true s)) as E3.
  pose proof (fun s => proj2 (exception_step_hardware env s)) as E4.
  pose proof (fun hw s => proj2 (exception_step_models env hw true s)) as E5.
  pose proof (fun s => proj2 (exception_step_searxng env true s)) as E6.
  pose proof (fun m hw s =>
                proj2 (exception_step_config env m hw true s)) as E7.
  pose proof (fun m s =>
                proj2 (exception_step_validate_and_test env m true s)) as E8.
  specialize (E1 (record (EvPrint LvPlain "VALIDATE Wizard") st)).
  destruct (step_python_deps env true _) as [[[]|e1] s1] eqn:H1;
    cbv beta iota; [| failed_step E1 ..].
  specialize (E2 s1).
  destruct (step_ollama env true s1) as [[[]|e2] s2] eqn:H2;
    cbv beta iota; [| failed_step E2 ..].
  specialize (E3 s2).
  destruct (step_docker_and_ffmpeg env true s2) as [[[]|e3] s3] eqn:H3;
    cbv beta iota; [| failed_step E3 ..].
  specialize (E4 s3).
  destruct (step_hardware env s3) as [[hw|e4] s4] eqn:H4;
    cbv beta iota; [| failed_step E4].
  specialize (E5 hw s4).
  destruct (step_models env hw true s4) as [[models|e5] s5] eqn:H5;
    cbv beta iota; [| failed_step E5].
  specialize (E6 s5).
  destruct (step_searxng env true s5) as [[[]|e6] s6] eqn:H6;
    cbv beta iota; [| failed_step E6 ..].
  specialize (E7 models hw s6).
  destruct (step_config env models hw true s6) as [[[]|e7] s7] eqn:H7;
    cbv beta iota; [| failed_step E7 ..].
  specialize (E8 models s7).
  destruct (step_validate_and_test env models true s7) as [[[]|e8] s8] eqn:H8;
    cbv beta iota; [| failed_step E8 ..].
  split; [|reflexivity]. intros _.
  exists s1, s2, s3, s4, s5, s6, s7, s8, hw, models.
  repeat split; auto.
Qed.

Lemma X3_check_mode_success_witness :
  fst (script installed_env true configured_state) = 0 /\
  all_steps_passed installed_env configured_state
    (snd (script installed_env true configured_state)).
Proof.
  split; [reflexivity|].
  apply (proj1 (X3_check_mode_success installed_env configured_state)).
  reflexivity.
Defined.

(** ** The catalog, once more *)

(** X4: a GPU tier (one that asks for VRAM) is chosen exactly when the
    machine has at least 12 GB of VRAM and at least 32 GB of RAM: with
    less RAM a GPU of any size gets a CPU tier or the preset. *)
Theorem X4_gpu_tier_needs_ram (hw : Hardware) :
  (exists t, In t MODEL_TIERS /\ 0 < min_vram t /\
             find_best_tier hw = choice_of t) <->
  (12 # 1 <= vram hw)%Q /\ (32 # 1 <= ram hw)%Q.
Proof.
  unfold find_best_tier. simpl. unfold tier_matches. simpl.
  change (inject_Z 24) with (24 # 1)%Q. change (inject_Z 16) with (16 # 1)%Q.
  change (inject_Z 12) with (12 # 1)%Q. change (inject_Z 32) with (32 # 1)%Q.
  change (inject_Z 64) with (64 # 1)%Q. change (inject_Z 0) with (0 # 1)%Q.
  repeat match goal with
         | |- context [Qle_bool ?a ?b] =>
             let H := fresh "H" in
             destruct (Qle_bool a b) eqn:H;
             [ apply Qle_bool_iff in H
             | apply not_true_iff_false in H; rewrite Qle_bool_iff in H ]
         end; simpl;
    (split;
     [ intros (t & Hin & Hv & Heq);
       first [ split; lra
             | exfalso;
               repeat (destruct Hin as [<-|Hin];
                       [first [discriminate Heq | simpl in Hv; lia]|]);
               destruct Hin ]
     | intros [Hv Hr];
       first [ exfalso; lra
             | eexists; split; [|split; [|reflexivity]];
               [simpl; tauto | simpl; lia] ] ]).
Qed.

(** ** The list of models to fetch *)

Lemma filter_neq_In (x y : string) (l : list string) :
  In y (List.filter (fun z => negb (String.eqb x z)) l) <-> In y l /\ x <> y.
Proof.
  rewrite filter_In, negb_true_iff. split; intros [H1 H2]; split; auto.
  - intros ->. now rewrite String.eqb_refl in H2.
  - now apply String.eqb_neq.
Qed.

(** X5: the models to look for are the three chosen ones with the
    repetitions removed: each name is there once, and a name is there
    exactly when it is one of the three. *)
Theorem X5_unique_models (l : list string) :
  List.NoDup (unique l) /\ (forall x, In x (unique l) <-> In x l).
Proof.
  induction l as [|a l [IHn IHi]]; cbn [unique].
  - split; [constructor | simpl; tauto].
  - split.
    + constructor.
      * rewrite filter_neq_In. tauto.
      * now apply List.NoDup_filter.
    + intros x. cbn [In]. rewrite filter_neq_In, IHi.
      destruct (string_dec a x) as [->|Hne]; tauto.
Qed.

(** ** Questions to the user *)

Lemma ask_lines_skips (question : string) (default : bool)
  (junk rest : list string) (log : list event) :
  Forall (fun l => answer_of default l = None) junk ->
  ask_lines question default (junk ++ rest)%list log =
  ask_lines question default rest
    (log ++ repeat (EvPrint LvPlain question) (length junk))%list.
Proof.
  intros H. revert log.
  induction H as [|l junk Hl _ IH]; intros log; simpl.
  - now rewrite app_nil_r.
  - unfold answer_of in Hl.
    destruct (negb _); [discriminate|].
    destruct (_ || _); [discriminate|].
    destruct (_ || _); [discriminate|].
    rewrite IH, <- app_assoc. reflexivity.
Qed.

(** X6: [ask] puts the question once for every line it reads: answers
    it cannot read (neither empty, y, yes, n nor no, whatever the case and
    the blanks around) are skipped, the first readable line decides (the
    default on an empty one) and the lines after it are left unread; when
    the input ends before a readable line, [EOFError] is raised. *)
Theorem X6_ask_retries (question : string) (default : bool)
  (junk : list string) (s : State) :
  Forall (fun l => answer_of default l = None) junk ->
  (forall l rest b,
     stdin s = (junk ++ l :: rest)%list -> answer_of default l = Some b ->
     ask question default s =
     (Ok b, mkState (files s) (dirs s) rest (http_count s)
              (trace s ++ repeat (EvPrint LvPlain question)
                            (S (length junk))))) /\
  (stdin s = junk -> fst (ask question default s) = Raise EOFError).
Proof.
  intros Hjunk. split.
  - intros l rest b Hin Hl. unfold ask. rewrite Hin.
    rewrite (ask_lines_skips _ _ _ _ _ Hjunk).
    replace (S (length junk)) with (length junk + 1)%nat by lia.
    rewrite repeat_app, app_assoc. simpl.
    unfold answer_of in Hl.
    destruct (negb _); [now inversion Hl|].
    destruct (_ || _); [now inversion Hl|].
    destruct (_ || _); [now inversion Hl|discriminate].
  - intros Hin. unfold ask. rewrite Hin.
    rewrite <- (app_nil_r junk), (ask_lines_skips _ _ _ _ _ Hjunk).
    reflexivity.
Qed.

Lemma X6_ask_retries_witness :
  ask "Continue?" true
    (mkState ∅ ∅ ["maybe"; " YES "; "n"] 0 []) =
  (Ok true, mkState ∅ ∅ ["n"] 0
              [EvPrint LvPlain "Continue?"; EvPrint LvPlain "Continue?"]) /\
  fst (ask "Continue?" true (mkState ∅ ∅ ["maybe"] 0 [])) = Raise EOFError.
Proof.
  split.
  - apply (proj1 (X6_ask_retries "Continue?" true ["maybe"]
                    (mkState ∅ ∅ ["maybe"; " YES "; "n"] 0 [])
                    ltac:(repeat constructor))
             " YES " ["n"] true); reflexivity.
  - apply (proj2 (X6_ask_retries "Continue?" true ["maybe"]
                    (mkState ∅ ∅ ["maybe"] 0 [])
                    ltac:(repeat constructor))); reflexivity.
Defined.

(** ** The models Ollama has *)

Lemma names_of_named (items : list json) (names : list string) (s : State) :
  Forall2 named items names -> names_of items s = (Ok names, s).
Proof.
  induction 1 as [|item n items names (f & -> & Hf) _ IH]; [reflexivity|].
  cbn [names_of]. unfold bind at 1. simpl. rewrite Hf.
  unfold ret at 1. unfold bind at 1. rewrite IH. reflexivity.
Qed.

Lemma names_of_nameless (items : list json) (names : list string)
  (fields : list (string * json)) (rest : list json) (s : State) :
  Forall2 named items names ->
  assoc "name" fields = None ->
  names_of (items ++ JObj fields :: rest)%list s = (Raise KeyError, s).
Proof.
  intros H Hn. induction H as [|item n items names (f & -> & Hf) _ IH].
  - cbn [app names_of]. unfold bind at 1. simpl. now rewrite Hn.
  - cbn [app names_of]. unfold bind at 1. simpl. rewrite Hf.
    unfold ret at 1. unfold bind at 1. rewrite IH. reflexivity.
Qed.



(** ** Step 1: what the installation is checked against *)

Lemma missing_of_nil (env : Env) (after : bool) (pkgs : list (string * string)) :
  missing_of env after pkgs = [] <->
  forallb (importable env after) (map snd pkgs) = true.
Proof.
  unfold missing_of.
  induction pkgs as [|[pkg module] pkgs IH]; simpl; [tauto|].
  destruct (importable env after module); simpl; [exact IH|].
  split; discriminate.
Qed.

(** X8: when packages are missing and [pip install -r Requirements.txt]
    exits with 0, step 1 succeeds exactly when six modules can be
    imported afterwards (pydantic, requests, fastapi, tqdm, yaml, psutil);
    bs4, dotenv, jinja2 and uvicorn, which the first check looks for, are
    not looked for again.  A non-zero exit status or a timeout of pip
    makes the step fail. *)
Theorem X8_install_verifies_six (env : Env) (st : State) :
  python_ok env = true ->
  missing_of env false key_packages <> [] ->
  exists_in st REQUIREMENTS_FILE = true ->
  (forall out,
     proc env pip_install = Exited 0 out ->
     fst (step_python_deps env false st) =
     Ok (forallb (importable env true)
           ["pydantic"; "requests"; "fastapi"; "tqdm"; "yaml"; "psutil"])) /\
  (forall rc out,
     proc env pip_install = Exited rc out -> rc <> 0 ->
     fst (step_python_deps env false st) = Ok false) /\
  (proc env pip_install = TimedOut ->
   fst (step_python_deps env false st) = Ok false).
Proof.
  intros Hpy Hmiss Hreq.
  assert (Hstep : forall r, proc env pip_install = r ->
    fst (step_python_deps env false st) =
    match r with
    | Exited rc _ =>
        if negb (rc =? 0) then Ok false
        else Ok (forallb (importable env true) (map snd verified_packages))
    | TimedOut => Ok false
    | NotFound => Raise FileNotFoundError
    | OsFailure => Raise OSError
    end).
  { intros r Hr. unfold step_python_deps.
    pose proof (missing_of_nil env true verified_packages) as Hv.
    set (verified := forallb _ _) in *.
    set (still_missing := missing_of env true verified_packages) in *.
    rewrite Hpy. destruct (missing_of env false key_packages) eqn:Hm;
      [now destruct Hmiss|].
    unfold banner, ok, warn, info, fail, print, path_exists, subprocess_run.
    unfold bind, emit, try_except, exists_in in Hreq |- *. simpl.
    rewrite Hreq. simpl. rewrite Hr.
    destruct r as [rc out| | |]; simpl; try reflexivity.
    destruct (rc =? 0); simpl; [|reflexivity].
    destruct still_missing; simpl.
    - now rewrite (proj1 Hv eq_refl).
    - destruct verified; [|reflexivity].
      now specialize (proj2 Hv eq_refl). }
  repeat split.
  - intros out Hr. apply (Hstep _ Hr).
  - intros rc out Hr Hrc. rewrite (Hstep _ Hr).
    apply Z.eqb_neq in Hrc. now rewrite Hrc.
  - intros Hr. apply (Hstep _ Hr).
Qed.

Lemma X8_install_verifies_six_witness :
  importable no_bs4_env true "bs4" = false /\
  fst (step_python_deps no_bs4_env false
         (with_files [(REQUIREMENTS_FILE, Raw "pydantic")] [] [])) = Ok true.
Proof.
  split; [reflexivity|].
  apply (proj1 (X8_install_verifies_six no_bs4_env
                  (with_files [(REQUIREMENTS_FILE, Raw "pydantic")] [] [])
                  eq_refl ltac:(discriminate) eq_refl) "" eq_refl).
Defined.

(** ** Step 3: Docker decides, FFmpeg does not (except on Windows) *)

Ltac run_commands env :=
  repeat (simpl;
          match goal with
          | |- context [proc env ?c] => destruct (proc env c) as [? ?| | |]
          | |- context [Py.truthy ?x] => destruct (Py.truthy x)
          | |- context [(?rc =? 0)%Z] => destruct (rc =? 0)%Z
          | |- context [String.eqb (platform_system env) ?x] =>
              destruct (String.eqb (platform_system env) x)
          end).

(** X9: off Windows the result of step 3 is decided by Docker alone:
    the step returns a value in every case, and it succeeds exactly when
    [docker --version] and [docker compose version] print something and
    [docker info] exits with 0, whether FFmpeg is there, gets installed,
    or neither. *)
Theorem X9_ffmpeg_is_optional (env : Env) (check_only : bool) (st : State) :
  platform_system env <> "Windows" ->
  fst (step_docker_and_ffmpeg env check_only st) = Ok (docker_ready env).
Proof.
  intros Hsys. apply String.eqb_neq in Hsys.
  unfold step_docker_and_ffmpeg, _check_ffmpeg, docker_ready, answers, succeeds.
  rewrite Hsys.
  unfold run, subprocess_run, banner, ok, fail, warn, info, print.
  unfold bind, try_except, emit, on_Exception.
  run_commands env; reflexivity.
Qed.

Lemma X9_ffmpeg_is_optional_witness :
  fst (step_docker_and_ffmpeg no_ffmpeg_env false empty_state) = Ok true.
Proof.
  apply (X9_ffmpeg_is_optional no_ffmpeg_env false empty_state).
  discriminate.
Defined.

(** X10: on Windows the installation of FFmpeg can end the whole setup.
    With Docker ready and FFmpeg absent, an [OSError] of [winget] other
    than "no such program" is caught nowhere in step 3, which raises it
    instead of returning. *)
Theorem X10_winget_failure_escapes (env : Env) (check_only : bool) (st : State) :
  platform_system env = "Windows" ->
  docker_ready env = true ->
  answers env ["ffmpeg"; "-version"] = false ->
  proc env winget_ffmpeg = OsFailure ->
  fst (step_docker_and_ffmpeg env check_only st) = Raise OSError.
Proof.
  intros Hsys Hd Hf Hw.
  unfold step_docker_and_ffmpeg, _check_ffmpeg.
  unfold docker_ready, answers, succeeds in Hd, Hf.
  rewrite Hsys. change ("Windows" =? "Windows")%string with true.
  unfold run, subprocess_run, banner, ok, fail, warn, info, print.
  rewrite Hw.
  unfold bind, try_except, emit, on_Exception.
  revert Hd Hf.
  run_commands env; intros Hd Hf; try discriminate; reflexivity.
Qed.

Lemma X10_winget_failure_escapes_witness :
  fst (step_docker_and_ffmpeg winget_denied_env false empty_state) =
  Raise OSError.
Proof.
  apply (X10_winget_failure_escapes winget_denied_env false empty_state);
    reflexivity.
Defined.

(** ** Waiting for a service *)

Lemma wait_loop_comes_up (env : Env) (url : string) (f : option string -> bool)
  (probe : M bool) (ready waiting : string) (after : M bool) :
  probes_url env probe url f ->
  forall (k n : nat) (i : Z) (s : State),
    (k < n)%nat ->
    up_after env url f (http_count s) k ->
    exists evs s',
      wait_loop n i probe ready waiting after s = (Ok true, s') /\
      trace s' = (trace s ++ evs)%list /\
      starts evs = 0%nat /\
      sleeps evs = repeat 5 (S k) /\
      length (requests evs) = S k.
Proof.
  intros Hp. induction k as [|k IH]; intros n i s Hkn [Hdown Hup];
    (destruct n as [|n]; [lia|]); unfold wait_loop; fold wait_loop.
  - unfold bind at 1. unfold sleep, emit. unfold bind at 1.
    rewrite Hp. simpl. rewrite Nat.add_0_r in Hup. rewrite Hup.
    unfold ok, print, emit, bind, ret. simpl.
    do 2 eexists. split; [reflexivity|].
    split; [simpl; rewrite <- ?app_assoc; reflexivity|].
    repeat split.
  - unfold bind at 1. unfold sleep, emit. unfold bind at 1.
    rewrite Hp. simpl.
    specialize (Hdown O ltac:(lia)) as H0. rewrite Nat.add_0_r in H0.
    rewrite H0. unfold bind at 1. unfold info, print, emit.
    match goal with
    | |- context [wait_loop n ?i' probe ready waiting after ?s'] =>
        destruct (IH n i' s' ltac:(lia)) as (evs & s2 & Hw & Ht & Hst & Hsl & Hrq)
    end.
    { simpl. split.
      - intros j Hj. replace (S (http_count s) + j)%nat
          with (http_count s + S j)%nat by lia.
        apply Hdown. lia.
      - replace (S (http_count s) + k)%nat
          with (http_count s + S k)%nat by lia.
        exact Hup. }
    rewrite Hw.
    exists ([EvSleep 5; EvHttpGet url; EvPrint LvInfo (waiting ++ elapsed i)]
              ++ evs)%list, s2.
    split; [reflexivity|]. split; [|split; [|split]].
    + rewrite Ht. simpl. now rewrite <- !app_assoc.
    + rewrite starts_app, Hst. reflexivity.
    + rewrite sleeps_app, Hsl. reflexivity.
    + rewrite requests_app, length_app, Hrq. reflexivity.
Qed.

(** X11: a service that comes up while the step waits is noticed at the
    next poll.  If, after the launch, it is still down at [k] polls and
    answers the one after, the step returns success after exactly
    [k + 1] pauses of five seconds, having launched once and sent
    [k + 2] requests; [k] is below 12 for Ollama and below 18 for
    SearXNG. *)
Theorem X11_service_comes_up (env : Env) (st : State) (k : nat) :
  (cli_present env ->
   Py.truthy_opt (http_reply env (http_count st) tags_url) = false ->
   popen_ok env ["ollama"; "serve"] = true ->
   (k < 12)%nat ->
   up_after env tags_url Py.truthy_opt (S (http_count st)) k ->
   outcome (step_ollama env false) st true 1 (repeat 5 (S k)) (S (S k))) /\
  (http_reply env (http_count st) searx_probe_url = None ->
   exists_in st COMPOSE_FILE = true ->
   SEARXNG_DIR ∈ dirs st \/ files st !! SEARXNG_DIR = None ->
   (exists out, proc env compose_up = Exited 0 out) ->
   (k < 18)%nat ->
   up_after env searx_probe_url
     (fun r => match r with Some _ => true | None => false end)
     (S (http_count st)) k ->
   outcome (step_searxng env false) st true 1 (repeat 5 (S k)) (S (S k))).
Proof.
  split.
  - intros (rc & out & Hp & Ht) Hdown Hpopen Hk Hup.
    unfold outcome, step_ollama. open_step.
    rewrite Hp. simpl. rewrite Ht. simpl. rewrite Hdown. simpl.
    rewrite Hpopen. simpl.
    match goal with
    | |- context [wait_loop ?n ?i ?p ?r ?w ?a ?s] =>
        destruct (wait_loop_comes_up env _ _ p r w a (ollama_probe_url env)
                    k n i s Hk Hup)
          as (evs & s' & Hw & Htr & Hst & Hsl & Hrq);
        rewrite Hw
    end.
    do 2 eexists. split; [reflexivity|].
    split; [simpl; rewrite Htr; simpl; rewrite <- ?app_assoc; reflexivity|].
    rewrite ?starts_app, ?sleeps_app, ?requests_app, ?length_app.
    rewrite Hst, Hsl, Hrq. repeat split.
  - intros Hdown Hcompose Hdir (out & Hproc) Hk Hup.
    unfold outcome, step_searxng. unfold bind at 1. unfold banner, print, emit.
    unfold bind at 1. unfold _searxng_is_running at 1, bind at 1, http_get at 1.
    fold searx_probe_url. simpl http_count. rewrite Hdown. cbv iota beta.
    unfold ret at 1. cbv iota beta.
    unfold bind at 1, path_exists at 1.
    change (exists_in _ COMPOSE_FILE) with (exists_in st COMPOSE_FILE).
    rewrite Hcompose. change (negb true) with false. cbv iota beta.
    unfold bind at 1.
    match goal with
    | |- context [_create_searxng_config env ?s] =>
        destruct (create_searxng_config_quiet env s Hdir)
          as (e1 & s1 & Hc & Ht1 & Hn1 & Hst1 & Hsl1 & Hrq1);
        rewrite Hc
    end.
    open_step. rewrite Hproc. simpl.
    match goal with
    | |- context [wait_loop ?n ?i ?p ?r ?w ?a ?s] =>
        destruct (wait_loop_comes_up env _ _ p r w a (searxng_probe_url env)
                    k n i s Hk)
          as (e2 & s2 & Hw & Ht2 & Hst2 & Hsl2 & Hrq2);
        [simpl; rewrite Hn1; exact Hup|];
        rewrite Hw
    end.
    do 2 eexists. split; [reflexivity|].
    split; [simpl; rewrite Ht2; simpl; rewrite Ht1; simpl;
            rewrite <- ?app_assoc; reflexivity|].
    rewrite ?starts_app, ?sleeps_app, ?requests_app, ?length_app.
    rewrite Hst1, Hsl1, Hrq1, Hst2, Hsl2, Hrq2. repeat split.
Qed.

Lemma X11_service_comes_up_witness :
  outcome (step_ollama slow_ollama_env false) empty_state true 1 [5; 5; 5] 4.
Proof.
  apply (proj1 (X11_service_comes_up slow_ollama_env empty_state 2)).
  - exists 0, "ollama version is 0.5.7". split; reflexivity.
  - reflexivity.
  - reflexivity.
  - lia.
  - split; [|reflexivity].
    intros [|[|j]] Hj; [reflexivity | reflexivity | lia].
Defined.

(** ** A launch that fails *)

(** X12: a launch that fails is not followed by any waiting.  When
    [ollama serve] cannot be started, or [docker compose up] exits with
    a non-zero status or times out, the step returns failure with one
    launch attempted, no pause and no request but the first probe.  A
    [docker] that is not found is another matter: [FileNotFoundError]
    leaves [step_searxng]. *)
Theorem X12_failed_launch (env : Env) (st : State) :
  (cli_present env ->
   Py.truthy_opt (http_reply env (http_count st) tags_url) = false ->
   popen_ok env ["ollama"; "serve"] = false ->
   outcome (step_ollama env false) st false 1 [] 1) /\
  (http_reply env (http_count st) searx_probe_url = None ->
   exists_in st COMPOSE_FILE = true ->
   SEARXNG_DIR ∈ dirs st \/ files st !! SEARXNG_DIR = None ->
   ((exists rc out, proc env compose_up = Exited rc out /\ rc <> 0) \/
    proc env compose_up = TimedOut ->
    outcome (step_searxng env false) st false 1 [] 1) /\
   (proc env compose_up = NotFound ->
    fst (step_searxng env false st) = Raise FileNotFoundError)).
Proof.
  split.
  - intros (rc & out & Hp & Ht) Hdown Hpopen.
    unfold outcome, step_ollama. open_step.
    rewrite Hp. simpl. rewrite Ht. simpl. rewrite Hdown. simpl.
    rewrite Hpopen. simpl.
    do 2 eexists. split; [reflexivity|]. close_trace.
  - intros Hdown Hcompose Hdir.
    assert (Hstep : forall r, proc env compose_up = r ->
      match r with
      | Exited 0 _ => True
      | Exited _ _ | TimedOut =>
          outcome (step_searxng env false) st false 1 [] 1
      | NotFound => fst (step_searxng env false st) = Raise FileNotFoundError
      | OsFailure => fst (step_searxng env false st) = Raise OSError
      end).
    { intros r Hr.
      destruct r as [[|p|p] out| | |]; try exact I;
        unfold outcome, step_searxng; unfold bind at 1;
        unfold banner, print, emit;
        unfold bind at 1;
        unfold _searxng_is_running at 1, bind at 1, http_get at 1;
        fold searx_probe_url; simpl http_count; rewrite Hdown; cbv iota beta;
        unfold ret at 1; cbv iota beta;
        unfold bind at 1, path_exists at 1;
        change (exists_in _ COMPOSE_FILE) with (exists_in st COMPOSE_FILE);
        rewrite Hcompose; change (negb true) with false; cbv iota beta;
        unfold bind at 1;
        match goal with
        | |- context [_create_searxng_config env ?s] =>
            destruct (create_searxng_config_quiet env s Hdir)
              as (e1 & s1 & Hc & Ht1 & Hn1 & Hst1 & Hsl1 & Hrq1);
            rewrite Hc
        end;
        open_step; rewrite Hr; simpl; try reflexivity;
        do 2 eexists; (split; [reflexivity|]);
        (split; [simpl; rewrite Ht1; simpl;
                 rewrite <- ?app_assoc; reflexivity|]);
        rewrite ?starts_app, ?sleeps_app, ?requests_app, ?length_app;
        rewrite Hst1, Hsl1, Hrq1; repeat split. }
    split.
    + intros [(rc & out & Hr & Hrc)|Hr].
      * specialize (Hstep _ Hr). now destruct rc.
      * exact (Hstep _ Hr).
    + intros Hr. exact (Hstep _ Hr).
Qed.

Lemma X12_failed_launch_witness :
  outcome (step_searxng compose_fails_env false) compose_state false 1 [] 1.
Proof.
  apply (proj2 (X12_failed_launch compose_fails_env compose_state)).
  - reflexivity.
  - reflexivity.
  - right. reflexivity.
  - left. exists 1, "". split; [reflexivity | discriminate].
Defined.

(** X13: without the [ollama] command line tool step 2 fails before it
    looks for the service: no request is sent, so a service that is
    running (in a container, say) is not found. *)
Theorem X13_no_cli_no_probe (env : Env) (check_only : bool) (st : State) :
  answers env ["ollama"; "--version"] = false ->
  outcome (step_ollama env check_only) st false 0 [] 0.
Proof.
  intros Hcli. unfold answers in Hcli.
  unfold outcome, step_ollama. open_step.
  destruct (proc env ["ollama"; "--version"]) as [rc out| | |]; simpl;
    try rewrite Hcli; simpl;
    do 2 eexists; (split; [reflexivity|]); close_trace.
Qed.

Lemma X13_no_cli_no_probe_witness :
  http_reply remote_ollama_env 0 tags_url = Some "{}" /\
  outcome (step_ollama remote_ollama_env false) empty_state false 0 [] 0.
Proof.
  split; [reflexivity|].
  apply (X13_no_cli_no_probe remote_ollama_env false empty_state).
  reflexivity.
Defined.

(** ** Step 4: which card is reported *)

Lemma commands_app (a b : list event) :
  commands (a ++ b) = (commands a ++ commands b)%list.
Proof.
  induction a as [|[] a IH]; simpl; auto. now rewrite IH.
Qed.

Lemma detect_nvidia_found (env : Env) (s : State) (rc : Z)
  (out p0 p1 : string) (tail : list string) (m : Q) :
  proc env nvidia_smi = Exited rc out ->
  Py.split "," (Py.strip out) = p0 :: p1 :: tail ->
  py_float env (Py.strip p1) = Some m ->
  _detect_nvidia env s =
  (Ok (true, Some (Py.strip p0), (m / inject_Z 1024)%Q),
   record (EvRun nvidia_smi) s).
Proof.
  intros Hp Hs Hf.
  unfold _detect_nvidia, try_except, bind.
  rewrite run_unchecked. rewrite Hp. simpl.
  destruct (Py.strip out) as [|c rest] eqn:Hout.
  - vm_compute in Hs. discriminate.
  - simpl. rewrite Hs. unfold getitem, float_of, bind. simpl.
    now rewrite Hf.
Qed.

(** X14: NVIDIA comes first.  When [nvidia-smi] names a card and a
    memory size that can be read, step 4 reports that card, of type
    ["nvidia"], with that size divided by 1024, and runs no other
    command: neither the WMI query nor [rocm-smi] nor [ollama ps], so an
    AMD card in the same machine is never looked for. *)
Theorem X14_nvidia_first (env : Env) (st : State) (rc : Z)
  (out p0 p1 : string) (tail : list string) (m : Q) :
  proc env nvidia_smi = Exited rc out ->
  Py.split "," (Py.strip out) = p0 :: p1 :: tail ->
  py_float env (Py.strip p1) = Some m ->
  exists hw st',
    step_hardware env st = (Ok hw, st') /\
    has_gpu hw = true /\ gpu_type hw = "nvidia" /\
    gpu_name hw = Some (Py.strip p0) /\
    vram hw = (m / inject_Z 1024)%Q /\
    commands (trace st') = (commands (trace st) ++ [nvidia_smi])%list.
Proof.
  intros Hp Hs Hf.
  unfold step_hardware. unfold bind at 1. unfold banner, print, emit.
  unfold bind at 1.
  rewrite (detect_nvidia_found env _ rc out p0 p1 tail m Hp Hs Hf).
  unfold ok, print, emit, bind, ret. simpl.
  do 2 eexists. split; [reflexivity|]. simpl.
  repeat split.
  rewrite !commands_app. simpl. now rewrite !app_nil_r.
Qed.

Lemma X14_nvidia_first_witness :
  exists hw st',
    step_hardware two_vendors_env empty_state = (Ok hw, st') /\
    has_gpu hw = true /\ gpu_type hw = "nvidia" /\
    gpu_name hw = Some "NVIDIA GeForce RTX 3060" /\
    vram hw = (inject_Z 12288 / inject_Z 1024)%Q /\
    commands (trace st') = [nvidia_smi].
Proof.
  exact (X14_nvidia_first two_vendors_env empty_state 0
           "NVIDIA GeForce RTX 3060, 12288"
           "NVIDIA GeForce RTX 3060" " 12288" [] (inject_Z 12288)
           eq_refl eq_refl eq_refl).
Defined.

(** X15: on the ROCm path the VRAM is the value of the table for the
    name of the card, in every case: [rocm-smi --showproductname] gives
    no memory size, so a card that the table does not know is reported
    with 0 GB, whatever it has.  The detection returns in every case, and
    a card it reports has a name. *)
Theorem X15_rocm_vram_is_table_value (env : Env) (st : State) :
  exists found name,
    fst (_detect_amd_rocm env st) =
      Ok (found, name, lookup_vram AMD_VRAM_TABLE (str_of name)) /\
    (found = true -> Py.truthy_opt name = true) /\
    ((forall key known, In (key, known) AMD_VRAM_TABLE ->
                        Py.contains key (str_of name) = false) ->
     fst (_detect_amd_rocm env st) = Ok (found, name, 0%Q)).
Proof.
  assert (Hnone : forall found : bool,
            exists found' name,
              Ok (A := bool * option string * Q) not_found =
                Ok (found', name, lookup_vram AMD_VRAM_TABLE (str_of name)) /\
              (found' = true -> Py.truthy_opt name = true) /\
              ((forall key known, In (key, known) AMD_VRAM_TABLE ->
                                  Py.contains key (str_of name) = false) ->
               Ok (A := bool * option string * Q) not_found =
                 Ok (found', name, 0%Q))).
  { intros _. exists false, None. repeat split. discriminate. }
  unfold _detect_amd_rocm, try_except, bind.
  rewrite run_unchecked.
  destruct (proc env rocm_smi) as [rc out| | |]; simpl;
    try exact (Hnone true).
  destruct (Py.truthy (Py.strip out) && Py.contains "GPU" (Py.strip out));
    simpl; [|exact (Hnone true)].
  destruct (Py.truthy_opt (rocm_name (Py.split Py.newline (Py.strip out))))
    eqn:Hname; simpl; [|exact (Hnone true)].
  exists true, (rocm_name (Py.split Py.newline (Py.strip out))).
  split; [reflexivity|]. split; [auto|].
  intros Hmiss. f_equal. f_equal.
  exact (lookup_vram_miss AMD_VRAM_TABLE _ Hmiss).
Qed.

Lemma X15_rocm_vram_is_table_value_witness :
  fst (_detect_amd_rocm unlisted_card_env empty_state) =
    Ok (true, Some "Radeon RX 6600 XT", 0%Q) /\
  exists found name,
    fst (_detect_amd_rocm unlisted_card_env empty_state) =
      Ok (found, name, lookup_vram AMD_VRAM_TABLE (str_of name)) /\
    (found = true -> Py.truthy_opt name = true) /\
    ((forall key known, In (key, known) AMD_VRAM_TABLE ->
                        Py.contains key (str_of name) = false) ->
     fst (_detect_amd_rocm unlisted_card_env empty_state) =
       Ok (found, name, 0%Q)).
Proof.
  split; [reflexivity|].
  exact (X15_rocm_vram_is_table_value unlisted_card_env empty_state).
Defined.

(** ** Nothing is overwritten *)

Lemma keeps_refl (s : State) : keeps s s.
Proof. split; [auto | set_solver]. Qed.

Lemma keeps_trans (s1 s2 s3 : State) :
  keeps s1 s2 -> keeps s2 s3 -> keeps s1 s3.
Proof. intros [F1 D1] [F2 D2]. split; [auto | set_solver]. Qed.

(** A state with the same files and directories. *)
Lemma keeps_same (s s' : State) :
  files s' = files s -> dirs s' = dirs s -> keeps s s'.
Proof. intros Hf Hd. split; [now rewrite Hf | now rewrite Hd]. Qed.

Lemma keeps_emit (e : event) : respects keeps anything (emit e).
Proof. intros s. split; [now apply keeps_same | discriminate]. Qed.

Lemma keeps_http_get (env : Env) (url : string) :
  respects keeps anything (http_get env url).
Proof. intros s. split; [now apply keeps_same | discriminate]. Qed.

Lemma keeps_http_post_json (env : Env) (url : string) :
  respects keeps anything (http_post_json env url).
Proof. intros s. split; [now apply keeps_same | discriminate]. Qed.

Lemma keeps_input : respects keeps anything input.
Proof.
  intros s. split; [|intros; exact I]. unfold input.
  destruct (stdin s); [apply keeps_refl | now apply keeps_same].
Qed.

Lemma keeps_ask (question : string) (default : bool) :
  respects keeps anything (ask question default).
Proof.
  intros s. split; [|intros; exact I]. unfold ask.
  destruct (ask_lines _ _ _ _) as [[r rest] log]. now apply keeps_same.
Qed.

Lemma keeps_mkdir (p : string) : respects keeps anything (mkdir_exist_ok p).
Proof.
  intros s. unfold mkdir_exist_ok. split; [|intros; exact I].
  destruct (bool_decide (p ∈ dirs s)); [apply keeps_refl|].
  destruct (bool_decide (is_Some (files s !! p))); [apply keeps_refl|].
  split; simpl; [auto | set_solver].
Qed.

Lemma keeps_raise {A} (e : exn) : respects keeps anything (@raise A e).
Proof. apply respects_raise; [apply keeps_refl | exact I]. Qed.

(** Writing a file where there is none. *)
Lemma keeps_write (s : State) (p : string) (c : content) :
  exists_in s p = false -> keeps s (snd (write_text p c s)).
Proof.
  intros H. unfold exists_in in H. apply orb_false_iff in H as [Hf _].
  apply bool_decide_eq_false in Hf.
  split; simpl; [|set_solver].
  intros q c' Hq. destruct (decide (p = q)) as [->|Hne].
  - exfalso. apply Hf. eauto.
  - now rewrite lookup_insert_ne.
Qed.

(** The code after [if not path.exists():] may count on it. *)
Lemma keeps_path_exists {A} (p : string) (k : bool -> M A) :
  respects keeps anything (k true) ->
  (forall s, exists_in s p = false -> keeps s (snd (k false s))) ->
  respects keeps anything (bind (path_exists p) k).
Proof.
  intros Ht Hf s. split; [|intros; exact I].
  unfold bind, path_exists. destruct (exists_in s p) eqn:He.
  - apply Ht.
  - now apply Hf.
Qed.

Lemma keeps_bind_at {A B} (m : M A) (k : A -> M B) (s : State) :
  keeps s (snd (m s)) -> (forall a, respects keeps anything (k a)) ->
  keeps s (snd (bind m k s)).
Proof.
  intros Hm Hk. unfold bind. destruct (m s) as [[a|e] s1]; simpl in *.
  - eapply keeps_trans; [exact Hm | apply Hk].
  - exact Hm.
Qed.

Create HintDb keeps.

#[local] Hint Resolve keeps_emit keeps_http_get keeps_http_post_json
  keeps_input keeps_ask keeps_mkdir keeps_raise : keeps.

Ltac keeps_go :=
  unfold sleep, popen, input_or; open_helpers;
  repeat respects_step keeps_refl keeps_trans ltac:(solve [auto 3 with keeps]).

Lemma keeps_subprocess_run (env : Env) (cmd : list string) (check : bool) :
  respects keeps anything (subprocess_run env cmd check).
Proof. unfold subprocess_run. keeps_go. Qed.

#[local] Hint Resolve keeps_subprocess_run : keeps.

Lemma keeps_run_cmd (env : Env) (cmd : list string) (capture check : bool) :
  respects keeps anything (run env cmd capture check).
Proof. unfold run. keeps_go. Qed.

#[local] Hint Resolve keeps_run_cmd : keeps.

Lemma keeps_wait_loop (n : nat) (probe : M bool) (ready waiting : string)
  (after : M bool) :
  respects keeps anything probe -> respects keeps anything after ->
  forall i, respects keeps anything (wait_loop n i probe ready waiting after).
Proof.
  intros Hp Ha. induction n as [|n IH]; intros i;
    unfold wait_loop; fold wait_loop; [exact Ha|].
  keeps_go.
Qed.

Lemma keeps_pull_all (env : Env) (needed : list string) :
  respects keeps anything (pull_all env needed).
Proof.
  induction needed as [|m rest IH]; unfold pull_all; fold pull_all; keeps_go.
Qed.

Lemma keeps_amd_windows_scan (env : Env) (lines : list string) :
  forall gpu_name, respects keeps anything (amd_windows_scan env lines gpu_name).
Proof.
  induction lines as [|line rest IH]; intros gpu_name;
    unfold amd_windows_scan; fold amd_windows_scan; keeps_go.
Qed.

Lemma keeps_names_of (items : list json) :
  respects keeps anything (names_of items).
Proof.
  induction items as [|m rest IH]; unfold names_of; fold names_of; keeps_go.
Qed.

Lemma keeps_make_dirs (ds : list string) :
  respects keeps anything (make_dirs ds).
Proof.
  induction ds as [|d rest IH]; unfold make_dirs; fold make_dirs; keeps_go.
Qed.

Lemma keeps_check_models (available ms : list string) :
  respects keeps anything (check_models available ms).
Proof.
  induction ms as [|m rest IH]; unfold check_models; fold check_models;
    keeps_go.
Qed.

Lemma keeps_check_dirs (ds : list string) :
  respects keeps anything (check_dirs ds).
Proof.
  induction ds as [|d rest IH]; unfold check_dirs; fold check_dirs; keeps_go.
Qed.

#[local] Hint Resolve keeps_pull_all keeps_amd_windows_scan
  keeps_names_of keeps_make_dirs keeps_check_models keeps_check_dirs : keeps.

Lemma keeps_ollama_models (env : Env) :
  respects keeps anything (_ollama_models env).
Proof. unfold _ollama_models. keeps_go. Qed.

Lemma keeps_searxng_is_running (env : Env) :
  respects keeps anything (_searxng_is_running env).
Proof. unfold _searxng_is_running. keeps_go. Qed.

Lemma keeps_ollama_probe (env : Env) :
  respects keeps anything (ollama_probe env).
Proof. unfold ollama_probe. keeps_go. Qed.

Lemma keeps_check_ffmpeg (env : Env) :
  respects keeps anything (_check_ffmpeg env).
Proof. unfold _check_ffmpeg. keeps_go. Qed.

#[local] Hint Resolve keeps_ollama_models keeps_searxng_is_running
  keeps_ollama_probe keeps_check_ffmpeg : keeps.

(** The two files of SearXNG are written only where there is none. *)
Lemma keeps_create_searxng_config (env : Env) :
  respects keeps anything (_create_searxng_config env).
Proof.
  assert (Hlimiter : respects keeps anything
    (bind (path_exists (SEARXNG_DIR ++ "/limiter.toml")) (fun e =>
       if negb e then
         bind (write_text (SEARXNG_DIR ++ "/limiter.toml") SearxLimiter)
           (fun _ => ok "Created searxng/limiter.toml")
       else ok "searxng/limiter.toml already exists"))).
  { apply keeps_path_exists; [keeps_go|].
    intros s He. cbv beta iota delta [negb].
    apply keeps_bind_at; [now apply keeps_write | intros; keeps_go]. }
  unfold _create_searxng_config.
  apply (respects_bind _ _ keeps_trans); [apply keeps_mkdir | intros _].
  cbv zeta. apply keeps_path_exists.
  - apply (respects_bind _ _ keeps_trans); [keeps_go | intros _; exact Hlimiter].
  - intros s He. cbv beta iota delta [negb].
    apply keeps_bind_at; [|intros _; exact Hlimiter].
    apply keeps_bind_at; [now apply keeps_write | intros; keeps_go].
Qed.

#[local] Hint Resolve keeps_create_searxng_config : keeps.

(** [config.yaml] and [.env] are written only where there is none. *)
Lemma keeps_step_config (env : Env) (models : Models) (hw : Hardware)
  (check_only : bool) :
  respects keeps anything (step_config env models hw check_only).
Proof.
  assert (Henv : forall go_on : bool, respects keeps anything
    (if negb go_on then ret false
     else
       bind (path_exists ENV_FILE) (fun e =>
         bind (if e then ok ".env file exists"
               else if check_only
                    then warn ".env file does not exist (optional — config.yaml is primary)"
                    else
                      bind (info "Generating .env...") (fun _ =>
                        bind (write_text ENV_FILE
                                (EnvFile OLLAMA_URL SEARXNG_URL
                                   (m_extract models) (m_verify models)
                                   (m_write models)
                                   (has_gpu hw) (gpu_type hw) (vram hw) (ram hw)))
                          (fun _ => ok "Created .env")))
           (fun _ =>
              bind (make_dirs runtime_dirs) (fun _ =>
                bind (ok "Runtime directories ready: cache, runs, store, inbox, logs")
                  (fun _ => ret true)))))).
  { intros [|]; cbv beta iota delta [negb]; [|keeps_go].
    apply keeps_path_exists; [keeps_go|].
    intros s He. apply keeps_bind_at; [|intros; keeps_go].
    destruct check_only; [apply keeps_emit|].
    unfold info, print. unfold bind at 1. unfold emit at 1.
    eapply keeps_trans; [apply (keeps_emit (EvPrint LvInfo "Generating .env...") s)|].
    apply keeps_bind_at; [now apply keeps_write | intros; keeps_go]. }
  unfold step_config.
  apply (respects_bind _ _ keeps_trans); [apply keeps_emit | intros _].
  apply keeps_path_exists.
  - apply (respects_bind _ _ keeps_trans); [keeps_go | exact Henv].
  - intros s He. apply keeps_bind_at; [|exact Henv].
    destruct check_only; [apply keeps_bind_at; [apply keeps_emit | intros; keeps_go]|].
    unfold info, print. unfold bind at 1. unfold emit at 1.
    eapply keeps_trans;
      [apply (keeps_emit (EvPrint LvInfo "Generating config.yaml...") s)|].
    apply keeps_bind_at; [now apply keeps_write | intros; keeps_go].
Qed.

Lemma keeps_step_python_deps (env : Env) (check_only : bool) :
  respects keeps anything (step_python_deps env check_only).
Proof. unfold step_python_deps. keeps_go. Qed.

Lemma keeps_step_ollama (env : Env) (check_only : bool) :
  respects keeps anything (step_ollama env check_only).
Proof.
  unfold step_ollama. keeps_go.
  apply keeps_wait_loop; keeps_go.
Qed.

Lemma keeps_step_docker_and_ffmpeg (env : Env) (check_only : bool) :
  respects keeps anything (step_docker_and_ffmpeg env check_only).
Proof. unfold step_docker_and_ffmpeg. keeps_go. Qed.

Lemma keeps_step_hardware (env : Env) :
  respects keeps anything (step_hardware env).
Proof.
  unfold step_hardware, _detect_nvidia, _detect_amd_windows, _detect_amd_rocm,
    _check_ollama_gpu.
  keeps_go.
Qed.

Lemma keeps_step_models (env : Env) (hw : Hardware) (check_only : bool) :
  respects keeps anything (step_models env hw check_only).
Proof. unfold step_models. keeps_go. Qed.

Lemma keeps_step_searxng (env : Env) (check_only : bool) :
  respects keeps anything (step_searxng env check_only).
Proof.
  unfold step_searxng. keeps_go.
  apply keeps_wait_loop; keeps_go.
Qed.

Lemma keeps_step_validate_and_test (env : Env) (models : Models)
  (check_only : bool) :
  respects keeps anything (step_validate_and_test env models check_only).
Proof.
  unfold step_validate_and_test, service_checks, smoke_test, smoke_llm,
    smoke_search, smoke_fetch.
  keeps_go.
Qed.

#[local] Hint Resolve keeps_step_python_deps keeps_step_ollama
  keeps_step_docker_and_ffmpeg keeps_step_hardware keeps_step_models
  keeps_step_searxng keeps_step_config keeps_step_validate_and_test : keeps.

Lemma keeps_main (env : Env) (check_only : bool) :
  respects keeps anything (main env check_only).
Proof. unfold main. keeps_go. Qed.

(** X16: the setup never overwrites and never removes.  In either mode,
    on any machine and from any state of the project directory, every
    file that is there before the run has the same content after it, and
    every directory is still there: [config.yaml], [.env] and the two
    files of SearXNG are written only where no file or directory of that
    name exists. *)
Theorem X16_nothing_overwritten (env : Env) (check_only : bool) (st : State) :
  (forall p c, files st !! p = Some c ->
               files (snd (script env check_only st)) !! p = Some c) /\
  dirs st ⊆ dirs (snd (script env check_only st)).
Proof.
  change (keeps st (snd (script env check_only st))).
  unfold script. destruct (keeps_main env check_only st) as [HR _].
  destruct (main env check_only st) as [[[]|e] s1]; simpl in *; [exact HR|].
  destruct e; try exact HR;
    (eapply keeps_trans; [exact HR|]);
    apply (keeps_emit (EvPrint LvFail "Unexpected error") s1).
Qed.

(** ** Running step 7 again *)

Lemma bind_Ok {A B} (m : M A) (k : A -> M B) (s s' : State) (b : B) :
  bind m k s = (Ok b, s') ->
  exists a s1, m s = (Ok a, s1) /\ k a s1 = (Ok b, s').
Proof.
  unfold bind. destruct (m s) as [[a|e] s1]; intros H; [eauto | discriminate].
Qed.

Lemma exists_in_keeps (s s' : State) (p : string) :
  keeps s s' -> exists_in s p = true -> exists_in s' p = true.
Proof.
  intros [Hf Hd]. unfold exists_in. rewrite !orb_true_iff, !bool_decide_eq_true.
  intros [[c Hc]|Hin]; [left; rewrite (Hf _ _ Hc); eauto | right; set_solver].
Qed.

Lemma exists_in_written (s : State) (p : string) (c : content) :
  exists_in (snd (write_text p c s)) p = true.
Proof.
  unfold exists_in. simpl. rewrite lookup_insert_eq.
  apply orb_true_iff. left. apply bool_decide_eq_true. eauto.
Qed.

(** The directories are there once [make_dirs] has returned. *)
Lemma make_dirs_returned (ds : list string) :
  forall s s', make_dirs ds s = (Ok tt, s') ->
               forall d, In d ds -> d ∈ dirs s'.
Proof.
  induction ds as [|d0 ds IH]; intros s s' H d Hin; [destruct Hin|].
  unfold make_dirs in H; fold make_dirs in H.
  apply bind_Ok in H as ([] & s1 & Hmk & Hrest).
  destruct Hin as [<-|Hin]; [|exact (IH _ _ Hrest d Hin)].
  assert (Hd : d0 ∈ dirs s1).
  { unfold mkdir_exist_ok in Hmk.
    destruct (bool_decide (d0 ∈ dirs s)) eqn:Hd.
    - injection Hmk as <-. now apply bool_decide_eq_true in Hd.
    - destruct (bool_decide (is_Some (files s !! d0))); [discriminate|].
      injection Hmk as <-. simpl. set_solver. }
  destruct (keeps_make_dirs ds s1) as [[_ Hsub] _].
  rewrite Hrest in Hsub. simpl in Hsub. set_solver.
Qed.

(** [make_dirs] does nothing where the directories are. *)
Lemma make_dirs_present (ds : list string) (s : State) :
  (forall d, In d ds -> d ∈ dirs s) -> make_dirs ds s = (Ok tt, s).
Proof.
  induction ds as [|d ds IH]; intros H; [reflexivity|].
  unfold make_dirs; fold make_dirs. unfold bind, mkdir_exist_ok.
  rewrite bool_decide_eq_true_2 by (apply H; now left).
  apply IH. intros d' Hin. apply H. now right.
Qed.

(** What a run of step 7 that is allowed to write leaves behind. *)
Lemma step_config_leaves (env : Env) (models : Models) (hw : Hardware)
  (st s1 : State) :
  step_config env models hw false st = (Ok true, s1) ->
  exists_in s1 CONFIG_FILE = true /\ exists_in s1 ENV_FILE = true /\
  forall d, In d runtime_dirs -> d ∈ dirs s1.
Proof.
  intros H. unfold step_config in H.
  apply bind_Ok in H as ([] & sa & _ & H).
  apply bind_Ok in H as (e & sb & He & H).
  apply bind_Ok in H as (go_on & sc & Hgo & H).
  assert (Hcfg : exists_in sc CONFIG_FILE = true /\ go_on = true).
  { unfold path_exists in He. injection He as <- <-.
    destruct (exists_in sa CONFIG_FILE) eqn:Hex.
    - apply bind_Ok in Hgo as ([] & s2 & Hok & Hgo).
      apply bind_Ok in Hgo as (c & s3 & Hrd & Hgo).
      apply bind_Ok in Hgo as ([] & s4 & Hval & Hgo).
      injection Hgo as <- <-. split; [|reflexivity].
      assert (Hk : forall o : option content, respects keeps anything
                (match o with
                 | Some c =>
                     match yaml_sections_ok env c with
                     | Some true => ok "config.yaml is valid"
                     | Some false =>
                         warn "config.yaml missing 'ollama' or 'searx' sections"
                     | None => warn "config.yaml parse error"
                     end
                 | None => warn "config.yaml parse error"
                 end)) by (intros o; keeps_go).
      destruct (Hk c s3) as [Hkeep _].
      rewrite Hval in Hkeep. simpl in Hkeep.
      unfold ok, print, emit in Hok. injection Hok as <-.
      unfold read_file in Hrd. injection Hrd as _ <-.
      apply (exists_in_keeps sa); [|exact Hex].
      eapply keeps_trans;
        [apply (keeps_emit (EvPrint LvOk "config.yaml exists") sa)|].
      exact Hkeep.
    - unfold info, ok, print, emit, write_text, bind, ret in Hgo.
      injection Hgo as <- <-. split; [|reflexivity].
      unfold exists_in. simpl. rewrite lookup_insert_eq.
      apply orb_true_iff. left. apply bool_decide_eq_true. eauto. }
  destruct Hcfg as [Hcfg ->]. cbv beta iota delta [negb] in H.
  apply bind_Ok in H as (e2 & sd & He2 & H).
  apply bind_Ok in H as ([] & se & Henv & H).
  apply bind_Ok in H as ([] & sf & Hmk & H).
  apply bind_Ok in H as ([] & sg & Hok & H).
  injection H as <-.
  unfold ok, print, emit in Hok. injection Hok as <-.
  unfold path_exists in He2. injection He2 as <- <-.
  destruct (keeps_make_dirs runtime_dirs se) as [Hkmk _].
  rewrite Hmk in Hkmk. simpl in Hkmk.
  assert (Hksf : keeps sf (record (EvPrint LvOk
            "Runtime directories ready: cache, runs, store, inbox, logs") sf))
    by now apply keeps_same.
  assert (Hse : keeps sc se /\ exists_in se ENV_FILE = true).
  { destruct (exists_in sc ENV_FILE) eqn:Hex.
    - unfold ok, print, emit in Henv. injection Henv as <-.
      split; [now apply keeps_same|]. exact Hex.
    - unfold info, ok, print, emit, write_text, bind in Henv.
      injection Henv as <-. split.
      + eapply keeps_trans;
          [apply (keeps_emit (EvPrint LvInfo "Generating .env...") sc)|].
        eapply keeps_trans; [apply keeps_write; exact Hex|].
        now apply keeps_same.
      + unfold exists_in. simpl. rewrite lookup_insert_eq.
        apply orb_true_iff. left. apply bool_decide_eq_true. eauto. }
  destruct Hse as [Hkse Henvf].
  split; [|split].
  - apply (exists_in_keeps sc); [|exact Hcfg].
    eapply keeps_trans; [exact Hkse|].
    eapply keeps_trans; [exact Hkmk | exact Hksf].
  - apply (exists_in_keeps se); [|exact Henvf].
    eapply keeps_trans; [exact Hkmk | exact Hksf].
  - intros d Hin. simpl. exact (make_dirs_returned _ _ _ Hmk d Hin).
Qed.

(** Step 7 where everything is in place. *)
Lemma step_config_in_place (env : Env) (models : Models) (hw : Hardware)
  (check_only : bool) (s : State) :
  exists_in s CONFIG_FILE = true -> exists_in s ENV_FILE = true ->
  (forall d, In d runtime_dirs -> d ∈ dirs s) ->
  exists evs,
    step_config env models hw check_only s =
      (Ok true, mkState (files s) (dirs s) (stdin s) (http_count s)
                  (trace s ++ evs)) /\
    fs_changes evs = [].
Proof.
  intros Hcfg Henv Hdirs.
  unfold step_config, banner, ok, warn, print, path_exists, read_file.
  unfold bind at 1. unfold emit at 1. unfold bind at 1.
  change (exists_in (record _ s) CONFIG_FILE) with (exists_in s CONFIG_FILE).
  rewrite Hcfg. unfold bind at 1. unfold bind at 1. unfold emit at 1.
  unfold bind at 1. unfold bind at 1.
  match goal with
  | |- context [match ?f !! CONFIG_FILE with _ => _ end] =>
      destruct (f !! CONFIG_FILE) as [c|];
      [destruct (yaml_sections_ok env c) as [[|]|]|]
  end;
    unfold emit at 1; unfold ret at 1; cbv beta iota delta [negb];
    unfold bind at 1;
    change (exists_in _ ENV_FILE) with (exists_in s ENV_FILE);
    rewrite Henv; unfold bind at 1; unfold emit at 1; unfold bind at 1;
    rewrite make_dirs_present by exact Hdirs;
    unfold bind, emit, ret, record; simpl;
    eexists; (split; [rewrite <- ?app_assoc; simpl; reflexivity | reflexivity]).
Qed.

(** X17: step 7 is idempotent.  After a run of it that was allowed to
    write and returned, another run of it (in either mode, with any
    models and hardware) returns success and changes nothing:
    [config.yaml] and [.env] are left as they are and no directory is
    created. *)
Theorem X17_step_config_idempotent (env : Env) (models models' : Models)
  (hw hw' : Hardware) (check_only : bool) (st s1 : State) :
  step_config env models hw false st = (Ok true, s1) ->
  exists evs,
    step_config env models' hw' check_only s1 =
      (Ok true, mkState (files s1) (dirs s1) (stdin s1) (http_count s1)
                  (trace s1 ++ evs)) /\
    fs_changes evs = [].
Proof.
  intros H. destruct (step_config_leaves env models hw st s1 H)
    as (Hcfg & Henv & Hdirs).
  now apply step_config_in_place.
Qed.

Lemma X17_step_config_idempotent_witness :
  let models := mkModels "phi3:mini" "phi3:mini" "phi3:mini" in
  let hw := mkHardware false "none" None 0 (8 # 1) (Some 4) in
  let s1 := snd (step_config (bare_env "Linux") models hw false empty_state) in
  fs_changes (trace s1) =
    [EvWriteFile CONFIG_FILE; EvWriteFile ENV_FILE; EvMkdir "cache";
     EvMkdir "runs"; EvMkdir "store"; EvMkdir "inbox"; EvMkdir "logs"] /\
  exists evs,
    step_config (bare_env "Linux") models hw false s1 =
      (Ok true, mkState (files s1) (dirs s1) (stdin s1) (http_count s1)
                  (trace s1 ++ evs)) /\
    fs_changes evs = [].
Proof.
  intros models hw s1. split; [vm_compute; reflexivity|].
  apply (X17_step_config_idempotent (bare_env "Linux") models models hw hw
           false empty_state s1).
  vm_compute. reflexivity.
Defined.

(** ** What step 8 vouches for *)

Lemma same_fs_refl (s : State) : same_fs s s.
Proof. now split. Qed.

Lemma same_fs_trans (s1 s2 s3 : State) :
  same_fs s1 s2 -> same_fs s2 s3 -> same_fs s1 s3.
Proof. intros [F1 D1] [F2 D2]. split; congruence. Qed.

Lemma same_fs_emit (e : event) : respects same_fs anything (emit e).
Proof. intros s. split; [now split | discriminate]. Qed.

Lemma same_fs_http_get (env : Env) (url : string) :
  respects same_fs anything (http_get env url).
Proof. intros s. split; [now split | discriminate]. Qed.

Lemma same_fs_http_post_json (env : Env) (url : string) :
  respects same_fs anything (http_post_json env url).
Proof. intros s. split; [now split | discriminate]. Qed.

Lemma same_fs_raise {A} (e : exn) : respects same_fs anything (@raise A e).
Proof. apply respects_raise; [apply same_fs_refl | exact I]. Qed.

Create HintDb same_fs.

#[local] Hint Resolve same_fs_emit same_fs_http_get same_fs_http_post_json
  same_fs_raise : same_fs.

Ltac same_fs_go :=
  open_helpers;
  repeat respects_step same_fs_refl same_fs_trans
    ltac:(solve [auto 3 with same_fs]).

Lemma same_fs_names_of (items : list json) :
  respects same_fs anything (names_of items).
Proof.
  induction items as [|m rest IH]; unfold names_of; fold names_of; same_fs_go.
Qed.

#[local] Hint Resolve same_fs_names_of : same_fs.

Lemma same_fs_ollama_models (env : Env) :
  respects same_fs anything (_ollama_models env).
Proof. unfold _ollama_models. same_fs_go. Qed.

Lemma same_fs_check_models (available ms : list string) :
  respects same_fs anything (check_models available ms).
Proof.
  induction ms as [|m rest IH]; unfold check_models; fold check_models;
    same_fs_go.
Qed.

Lemma same_fs_check_dirs (ds : list string) :
  respects same_fs anything (check_dirs ds).
Proof.
  induction ds as [|d rest IH]; unfold check_dirs; fold check_dirs;
    same_fs_go.
Qed.

Lemma same_fs_searxng_is_running (env : Env) :
  respects same_fs anything (_searxng_is_running env).
Proof. unfold _searxng_is_running. same_fs_go. Qed.

#[local] Hint Resolve same_fs_ollama_models same_fs_check_models
  same_fs_check_dirs same_fs_searxng_is_running : same_fs.

(** The state after a computation that returned or raised. *)
Lemma respects_run {A} (R : State -> State -> Prop) (E : exn -> Prop)
  (m : M A) (s s' : State) (r : res A) :
  respects R E m -> m s = (r, s') -> R s s'.
Proof. intros H Hm. destruct (H s) as [HR _]. now rewrite Hm in HR. Qed.

(** The loop over the directories finds them all only if they are all
    there. *)
Lemma check_dirs_true (ds : list string) :
  forall s s', check_dirs ds s = (Ok true, s') ->
               forall d, In d ds -> d ∈ dirs s.
Proof.
  induction ds as [|d0 ds IH]; intros s s' H d Hin; [destruct Hin|].
  unfold check_dirs in H; fold check_dirs in H.
  apply bind_Ok in H as (e & s1 & He & H).
  unfold is_dir in He. injection He as <- <-.
  destruct (bool_decide (d0 ∈ dirs s)) eqn:Hd.
  - apply bind_Ok in H as ([] & s2 & Hok & H).
    unfold ok, print, emit in Hok. injection Hok as <-.
    destruct Hin as [<-|Hin]; [now apply bool_decide_eq_true in Hd|].
    exact (IH _ _ H d Hin).
  - apply bind_Ok in H as ([] & s2 & _ & H).
    apply bind_Ok in H as (b & s3 & _ & H). discriminate H.
Qed.

(** X18: what the success of step 8 vouches for.  If
    [step_validate_and_test] returns [True], then [config.yaml] exists,
    the five runtime directories exist, and Ollama answered the first
    request of the step; the smoke test is reached on that condition
    only. *)
Theorem X18_validation_is_sound (env : Env) (models : Models)
  (check_only : bool) (st : State) :
  fst (step_validate_and_test env models check_only st) = Ok true ->
  exists_in st CONFIG_FILE = true /\
  (forall d, In d runtime_dirs -> d ∈ dirs st) /\
  Py.truthy_opt (http_reply env (http_count st) tags_url) = true.
Proof.
  intros H.
  destruct (step_validate_and_test env models check_only st) as [r s'] eqn:Hs.
  simpl in H. subst r. unfold step_validate_and_test in Hs.
  apply bind_Ok in Hs as ([] & sa & Hbanner & Hs).
  apply bind_Ok in Hs as (all_ok & sb & Hchecks & Hs).
  destruct all_ok; cbv beta iota delta [negb] in Hs.
  2:{ apply bind_Ok in Hs as ([] & sc & _ & Hs). discriminate Hs. }
  clear Hs. unfold banner, print, emit in Hbanner. injection Hbanner as <-.
  unfold service_checks in Hchecks.
  apply bind_Ok in Hchecks as ([] & s1 & Hprint & Hchecks).
  unfold print, emit in Hprint. injection Hprint as <-.
  apply bind_Ok in Hchecks as (resp & s2 & Hget & Hchecks).
  apply bind_Ok in Hchecks as (ok1 & s3 & Hok1 & Hchecks).
  apply bind_Ok in Hchecks as (up & s4 & Hup & Hchecks).
  apply bind_Ok in Hchecks as ([] & s5 & Hsay & Hchecks).
  apply bind_Ok in Hchecks as (e & s6 & He & Hchecks).
  apply bind_Ok in Hchecks as ([] & s7 & Hsay2 & Hchecks).
  apply bind_Ok in Hchecks as (ok4 & s8 & Hdirs & Hchecks).
  injection Hchecks as Hall _.
  apply andb_true_iff in Hall as [Hall ->].
  apply andb_true_iff in Hall as [Hall ->].
  apply andb_true_iff in Hall as [-> ->].
  assert (Hresp : Py.truthy_opt resp = true).
  { destruct (Py.truthy_opt resp); [reflexivity|].
    apply bind_Ok in Hok1 as ([] & sx & _ & Hok1). discriminate Hok1. }
  assert (H2 : same_fs st s2).
  { unfold http_get in Hget. injection Hget as _ <-. now split. }
  assert (H3 : same_fs s2 s3).
  { refine (respects_run same_fs anything _ _ _ _ _ Hok1).
    rewrite Hresp. same_fs_go. }
  assert (H4 : same_fs s3 s4).
  { exact (respects_run _ _ _ _ _ _ (same_fs_searxng_is_running env) Hup). }
  assert (H5 : same_fs s4 s5).
  { unfold ok, print, emit in Hsay. injection Hsay as <-. now split. }
  unfold path_exists in He. injection He as He <-.
  assert (H7 : same_fs s5 s7).
  { unfold ok, print, emit in Hsay2. injection Hsay2 as <-. now split. }
  pose proof (same_fs_trans _ _ _ H2 (same_fs_trans _ _ _ H3
               (same_fs_trans _ _ _ H4 H5))) as [Hf5 Hd5].
  destruct H7 as [Hf7 Hd7].
  split; [|split].
  - unfold exists_in in He |- *. now rewrite Hf5, Hd5 in He.
  - intros d Hin. pose proof (check_dirs_true _ _ _ Hdirs d Hin) as Hd.
    now rewrite Hd7, Hd5 in Hd.
  - unfold http_get in Hget. injection Hget as <- _. exact Hresp.
Qed.

Lemma X18_validation_is_sound_witness :
  fst (step_validate_and_test installed_env
         (mkModels "phi3:mini" "phi3:mini" "phi3:mini") true
         (with_files [(CONFIG_FILE, Raw "ollama: {} searx: {}")]
            runtime_dirs [])) = Ok true /\
  exists_in (with_files [(CONFIG_FILE, Raw "ollama: {} searx: {}")]
               runtime_dirs []) CONFIG_FILE = true.
Proof.
  split; [vm_compute; reflexivity|].
  apply (X18_validation_is_sound installed_env
           (mkModels "phi3:mini" "phi3:mini" "phi3:mini") true
           (with_files [(CONFIG_FILE, Raw "ollama: {} searx: {}")]
              runtime_dirs [])).
  vm_compute. reflexivity.
Defined.

(** ** Declining *)

Lemma ask_reads (question : string) (default : bool)
  (junk : list string) (l : string) (rest : list string) (b : bool)
  (s : State) :
  Forall (fun l => answer_of default l = None) junk ->
  stdin s = (junk ++ l :: rest)%list -> answer_of default l = Some b ->
  ask question default s =
  (Ok b, mkState (files s) (dirs s) rest (http_count s)
           (trace s ++ repeat (EvPrint LvPlain question) (S (length junk)))).
Proof.
  intros Hjunk Hin Hl. unfold ask. rewrite Hin.
  rewrite (ask_lines_skips _ _ _ _ _ Hjunk).
  replace (S (length junk)) with (length junk + 1)%nat by lia.
  rewrite repeat_app, app_assoc. simpl.
  unfold answer_of in Hl.
  destruct (negb _); [now inversion Hl|].
  destruct (_ || _); [now inversion Hl|].
  destruct (_ || _); [now inversion Hl|discriminate].
Qed.

(** X19: answering no to "Continue?" ends the setup with exit status 0
    before anything is done: no command is run, no request is sent, the
    files and directories are untouched, and the lines after the answer
    are left unread. *)
Theorem X19_declined_setup (env : Env) (st : State)
  (junk : list string) (l : string) (rest : list string) :
  Forall (fun l => answer_of true l = None) junk ->
  stdin st = (junk ++ l :: rest)%list ->
  answer_of true l = Some false ->
  script env false st =
  (0, mkState (files st) (dirs st) rest (http_count st)
        (trace st ++ EvPrint LvPlain "SETUP Wizard"
           :: repeat (EvPrint LvPlain "Continue?") (S (length junk))
           ++ [EvPrint LvPlain "Setup cancelled."])).
Proof.
  intros Hjunk Hin Hl.
  unfold script, main. unfold bind at 1. unfold print at 1, emit at 1.
  unfold bind at 1.
  rewrite (ask_reads "Continue?" true junk l rest false
             (record (EvPrint LvPlain "SETUP Wizard") st) Hjunk Hin Hl).
  cbv beta iota delta [negb]. unfold bind, print, emit, sys_exit, raise, record.
  cbn [files dirs stdin http_count trace].
  rewrite <- !app_assoc. reflexivity.
Qed.

Lemma X19_declined_setup_witness :
  script (bare_env "Linux") false (with_files [] [] ["what?"; "No"; "y"]) =
  (0, mkState ∅ ∅ ["y"] 0
        [EvPrint LvPlain "SETUP Wizard"; EvPrint LvPlain "Continue?";
         EvPrint LvPlain "Continue?"; EvPrint LvPlain "Setup cancelled."]).
Proof.
  apply (X19_declined_setup (bare_env "Linux")
           (with_files [] [] ["what?"; "No"; "y"]) ["what?"] "No" ["y"]).
  - repeat constructor.
  - reflexivity.
  - reflexivity.
Defined.

(** ** Step 5: the downloads and the choice of the user *)

Lemma bind_run {A B} (m : M A) (k : A -> M B) (s s1 : State) (a : A) :
  m s = (Ok a, s1) -> bind m k s = k a s1.
Proof. intros H. unfold bind. now rewrite H. Qed.

(** One turn of the loop of downloads. *)
Lemma pull_one (env : Env) (model : string) (s : State) :
  (exists rc out, proc env (pull_of model) = Exited rc out) ->
  exists s1,
    try_except
      (bind (subprocess_run env (pull_of model) true)
         (fun _ => ok ("Downloaded " ++ model)))
      (fun e =>
         match e with
         | CalledProcessError =>
             Some (bind (fail ("Failed to download " ++ model))
                     (fun _ => print LvPlain ("Try manually: ollama pull " ++ model)))
         | _ => None
         end) s = (Ok tt, s1) /\
    commands (trace s1) = (commands (trace s) ++ [pull_of model])%list.
Proof.
  intros (rc & out & Hp).
  unfold try_except, subprocess_run, ok, fail, print, bind, emit. rewrite Hp.
  destruct (true && negb (rc =? 0)); simpl;
    eexists; (split; [reflexivity|]); simpl;
    rewrite !commands_app; simpl; now rewrite ?app_nil_r.
Qed.

(** X20: a download that fails does not stop the others.  When every
    [ollama pull] runs to an exit status, zero or not, the loop returns
    and has run one [ollama pull] for each model still needed, in
    order, and no other command. *)
Theorem X20_every_model_is_pulled (env : Env) (needed : list string)
  (s : State) :
  (forall m, In m needed ->
             exists rc out, proc env (pull_of m) = Exited rc out) ->
  exists s',
    pull_all env needed s = (Ok tt, s') /\
    commands (trace s') = (commands (trace s) ++ map pull_of needed)%list.
Proof.
  revert s. induction needed as [|m rest IH]; intros s H.
  - exists s. split; [reflexivity|]. simpl. now rewrite app_nil_r.
  - unfold pull_all; fold pull_all.
    rewrite (bind_run _ _ s (record (EvPrint LvInfo ("Pulling " ++ m)) s) tt)
      by reflexivity.
    destruct (pull_one env m (record (EvPrint LvInfo ("Pulling " ++ m)) s)
                (H m (or_introl eq_refl))) as (s1 & Hone & Hc1).
    fold (pull_of m). rewrite (bind_run _ _ _ _ _ Hone).
    destruct (IH s1) as (s' & Hrun & Hcmd).
    { intros m' Hin. apply H. now right. }
    exists s'. split; [exact Hrun|].
    rewrite Hcmd, Hc1. simpl. rewrite commands_app. simpl.
    now rewrite app_nil_r, <- app_assoc.
Qed.

Lemma X20_every_model_is_pulled_witness :
  exists s',
    pull_all no_download_env ["qwen3:8b"; "gemma3:9b"] empty_state = (Ok tt, s') /\
    commands (trace s') = [pull_of "qwen3:8b"; pull_of "gemma3:9b"].
Proof.
  apply (X20_every_model_is_pulled no_download_env
           ["qwen3:8b"; "gemma3:9b"] empty_state).
  intros m _. exists 1, "". reflexivity.
Defined.

Lemma idle_refl (s : State) : idle s s.
Proof. now split. Qed.

Lemma idle_trans (s1 s2 s3 : State) : idle s1 s2 -> idle s2 s3 -> idle s1 s3.
Proof. intros [I1 C1] [I2 C2]. split; congruence. Qed.

Lemma idle_print (lv : level) (text : string) :
  respects idle anything (emit (EvPrint lv text)).
Proof.
  intros s. split; [|discriminate]. split; [reflexivity|].
  simpl. rewrite commands_app. simpl. now rewrite app_nil_r.
Qed.

Lemma idle_http_get (env : Env) (url : string) :
  respects idle anything (http_get env url).
Proof.
  intros s. split; [|discriminate]. split; [reflexivity|].
  simpl. rewrite commands_app. simpl. now rewrite app_nil_r.
Qed.

Lemma idle_raise {A} (e : exn) : respects idle anything (@raise A e).
Proof. apply respects_raise; [apply idle_refl | exact I]. Qed.

Create HintDb idle.

#[local] Hint Resolve idle_print idle_http_get idle_raise : idle.

Ltac idle_go :=
  open_helpers;
  repeat respects_step idle_refl idle_trans ltac:(solve [auto 3 with idle]).

Lemma idle_names_of (items : list json) :
  respects idle anything (names_of items).
Proof.
  induction items as [|m rest IH]; unfold names_of; fold names_of; idle_go.
Qed.

#[local] Hint Resolve idle_names_of : idle.

Lemma idle_ollama_models (env : Env) :
  respects idle anything (_ollama_models env).
Proof. unfold _ollama_models. idle_go. Qed.

Lemma input_or_reads (prompt current l : string) (rest : list string)
  (s : State) :
  stdin s = l :: rest ->
  input_or prompt current s =
  (Ok (or_current l current),
   mkState (files s) (dirs s) rest (http_count s)
     (trace s ++ [EvPrint LvPlain prompt])).
Proof.
  intros H. unfold input_or, print, bind, emit, input. simpl. now rewrite H.
Qed.

(** X21: the user's own choice of models.  Answering no to "Use these
    models?" and giving three lines makes each model the line without
    the blanks around it, or the recommended one where the line is blank;
    declining the download afterwards (asked only when a model is not
    there) returns that choice without a command being run. *)
Theorem X21_models_override (env : Env) (hw : Hardware) (st : State)
  (l0 e v w l5 : string) (rest : list string) :
  total (_ollama_models env) ->
  stdin st = l0 :: e :: v :: w :: l5 :: rest ->
  answer_of true l0 = Some false ->
  answer_of true l5 = Some false ->
  let tier := find_best_tier hw in
  fst (step_models env hw false st) =
    Ok (mkModels (or_current e (c_extract tier)) (or_current v (c_verify tier))
          (or_current w (c_write tier))) /\
  commands (trace (snd (step_models env hw false st))) = commands (trace st).
Proof.
  intros Htotal Hin H0 H5 tier.
  unfold step_models. fold tier.
  unfold banner, print.
  do 6 (erewrite bind_run by reflexivity).
  erewrite bind_run
    by (apply (ask_reads "Use these models?" true [] l0 (e :: v :: w :: l5 :: rest) false);
        [constructor | exact Hin | exact H0]).
  cbv beta iota delta [negb].
  erewrite bind_run.
  2:{ erewrite bind_run by (apply input_or_reads; reflexivity).
      erewrite bind_run by (apply input_or_reads; reflexivity).
      erewrite bind_run by (apply input_or_reads; reflexivity).
      reflexivity. }
  cbn [m_extract m_verify m_write].
  set (models := mkModels _ _ _).
  match goal with
  | |- context [bind (_ollama_models env) ?k ?s] =>
      destruct (Htotal s) as [available Hav];
      pose proof (respects_run idle anything (_ollama_models env) s) as Hidle;
      destruct (_ollama_models env s) as [r s1] eqn:Hrun;
      simpl in Hav; subst r;
      specialize (Hidle s1 (Ok available) (idle_ollama_models env) eq_refl);
      rewrite (bind_run _ k s s1 available Hrun)
  end.
  destruct Hidle as [Hstdin Hcmd]. simpl in Hstdin, Hcmd.
  rewrite !commands_app in Hcmd. simpl in Hcmd. rewrite !app_nil_r in Hcmd.
  set (uniq := unique _).
  assert (Hquiet : forall (m : M unit),
            (m = ret tt \/ exists lv text, m = emit (EvPrint lv text)) ->
            exists s2, m s1 = (Ok tt, s2) /\ stdin s2 = stdin s1 /\
                       commands (trace s2) = commands (trace s1)).
  { intros m [->|(lv & text & ->)].
    - exists s1. now repeat split.
    - eexists. split; [reflexivity|]. split; [reflexivity|].
      simpl. rewrite commands_app. simpl. now rewrite app_nil_r. }
  destruct (Hquiet (match List.filter (fun m => mem m available) uniq with
                    | [] => ret tt
                    | _ => ok "Already pulled"
                    end)) as (s2 & Hrun2 & Hstdin2 & Hcmd2).
  { destruct (List.filter _ uniq); [now left | right].
    now exists LvOk, "Already pulled". }
  rewrite (bind_run _ _ _ _ _ Hrun2).
  match goal with
  | |- context [(match ?needed with [] => _ | _ :: _ => _ end) s2] =>
      destruct needed
  end.
  - unfold ok, print, bind, emit, ret. simpl.
    split; [reflexivity|].
    rewrite commands_app. simpl. rewrite app_nil_r. congruence.
  - unfold print. erewrite bind_run by reflexivity.
    erewrite bind_run
      by (apply (ask_reads "Download now?" true [] l5 rest false);
          [constructor | simpl; congruence | exact H5]).
    cbv beta iota delta [negb].
    unfold warn, print, bind, emit, ret. simpl.
    split; [reflexivity|].
    rewrite !commands_app. simpl. rewrite !app_nil_r. congruence.
Qed.

Lemma X21_models_override_witness :
  let hw := mkHardware false "none" None 0 (8 # 1) (Some 4) in
  fst (step_models (bare_env "Linux") hw false
         (with_files [] [] ["n"; " llama3:8b "; ""; "mistral"; "no"])) =
    Ok (mkModels "llama3:8b" "phi3:mini" "mistral").
Proof.
  intros hw.
  exact (proj1 (X21_models_override (bare_env "Linux") hw
                  (with_files [] [] ["n"; " llama3:8b "; ""; "mistral"; "no"])
                  "n" " llama3:8b " "" "mistral" "no" []
                  ltac:(intros s; exists []; reflexivity)
                  eq_refl eq_refl eq_refl)).
Defined.
